(** * FlowForge AI: the usage-limit engine, the upgrade-offer hook,
      the workflow generator and its route, embedded in Rocq.

    Source files embedded here:
    - [usageService]   (class [UsageService]): quotas, admission, summary,
      conversion probability;
    - [useUsage] / [useConversionOptimization]: the hooks built on it;
    - [openaiService]  (class [OpenAIService]): generation with fallback;
    - [server/routes/workflow.ts]: the POST /api/generate-workflow handler;
    - [server/index.ts]: how that handler is mounted.

    Conventions.
    - Counters ([used], [limit], token counts, clock readings in
      milliseconds) are integers, modelled in [Z].
    - Quotients, weighted scores and the [remaining] of an admission check
      are JavaScript numbers; they are modelled by exact rationals extended
      with the three IEEE special values, so that division by zero behaves
      as it does in the source ([x/0] is an infinity, [0/0] is NaN,
      comparisons with NaN are false). An integer stands for the number it
      denotes.
    - A JavaScript object used as a map is a list of (key, value) pairs in
      property enumeration order; reading a key returns the first binding.
      The list holds the own properties; [JS.inherited] tells the names the
      object inherits from [Object.prototype], for the places where the
      source reads a property under a name it does not control.
    - A string is a [string]; one character stands for one code unit. *)

From Stdlib Require Import ZArith QArith Qminmax String Ascii List Bool Lia Lqa.
From Stdlib Require Import DecimalString.
Import ListNotations.

Open Scope string_scope.
Open Scope Z_scope.

(* ================================================================== *)
(** ** JavaScript values used by the sources *)
(* ================================================================== *)

Module JS.

(** *** Numbers *)

Inductive number : Type :=
| Fin (q : Q)
| PosInf
| NegInf
| NaN.

Definition of_Z (z : Z) : number := Fin (inject_Z z).

Definition sgn (q : Q) : comparison := (Qnum q ?= 0)%Z.

Definition neg (a : number) : number :=
  match a with
  | Fin x => Fin (- x)
  | PosInf => NegInf
  | NegInf => PosInf
  | NaN => NaN
  end.

Definition add (a b : number) : number :=
  match a, b with
  | NaN, _ | _, NaN => NaN
  | Fin x, Fin y => Fin (x + y)
  | PosInf, NegInf | NegInf, PosInf => NaN
  | PosInf, _ | _, PosInf => PosInf
  | NegInf, _ | _, NegInf => NegInf
  end.

Definition sub (a b : number) : number := add a (neg b).

Definition scale_inf (pos : bool) (x : Q) : number :=
  match sgn x with
  | Eq => NaN
  | Gt => if pos then PosInf else NegInf
  | Lt => if pos then NegInf else PosInf
  end.

Definition mul (a b : number) : number :=
  match a, b with
  | NaN, _ | _, NaN => NaN
  | Fin x, Fin y => Fin (x * y)
  | Fin x, PosInf | PosInf, Fin x => scale_inf true x
  | Fin x, NegInf | NegInf, Fin x => scale_inf false x
  | PosInf, PosInf | NegInf, NegInf => PosInf
  | PosInf, NegInf | NegInf, PosInf => NegInf
  end.

Definition div (a b : number) : number :=
  match a, b with
  | NaN, _ | _, NaN => NaN
  | Fin x, Fin y =>
      match sgn y with
      | Eq => match sgn x with
              | Eq => NaN
              | Gt => PosInf
              | Lt => NegInf
              end
      | _ => Fin (x / y)
      end
  | Fin _, _ => Fin 0
  | PosInf, Fin y => match sgn y with Lt => NegInf | _ => PosInf end
  | NegInf, Fin y => match sgn y with Lt => PosInf | _ => NegInf end
  | _, _ => NaN
  end.

(** [a > b], false as soon as one side is NaN. *)
Definition gtb (a b : number) : bool :=
  match a, b with
  | NaN, _ | _, NaN => false
  | Fin x, Fin y => negb (Qle_bool x y)
  | PosInf, PosInf => false
  | PosInf, _ => true
  | _, NegInf => match a with NegInf => false | _ => true end
  | _, _ => false
  end.

(** [Math.min] and [Math.max]: NaN is contagious. *)
Definition min (a b : number) : number :=
  match a, b with
  | NaN, _ | _, NaN => NaN
  | _, _ => if gtb a b then b else a
  end.

Definition max (a b : number) : number :=
  match a, b with
  | NaN, _ | _, NaN => NaN
  | _, _ => if gtb a b then a else b
  end.


(** *** Objects used as maps *)

Definition object (A : Type) : Type := list (string * A).

Fixpoint get {A : Type} (o : object A) (k : string) : option A :=
  match o with
  | [] => None
  | (k', v) :: rest => if String.eqb k' k then Some v else get rest k
  end.

(** [o[k] = v]: overwrite in place, or append a new property. *)
Fixpoint set {A : Type} (o : object A) (k : string) (v : A) : object A :=
  match o with
  | [] => [(k, v)]
  | (k', v') :: rest =>
      if String.eqb k' k then (k, v) :: rest else (k', v') :: set rest k v
  end.

Definition keys {A : Type} (o : object A) : list string := map fst o.

(** An object literal and a deserialised document inherit from
    [Object.prototype]. For an object without an own property of that name,
    [o[k]] under one of these names is the inherited function (under
    [__proto__], the prototype object itself): a truthy value that has no
    property [used], [limit] or [isPrimary] and no enumerable property of
    its own. Under any other name it is [undefined]. *)
Definition object_prototype_names : list string :=
  [ "constructor"; "hasOwnProperty"; "isPrototypeOf"; "propertyIsEnumerable";
    "toString"; "toLocaleString"; "valueOf"; "__proto__";
    "__defineGetter__"; "__defineSetter__";
    "__lookupGetter__"; "__lookupSetter__" ].

Definition inherited (k : string) : bool :=
  existsb (String.eqb k) object_prototype_names.

(** *** JSON documents *)

#[local] Set Warnings "-register-all".

Inductive json : Type :=
| JNull
| JBool (b : bool)
| JNum (q : Q)
| JStr (s : string)
| JArr (items : list json)
| JObj (fields : list (string * json)).

(** A JavaScript value read from a document: [None] is [undefined]. *)
Definition value : Type := option json.

Definition truthy (v : value) : bool :=
  match v with
  | None | Some JNull => false
  | Some (JBool b) => b
  | Some (JNum q) => negb (Qeq_bool q 0)
  | Some (JStr s) => negb (String.eqb s "")
  | Some (JArr _) | Some (JObj _) => true
  end.

Definition isArray (v : value) : bool :=
  match v with
  | Some (JArr _) => true
  | _ => false
  end.

(** [typeof v === "object"] *)
Definition typeof_object (v : value) : bool :=
  match v with
  | Some JNull | Some (JArr _) | Some (JObj _) => true
  | _ => false
  end.

(** [typeof v === "string"] *)
Definition typeof_string (v : value) : bool :=
  match v with
  | Some (JStr _) => true
  | _ => false
  end.

(** Code that may throw: [Throw msg] carries the error's message. *)
Inductive exc (A : Type) : Type :=
| Ok (a : A)
| Throw (msg : string).
Arguments Ok {A} a.
Arguments Throw {A} msg.

Definition bind {A B : Type} (m : exc A) (f : A -> exc B) : exc B :=
  match m with
  | Ok a => f a
  | Throw msg => Throw msg
  end.

Definition json_of_nat (n : nat) : json := JNum (inject_Z (Z.of_nat n)).

(** [v.k]: a TypeError on [null] and [undefined], the own property of an
    object, [length] of an array or a string, [undefined] otherwise. *)
Definition prop (v : value) (k : string) : exc value :=
  match v with
  | None => Throw "TypeError: Cannot read properties of undefined"
  | Some JNull => Throw "TypeError: Cannot read properties of null"
  | Some (JObj fields) => Ok (get fields k)
  | Some (JArr items) =>
      Ok (if String.eqb k "length" then Some (json_of_nat (List.length items))
          else None)
  | Some (JStr s) =>
      Ok (if String.eqb k "length" then Some (json_of_nat (String.length s))
          else None)
  | Some (JBool _) | Some (JNum _) => Ok None
  end.

(** [v?.k] *)
Definition opt_prop (v : value) (k : string) : exc value :=
  match v with
  | None | Some JNull => Ok None
  | _ => prop v k
  end.

(** [v === 0] *)
Definition is_zero (v : value) : bool :=
  match v with
  | Some (JNum q) => Qeq_bool q 0
  | _ => false
  end.

(** [Object.keys(v).length] for a value that is not [null] or [undefined]. *)
Definition keys_length (v : value) : exc Z :=
  match v with
  | None | Some JNull =>
      Throw "TypeError: Cannot convert undefined or null to object"
  | Some (JObj fields) => Ok (Z.of_nat (List.length fields))
  | Some (JArr items) => Ok (Z.of_nat (List.length items))
  | Some (JStr s) => Ok (Z.of_nat (String.length s))
  | Some (JBool _) | Some (JNum _) => Ok 0
  end.

(** Decimal rendering of an integer inside a template literal. *)
Definition string_of_Z (z : Z) : string :=
  NilZero.string_of_int (Z.to_int z).

(** White space removed by [String.prototype.trim], within one byte. *)
Definition is_space (c : ascii) : bool :=
  let n := nat_of_ascii c in
  (Nat.leb 9 n && Nat.leb n 13)%bool || Nat.eqb n 32 || Nat.eqb n 160.

Fixpoint trim_start (s : string) : string :=
  match s with
  | EmptyString => EmptyString
  | String c rest => if is_space c then trim_start rest else s
  end.

(** Drops trailing white space: the tail is trimmed first, and a space is
    kept exactly when something remains after it. *)
Fixpoint trim_end (s : string) : string :=
  match s with
  | EmptyString => EmptyString
  | String c rest =>
      match trim_end rest with
      | EmptyString => if is_space c then EmptyString else String c EmptyString
      | kept => String c kept
      end
  end.

Definition trim (s : string) : string := trim_end (trim_start s).

End JS.

(** An integer is read as the JavaScript number it denotes. *)
Coercion JS.of_Z : Z >-> JS.number.

(* ================================================================== *)
(** ** usageService *)
(* ================================================================== *)

Module Usage.

Record UsageData : Type := {
  used : Z;
  limit : Z;
  isPrimary : bool
}.

Definition UserUsage : Type := JS.object UsageData.

Inductive ConversionTrigger : Type :=
| primary_platform_limit
| secondary_platform_limit.

Definition trigger_name (t : ConversionTrigger) : string :=
  match t with
  | primary_platform_limit => "primary_platform_limit"
  | secondary_platform_limit => "secondary_platform_limit"
  end.

Record UsageLimit : Type := {
  allowed : bool;
  remaining : JS.number;
  isAtLimit : bool;
  willTriggerUpgrade : bool;
  conversionTrigger : option ConversionTrigger;
  message : option string
}.

(** *** The world outside the arguments

    [checkUsageLimit] calls [trackConversionOpportunity], which reads the
    clock and adds a document to the Firestore collection
    [conversion_opportunities]; a failed write is caught and logged. *)

Record ConversionOpportunity : Type := {
  co_userId : string;
  co_platform : string;
  co_trigger : string;
  co_timestamp : Z;
  co_converted : bool
}.

Record World : Type := {
  clock : Z;
  firestore_available : bool;
  conversion_opportunities : list ConversionOpportunity;
  console : list string
}.

Definition Eff (A : Type) : Type := World -> A * World.

Definition ret {A : Type} (a : A) : Eff A := fun w => (a, w).

Definition bind {A B : Type} (m : Eff A) (f : A -> Eff B) : Eff B :=
  fun w => let (a, w') := m w in f a w'.

Notation "x <- m ;; k" := (bind m (fun x => k))
  (at level 61, m at next level, right associativity).
Notation "m ;;; k" := (bind m (fun _ => k))
  (at level 61, right associativity).

Definition result {A : Type} (m : Eff A) (w : World) : A := fst (m w).
Definition world_after {A : Type} (m : Eff A) (w : World) : World := snd (m w).

Definition platforms : list string := ["n8n"; "zapier"; "make"; "power_automate"].

(** [calculateInitialUsage]: the [forEach] over [this.platforms]. *)
Definition calculateInitialUsage (primaryPlatform : string) : UserUsage :=
  fold_left
    (fun (usage : UserUsage) (platform : string) =>
       if String.eqb platform primaryPlatform then
         JS.set usage platform {| used := 0; limit := 3; isPrimary := true |}
       else
         JS.set usage platform {| used := 0; limit := 10; isPrimary := false |})
    platforms [].

Definition trackConversionOpportunity
    (userId platform trigger : string) : Eff unit :=
  fun w =>
    if firestore_available w then
      (tt, {| clock := clock w;
              firestore_available := firestore_available w;
              conversion_opportunities :=
                conversion_opportunities w ++
                [ {| co_userId := userId;
                     co_platform := platform;
                     co_trigger := trigger;
                     co_timestamp := clock w;
                     co_converted := false |} ];
              console := console w |})
    else
      (tt, {| clock := clock w;
              firestore_available := firestore_available w;
              conversion_opportunities := conversion_opportunities w;
              console :=
                console w ++ ["Error tracking conversion opportunity:"] |}).

Definition is_unlimited_plan (userPlan : string) : bool :=
  String.eqb userPlan "pro" || String.eqb userPlan "enterprise".

Definition limit_message (platformUsage : UsageData) (platform : string) : string :=
  if isPrimary platformUsage then
    "You've used all " ++ JS.string_of_Z (limit platformUsage) ++ " " ++ platform
    ++ " workflows this month. Upgrade to Pro for unlimited access to your main platform!"
  else
    "You've used all " ++ JS.string_of_Z (limit platformUsage) ++ " " ++ platform
    ++ " workflows this month. Try " ++ platform ++ " with unlimited Pro access!".

Definition checkUsageLimit
    (userId platform userPlan : string) (currentUsage : UserUsage)
  : Eff UsageLimit :=
  if is_unlimited_plan userPlan then
    ret {| allowed := true;
           remaining := 999999;
           isAtLimit := false;
           willTriggerUpgrade := false;
           conversionTrigger := None;
           message := None |}
  else
    match JS.get currentUsage platform with
    | None =>
        if JS.inherited platform then
          (* [platformUsage] is the inherited value: truthy, and both
             [limit] and [used] are undefined, so [remaining] is NaN and
             [remaining <= 0] and [remaining <= 1] are false. *)
          ret {| allowed := true;
                 remaining := JS.NaN;
                 isAtLimit := false;
                 willTriggerUpgrade := false;
                 conversionTrigger := None;
                 message := None |}
        else
          ret {| allowed := false;
                 remaining := 0;
                 isAtLimit := true;
                 willTriggerUpgrade := false;
                 conversionTrigger := None;
                 message := Some "Platform not found in user usage data" |}
    | Some platformUsage =>
        let remaining_ := limit platformUsage - used platformUsage in
        let isAtLimit_ := remaining_ <=? 0 in
        let willTriggerUpgrade_ := (remaining_ <=? 1) && isPrimary platformUsage in
        if isAtLimit_ then
          let conversionTrigger_ :=
            if isPrimary platformUsage then primary_platform_limit
            else secondary_platform_limit in
          let message_ := limit_message platformUsage platform in
          trackConversionOpportunity userId platform
            (trigger_name conversionTrigger_) ;;;
          ret {| allowed := false;
                 remaining := 0;
                 isAtLimit := true;
                 willTriggerUpgrade := isPrimary platformUsage;
                 conversionTrigger := Some conversionTrigger_;
                 message := Some message_ |}
        else
          ret {| allowed := true;
                 remaining := remaining_;
                 isAtLimit := false;
                 willTriggerUpgrade := willTriggerUpgrade_;
                 conversionTrigger := None;
                 message := None |}
    end.

Record UsageSummary : Type := {
  totalUsed : Z;
  totalLimit : Z;
  platformsAtLimit : list string;
  primaryPlatformUsage : Z;
  secondaryPlatformsUsage : Z
}.

(** One turn of the [forEach] in [getUsageSummary]. *)
Definition summary_step (acc : UsageSummary) (entry : string * UsageData)
  : UsageSummary :=
  let (platform, data) := entry in
  {| totalUsed := totalUsed acc + used data;
     totalLimit := totalLimit acc + limit data;
     platformsAtLimit :=
       if limit data <=? used data
       then platformsAtLimit acc ++ [platform]
       else platformsAtLimit acc;
     primaryPlatformUsage :=
       if isPrimary data then used data else primaryPlatformUsage acc;
     secondaryPlatformsUsage :=
       if isPrimary data then secondaryPlatformsUsage acc
       else secondaryPlatformsUsage acc + used data |}.

Definition getUsageSummary (usage : UserUsage) : UsageSummary :=
  fold_left summary_step usage
    {| totalUsed := 0;
       totalLimit := 0;
       platformsAtLimit := [];
       primaryPlatformUsage := 0;
       secondaryPlatformsUsage := 0 |}.

(** [Object.keys(usage).find((k) => usage[k].isPrimary)] *)
Definition find_primary (usage : UserUsage) : option string :=
  find (fun k => match JS.get usage k with
                 | Some data => isPrimary data
                 | None => false
                 end)
       (JS.keys usage).

(** [found || "n8n"]: the empty key is falsy too. *)
Definition primary_key (usage : UserUsage) : string :=
  match find_primary usage with
  | Some k => if String.eqb k "" then "n8n" else k
  | None => "n8n"
  end.

Definition predictConversionProbability
    (usage : UserUsage) (daysSinceSignup : JS.number) : JS.exc JS.number :=
  let summary := getUsageSummary usage in
  match JS.get usage (primary_key usage) with
  | None => JS.Throw "TypeError: Cannot read properties of undefined (reading 'limit')"
  | Some primary =>
      let primaryUsageRate :=
        JS.div (JS.of_Z (primaryPlatformUsage summary)) (JS.of_Z (limit primary)) in
      let explorationScore :=
        if 0 <? secondaryPlatformsUsage summary
        then JS.Fin (12 # 10) else JS.Fin 1 in
      let timeScore :=
        JS.min (JS.div daysSinceSignup (JS.of_Z 14)) (JS.Fin 1) in
      let baseProbability :=
        JS.add
          (JS.add (JS.mul primaryUsageRate (JS.Fin (6 # 10)))
                  (JS.mul timeScore (JS.Fin (3 # 10))))
          (JS.mul (JS.sub explorationScore (JS.Fin 1)) (JS.Fin (1 # 10))) in
      JS.Ok (JS.min (JS.max baseProbability (JS.Fin 0)) (JS.Fin 1))
  end.

(** The two pure computations, seen as effects that leave the world alone. *)
Definition getUsageSummary_run (usage : UserUsage) : Eff UsageSummary :=
  ret (getUsageSummary usage).

Definition predictConversionProbability_run
    (usage : UserUsage) (daysSinceSignup : JS.number) : Eff (JS.exc JS.number) :=
  ret (predictConversionProbability usage daysSinceSignup).

(** *** Vocabulary of the statements below *)

(** A world used to run the examples: clock at 1000 ms, Firestore up,
    nothing recorded yet. *)
Definition quiet_world : World :=
  {| clock := 1000;
     firestore_available := true;
     conversion_opportunities := [];
     console := [] |}.

(** The same world with Firestore down and one record already stored. *)
Definition busy_world : World :=
  {| clock := 2000;
     firestore_available := false;
     conversion_opportunities :=
       [ {| co_userId := "u0"; co_platform := "make";
            co_trigger := "secondary_platform_limit";
            co_timestamp := 7; co_converted := true |} ];
     console := [] |}.

(** The classification a blocked platform receives. *)
Definition trigger_for (d : UsageData) : ConversionTrigger :=
  if isPrimary d then primary_platform_limit else secondary_platform_limit.

(** The three computations are pure: none of them changes the world. *)
Definition usage_computations_are_pure : Prop :=
  (forall userId platform userPlan currentUsage w,
      world_after (checkUsageLimit userId platform userPlan currentUsage) w = w) /\
  (forall usage w, world_after (getUsageSummary_run usage) w = w) /\
  (forall usage daysSinceSignup w,
      world_after (predictConversionProbability_run usage daysSinceSignup) w = w).

(** The primary platform used up, and nothing else. *)
Definition exhausted_primary : UserUsage :=
  [ ("zapier", {| used := 3; limit := 3; isPrimary := true |}) ].

(** The user is blocked at the quota. *)
Definition blocked_at_quota
    (userPlan platform : string) (currentUsage : UserUsage) (d : UsageData) : Prop :=
  is_unlimited_plan userPlan = false /\
  JS.get currentUsage platform = Some d /\
  limit d <= used d.

Definition in_unit_interval (x : JS.number) : Prop :=
  match x with
  | JS.Fin q => (0 <= q /\ q <= 1)%Q
  | _ => False
  end.

Definition nonnegative (x : JS.number) : Prop :=
  match x with
  | JS.Fin q => (0 <= q)%Q
  | JS.PosInf => True
  | _ => False
  end.

(** Some platform of the map is primary and has a positive limit. *)
Definition has_primary_with_positive_limit (usage : UserUsage) : Prop :=
  exists k d, In (k, d) usage /\ isPrimary d = true /\ 0 < limit d.

(** The bound on [predictConversionProbability] under that assumption. *)
Definition probability_bounded_given_some_primary : Prop :=
  forall (usage : UserUsage) (daysSinceSignup : JS.number),
    has_primary_with_positive_limit usage ->
    nonnegative daysSinceSignup ->
    exists p, predictConversionProbability usage daysSinceSignup = JS.Ok p /\
              in_unit_interval p.

(** Two primaries; the first one in key order has limit 0. *)
Definition two_primaries : UserUsage :=
  [ ("zapier", {| used := 0; limit := 0; isPrimary := true |});
    ("n8n", {| used := 0; limit := 3; isPrimary := true |}) ].

End Usage.

(* ================================================================== *)
(** ** useUsage and useConversionOptimization *)
(* ================================================================== *)

Module Hooks.

(** [createdAt] is the instant that [new Date(userProfile.createdAt)]
    denotes, in milliseconds; [usage] is absent until the profile document
    carries one. *)
Record UserProfile : Type := {
  uid : string;
  plan : string;
  createdAt : Z;
  usage : option Usage.UserUsage
}.

(** [userProfile?.usage || null] *)
Definition usage_of (userProfile : option UserProfile) : option Usage.UserUsage :=
  match userProfile with
  | Some profile => usage profile
  | None => None
  end.

Definition checkLimit (userProfile : option UserProfile) (platform : string)
  : Usage.Eff Usage.UsageLimit :=
  match userProfile, usage_of userProfile with
  | Some profile, Some u =>
      Usage.checkUsageLimit (uid profile) platform (plan profile) u
  | _, _ =>
      Usage.ret {| Usage.allowed := false;
                   Usage.remaining := 0;
                   Usage.isAtLimit := true;
                   Usage.willTriggerUpgrade := false;
                   Usage.conversionTrigger := None;
                   Usage.message := Some "User profile not loaded" |}
  end.

Definition usageSummary (userProfile : option UserProfile)
  : option Usage.UsageSummary :=
  match usage_of userProfile with
  | Some u => Some (Usage.getUsageSummary u)
  | None => None
  end.

Definition ms_per_day : Z := 1000 * 60 * 60 * 24.

(** [Math.floor((Date.now() - createdAt) / ms_per_day)] *)
Definition daysSinceSignup (now : Z) (profile : UserProfile) : Z :=
  (now - createdAt profile) / ms_per_day.

Record UpgradeOffer : Type := {
  discount : Z;
  urgency : string;
  features : list string
}.

Definition offer_features : list string :=
  [ "Unlimited workflows on ALL platforms";
    "Priority support and faster generation";
    "Advanced workflow templates";
    "Team collaboration features";
    "Export to multiple formats" ].

Definition getOptimalUpgradeOffer
    (userProfile : option UserProfile) (now : Z) : UpgradeOffer :=
  match userProfile, usageSummary userProfile with
  | Some profile, Some summary =>
      let days := daysSinceSignup now profile in
      let totalUsageRate :=
        JS.div (JS.of_Z (Usage.totalUsed summary))
               (JS.of_Z (Usage.totalLimit summary)) in
      if (0 <? Z.of_nat (List.length (Usage.platformsAtLimit summary))) then
        {| discount := 25;
           urgency := "Limited time: 25% off to remove all limits!";
           features := offer_features |}
      else if JS.gtb totalUsageRate (JS.Fin (8 # 10)) then
        {| discount := 20;
           urgency := "High usage detected: 20% off Pro plan!";
           features := offer_features |}
      else if days <=? 7 then
        {| discount := 30;
           urgency := "New user special: 30% off first month!";
           features := offer_features |}
      else
        {| discount := 0; urgency := ""; features := offer_features |}
  | _, _ => {| discount := 0; urgency := ""; features := [] |}
  end.

(** *** Vocabulary of the statements below *)

(** At least one platform of the map is at its limit. *)
Definition some_platform_at_limit (u : Usage.UserUsage) : Prop :=
  exists k d, In (k, d) u /\ Usage.limit d <= Usage.used d.

(** Total used divided by total limit exceeds 0.8. *)
Definition usage_rate_above_80_percent (s : Usage.UsageSummary) : Prop :=
  Usage.totalLimit s <> 0 /\
  (8 # 10 < inject_Z (Usage.totalUsed s) / inject_Z (Usage.totalLimit s))%Q.

(** A free profile created at instant 0 whose primary platform, zapier, is
    used up. *)
Definition profile_at_limit : UserProfile :=
  {| uid := "u1";
     plan := "free";
     createdAt := 0;
     usage :=
       Some [ ("n8n", {| Usage.used := 0; Usage.limit := 10; Usage.isPrimary := false |});
              ("zapier", {| Usage.used := 3; Usage.limit := 3; Usage.isPrimary := true |}) ] |}.

(** The last two rules of the offer as a count of the time elapsed would
    decide them: 30 percent up to and including 7 days after signup,
    nothing after. *)
Definition new_user_offer_ends_after_7_days : Prop :=
  forall (profile : UserProfile) (u : Usage.UserUsage) (now : Z),
    usage profile = Some u ->
    ~ some_platform_at_limit u ->
    ~ usage_rate_above_80_percent (Usage.getUsageSummary u) ->
    (now - createdAt profile <= 7 * ms_per_day ->
     discount (getOptimalUpgradeOffer (Some profile) now) = 30) /\
    (7 * ms_per_day < now - createdAt profile ->
     discount (getOptimalUpgradeOffer (Some profile) now) = 0).

(** A free profile created at instant 0 that has generated nothing yet. *)
Definition untouched_profile : UserProfile :=
  {| uid := "u4";
     plan := "free";
     createdAt := 0;
     usage := Some (Usage.calculateInitialUsage "zapier") |}.

(** Seven days and twelve hours, in milliseconds. *)
Definition seven_days_and_a_half : Z := 7 * ms_per_day + 12 * 60 * 60 * 1000.

End Hooks.

(* ================================================================== *)
(** ** openaiService *)
(* ================================================================== *)

Module OpenAI.

Import JS.

Inductive Platform : Type := n8n | zapier | make | power_automate.

Definition platform_name (p : Platform) : string :=
  match p with
  | n8n => "n8n"
  | zapier => "zapier"
  | make => "make"
  | power_automate => "power_automate"
  end.

Record WorkflowGenerationRequest : Type := {
  input : string;
  platform : Platform;
  userId : string
}.

Inductive Complexity : Type := simple | medium | complex.

Record Metadata : Type := {
  md_platform : Platform;
  nodesCount : Z;
  complexity : Complexity;
  tokensUsed : Z;
  generationTime : Z
}.

Record WorkflowGenerationResponse : Type := {
  success : bool;
  workflow : json;
  metadata : Metadata;
  error : option string
}.

(** What the chat-completion call resolves to: the [message.content] of each
    choice ([None] is [null]) and [usage?.total_tokens]. *)
Record ChatCompletion : Type := {
  choices : list (option string);
  total_tokens : option Z
}.

(** The surroundings of one call of [generateWorkflow]: the three readings
    of [Date.now()], the chat-completion endpoint (its system prompt is a
    function of the platform, its user message of platform and input) and
    [JSON.parse]. *)
Record Env : Type := {
  now_start : Z;
  now_after_api : Z;
  now_in_catch : Z;
  chat_completions_create : Platform -> string -> exc ChatCompletion;
  JSON_parse : string -> exc json
}.

(** The checks of one [case] run in order; a throw inside the [try] stops
    them and adds one last error. *)
Fixpoint run_checks (checks : list (exc (option string))) : list string :=
  match checks with
  | [] => []
  | Ok None :: rest => run_checks rest
  | Ok (Some e) :: rest => e :: run_checks rest
  | Throw msg :: _ => ["Validation error: " ++ msg]
  end.

Definition report (failed : bool) (e : string) : exc (option string) :=
  Ok (if failed then Some e else None).

Definition validateWorkflow_checks (w : json) (platform : string)
  : list (exc (option string)) :=
  if String.eqb platform "n8n" then
    [ bind (prop (Some w) "nodes") (fun nodes =>
        report (negb (truthy nodes) || negb (isArray nodes))
               "n8n workflow must have nodes array");
      bind (prop (Some w) "connections") (fun connections =>
        report (negb (truthy connections) || negb (typeof_object connections))
               "n8n workflow must have connections object");
      bind (prop (Some w) "nodes") (fun nodes =>
        if truthy nodes then
          bind (prop nodes "length") (fun len =>
            report (is_zero len) "n8n workflow must have at least one node")
        else Ok None) ]
  else if String.eqb platform "zapier" then
    [ bind (prop (Some w) "steps") (fun steps =>
        report (negb (truthy steps) || negb (isArray steps))
               "Zapier workflow must have steps array");
      bind (prop (Some w) "title") (fun title =>
        report (negb (truthy title) || negb (typeof_string title))
               "Zapier workflow must have title") ]
  else if String.eqb platform "make" then
    [ bind (prop (Some w) "flow") (fun flow =>
        report (negb (truthy flow) || negb (isArray flow))
               "Make scenario must have flow array");
      bind (prop (Some w) "name") (fun name =>
        report (negb (truthy name) || negb (typeof_string name))
               "Make scenario must have name") ]
  else if String.eqb platform "power_automate" then
    [ bind (prop (Some w) "definition") (fun definition =>
        report (negb (truthy definition) || negb (typeof_object definition))
               "Power Automate flow must have definition object");
      bind (prop (Some w) "definition") (fun definition =>
        bind (opt_prop definition "triggers") (fun triggers =>
          if negb (truthy triggers) then
            Ok (Some "Power Automate flow must have triggers")
          else
            bind (prop definition "triggers") (fun triggers' =>
              report (negb (typeof_object triggers'))
                     "Power Automate flow must have triggers"))) ]
  else
    [ Ok (Some ("Unsupported platform: " ++ platform)) ].

Record Validation : Type := {
  valid : bool;
  errors : list string
}.

Definition validateWorkflow (w : json) (platform : string) : Validation :=
  let errs := run_checks (validateWorkflow_checks w platform) in
  {| valid := Nat.eqb (List.length errs) 0; errors := errs |}.

Definition array_length (v : value) : Z :=
  match v with
  | Some (JArr items) => Z.of_nat (List.length items)
  | _ => 0
  end.

Definition countNodes (w : json) : exc Z :=
  bind (prop (Some w) "nodes") (fun nodes =>
    if truthy nodes && isArray nodes then Ok (array_length nodes) else
  bind (prop (Some w) "steps") (fun steps =>
    if truthy steps && isArray steps then Ok (array_length steps) else
  bind (prop (Some w) "flow") (fun flow =>
    if truthy flow && isArray flow then Ok (array_length flow) else
  bind (prop (Some w) "definition") (fun definition =>
  bind (opt_prop definition "actions") (fun actions =>
    if truthy actions then
      bind (keys_length actions) (fun n => Ok (n + 1))
    else Ok 1))))).

Definition calculateComplexity (w : json) (input : string) : exc Complexity :=
  bind (countNodes w) (fun nodeCount =>
    let inputLength := Z.of_nat (String.length input) in
    if (6 <? nodeCount) || (150 <? inputLength) then Ok complex
    else if (3 <? nodeCount) || (75 <? inputLength) then Ok medium
    else Ok simple).

Definition num (z : Z) : json := JNum (inject_Z z).

Definition fallback_n8n : json :=
  JObj
    [ ("name", JStr "Demo Workflow");
      ("nodes",
        JArr
          [ JObj [ ("parameters",
                     JObj [ ("httpMethod", JStr "GET");
                            ("url", JStr "https://api.example.com/webhook") ]);
                   ("id", JStr "webhook-trigger");
                   ("name", JStr "Webhook Trigger");
                   ("type", JStr "n8n-nodes-base.webhook");
                   ("position", JArr [num 250; num 300]);
                   ("credentials", JObj []) ];
            JObj [ ("parameters",
                     JObj [ ("values",
                              JObj [ ("string",
                                       JArr [ JObj [ ("name", JStr "processed");
                                                     ("value", JStr "true") ] ]) ]) ]);
                   ("id", JStr "set-data");
                   ("name", JStr "Set Data");
                   ("type", JStr "n8n-nodes-base.set");
                   ("position", JArr [num 550; num 300]) ];
            JObj [ ("parameters",
                     JObj [ ("message", JStr "Workflow completed successfully") ]);
                   ("id", JStr "notify");
                   ("name", JStr "Send Notification");
                   ("type", JStr "n8n-nodes-base.emailSend");
                   ("position", JArr [num 850; num 300]) ] ]);
      ("connections",
        JObj
          [ ("Webhook Trigger",
              JObj [ ("main",
                       JArr [ JArr [ JObj [ ("node", JStr "Set Data");
                                            ("type", JStr "main");
                                            ("index", num 0) ] ] ]) ]);
            ("Set Data",
              JObj [ ("main",
                       JArr [ JArr [ JObj [ ("node", JStr "Send Notification");
                                            ("type", JStr "main");
                                            ("index", num 0) ] ] ]) ]) ]);
      ("active", JBool false);
      ("settings", JObj []);
      ("versionId", JStr "1.0") ].

Definition fallback_zapier (request : WorkflowGenerationRequest) : json :=
  JObj
    [ ("title", JStr "Demo Workflow");
      ("description", JStr ("Automated workflow: " ++ input request));
      ("steps",
        JArr
          [ JObj [ ("id", num 1);
                   ("meta", JObj [ ("app", JStr "webhook");
                                   ("action", JStr "catch_hook") ]);
                   ("params", JObj [ ("webhook_url", JStr "{{generated}}") ]) ];
            JObj [ ("id", num 2);
                   ("meta", JObj [ ("app", JStr "formatter");
                                   ("action", JStr "text") ]);
                   ("params", JObj [ ("transform", JStr "title_case") ]) ];
            JObj [ ("id", num 3);
                   ("meta", JObj [ ("app", JStr "email");
                                   ("action", JStr "send") ]);
                   ("params", JObj [ ("to", JStr "user@example.com");
                                     ("subject", JStr "Workflow Triggered") ]) ] ]) ].

Definition fallback_make_module (id : Z) (name : string) (parameters : json) : json :=
  JObj [ ("id", num id);
         ("module", JStr name);
         ("version", num 1);
         ("parameters", parameters);
         ("filter", JObj []);
         ("mapper", JObj []) ].

Definition fallback_make : json :=
  JObj
    [ ("name", JStr "Demo Scenario");
      ("team_id", JNull);
      ("flow",
        JArr
          [ fallback_make_module 1 "webhook" (JObj [ ("url", JStr "/webhook") ]);
            fallback_make_module 2 "json" (JObj [ ("action", JStr "parse") ]);
            fallback_make_module 3 "email" (JObj [ ("to", JStr "user@example.com") ]) ]);
      ("metadata", JObj [ ("designer", JObj [ ("x", num 0); ("y", num 0) ]) ]) ].

Definition fallback_power_automate : json :=
  JObj
    [ ("definition",
        JObj
          [ ("$schema",
              JStr "https://schema.management.azure.com/providers/Microsoft.Logic/schemas/2016-06-01/workflowdefinition.json#");
            ("contentVersion", JStr "1.0.0.0");
            ("parameters", JObj []);
            ("triggers",
              JObj [ ("http_trigger",
                       JObj [ ("type", JStr "Request");
                              ("inputs", JObj [ ("schema", JObj []) ]) ]) ]);
            ("actions",
              JObj
                [ ("compose_data",
                    JObj [ ("type", JStr "Compose");
                           ("inputs", JStr "@triggerBody()") ]);
                  ("send_email",
                    JObj [ ("type", JStr "Office365Outlook.SendEmail");
                           ("inputs",
                             JObj [ ("to", JStr "user@example.com");
                                    ("subject", JStr "Workflow Triggered");
                                    ("body",
                                      JStr "Your workflow has been executed successfully.") ]) ]) ]) ]) ].

Definition fallbackWorkflows (request : WorkflowGenerationRequest) (p : Platform)
  : json :=
  match p with
  | n8n => fallback_n8n
  | zapier => fallback_zapier request
  | make => fallback_make
  | power_automate => fallback_power_automate
  end.

Definition generateFallbackWorkflow
    (request : WorkflowGenerationRequest) (generationTime : Z)
  : exc WorkflowGenerationResponse :=
  let w := fallbackWorkflows request (platform request) in
  bind (countNodes w) (fun nodes =>
  bind (calculateComplexity w (input request)) (fun c =>
    Ok {| success := true;
          workflow := w;
          metadata := {| md_platform := platform request;
                         nodesCount := nodes;
                         complexity := c;
                         tokensUsed := 0;
                         generationTime := generationTime |};
          error := None |})).

(** [content || "{}"] *)
Definition content_or_empty_object (content : option string) : string :=
  match content with
  | Some s => if String.eqb s "" then "{}" else s
  | None => "{}"
  end.

(** [response.usage?.total_tokens || 0] *)
Definition tokens_or_zero (t : option Z) : Z :=
  match t with
  | Some n => n
  | None => 0
  end.

(** The body of the [try] block of [generateWorkflow]. *)
Definition generateWorkflow_try (env : Env) (request : WorkflowGenerationRequest)
  : exc WorkflowGenerationResponse :=
  if String.eqb (input request) "" || Nat.ltb (String.length (input request)) 10 then
    Throw "Please provide a more detailed workflow description (at least 10 characters)"
  else if Nat.ltb 2000 (String.length (input request)) then
    Throw "Workflow description is too long (maximum 2000 characters)"
  else
    bind (chat_completions_create env (platform request) (input request))
      (fun response =>
    let generationTime := now_after_api env - now_start env in
    bind (match choices response with
          | [] => Throw "TypeError: Cannot read properties of undefined (reading 'message')"
          | content :: _ => Ok content
          end) (fun content =>
    bind (JSON_parse env (content_or_empty_object content)) (fun workflowJSON =>
    let validation :=
      validateWorkflow workflowJSON (platform_name (platform request)) in
    if negb (valid validation) then
      Throw ("Generated workflow validation failed: "
             ++ String.concat ", " (errors validation))
    else
      bind (calculateComplexity workflowJSON (input request)) (fun c =>
      bind (countNodes workflowJSON) (fun nodes =>
        Ok {| success := true;
              workflow := workflowJSON;
              metadata := {| md_platform := platform request;
                             nodesCount := nodes;
                             complexity := c;
                             tokensUsed := tokens_or_zero (total_tokens response);
                             generationTime := generationTime |};
              error := None |}))))).

(** [generateWorkflow]: the [try] block, and the fallback in its [catch].
    [Throw] here is a rejected promise. *)
Definition generateWorkflow (env : Env) (request : WorkflowGenerationRequest)
  : exc WorkflowGenerationResponse :=
  match generateWorkflow_try env request with
  | Ok response => Ok response
  | Throw _ =>
      generateFallbackWorkflow request (now_in_catch env - now_start env)
  end.

(** *** Vocabulary of the statements below *)

(** The ways the [try] block of [generateWorkflow] is left by a throw that
    the claims name: the two input checks, a failed chat-completion call, a
    reply that is not JSON, a document the platform check rejects. *)
Inductive FailurePath (env : Env) (request : WorkflowGenerationRequest) : Prop :=
| input_too_short :
    (String.length (input request) < 10)%nat ->
    FailurePath env request
| input_too_long :
    (2000 < String.length (input request))%nat ->
    FailurePath env request
| api_error (msg : string) :
    chat_completions_create env (platform request) (input request) = Throw msg ->
    FailurePath env request
| parse_failure (response : ChatCompletion) (content : option string)
                (others : list (option string)) (msg : string) :
    chat_completions_create env (platform request) (input request) = Ok response ->
    choices response = content :: others ->
    JSON_parse env (content_or_empty_object content) = Throw msg ->
    FailurePath env request
| validation_failure (response : ChatCompletion) (content : option string)
                     (others : list (option string)) (w : json) :
    chat_completions_create env (platform request) (input request) = Ok response ->
    choices response = content :: others ->
    JSON_parse env (content_or_empty_object content) = Ok w ->
    valid (validateWorkflow w (platform_name (platform request))) = false ->
    FailurePath env request.

(** The response the [catch] block builds, up to the complexity label. *)
Definition fallback_response
    (env : Env) (request : WorkflowGenerationRequest) (c : Complexity)
  : WorkflowGenerationResponse :=
  {| success := true;
     workflow := fallbackWorkflows request (platform request);
     metadata := {| md_platform := platform request;
                    nodesCount := 3;
                    complexity := c;
                    tokensUsed := 0;
                    generationTime := now_in_catch env - now_start env |};
     error := None |}.

(** An environment whose chat-completion endpoint rejects every call. *)
Definition offline_env : Env :=
  {| now_start := 100;
     now_after_api := 0;
     now_in_catch := 130;
     chat_completions_create := fun _ _ => Throw "401 Incorrect API key provided";
     JSON_parse := fun _ => Throw "SyntaxError: Unexpected end of JSON input" |}.

(** An environment whose endpoint answers with one choice, which
    [JSON.parse] reads as the n8n demo document, for 412 tokens. *)
Definition scripted_env : Env :=
  {| now_start := 100;
     now_after_api := 900;
     now_in_catch := 950;
     chat_completions_create :=
       fun _ _ => Ok {| choices := [Some "n8n-document"]; total_tokens := Some 412 |};
     JSON_parse :=
       fun s => if String.eqb s "n8n-document" then Ok fallback_n8n
                else Throw "SyntaxError: Unexpected token" |}.

Definition sample_request (p : Platform) : WorkflowGenerationRequest :=
  {| input := "notify me when a form is submitted";
     platform := p;
     userId := "u1" |}.

End OpenAI.

(* ================================================================== *)
(** ** server/routes/workflow.ts and server/index.ts *)
(* ================================================================== *)

Module Route.

Import JS.

(** *** WorkflowGenerationSchema *)

Record Issue : Type := {
  field : string;
  issue_message : string
}.

Record WorkflowGenerationBody : Type := {
  input : string;
  platform : OpenAI.Platform;
  userId : string
}.

Definition received (v : value) : string :=
  match v with
  | None => "undefined"
  | Some JNull => "null"
  | Some (JBool _) => "boolean"
  | Some (JNum _) => "number"
  | Some (JStr _) => "string"
  | Some (JArr _) => "array"
  | Some (JObj _) => "object"
  end.

Definition type_issue (path expected : string) (v : value) : Issue :=
  {| field := path;
     issue_message :=
       match v with
       | None => "Required"
       | _ => "Expected " ++ expected ++ ", received " ++ received v
       end |}.

(** [z.string().min(10, ...).max(2000, ...)] *)
Definition parse_input (v : value) : list Issue + string :=
  match v with
  | Some (JStr s) =>
      if Nat.ltb (String.length s) 10 then
        inl [ {| field := "input";
                 issue_message :=
                   "Workflow description must be at least 10 characters" |} ]
      else if Nat.ltb 2000 (String.length s) then
        inl [ {| field := "input";
                 issue_message := "Workflow description too long" |} ]
      else inr s
  | _ => inl [ type_issue "input" "string" v ]
  end.

Definition platform_of_name (s : string) : option OpenAI.Platform :=
  if String.eqb s "n8n" then Some OpenAI.n8n
  else if String.eqb s "zapier" then Some OpenAI.zapier
  else if String.eqb s "make" then Some OpenAI.make
  else if String.eqb s "power_automate" then Some OpenAI.power_automate
  else None.

(** [z.enum([...], { errorMap })]: every failure carries the one message. *)
Definition parse_platform (v : value) : list Issue + OpenAI.Platform :=
  let failure :=
    inl [ {| field := "platform";
             issue_message :=
               "Platform must be one of: n8n, zapier, make, power_automate" |} ] in
  match v with
  | Some (JStr s) =>
      match platform_of_name s with
      | Some p => inr p
      | None => failure
      end
  | _ => failure
  end.

(** [z.string().min(1, ...)] *)
Definition parse_userId (v : value) : list Issue + string :=
  match v with
  | Some (JStr s) =>
      if Nat.ltb (String.length s) 1 then
        inl [ {| field := "userId"; issue_message := "User ID is required" |} ]
      else inr s
  | _ => inl [ type_issue "userId" "string" v ]
  end.

Definition issues_of {A : Type} (r : list Issue + A) : list Issue :=
  match r with
  | inl issues => issues
  | inr _ => []
  end.

(** [WorkflowGenerationSchema.safeParse]: the fields are parsed in the order
    of the shape and their issues are collected; unknown keys are dropped. *)
Definition safeParse (body : value) : list Issue + WorkflowGenerationBody :=
  match body with
  | Some (JObj fields) =>
      let i := parse_input (get fields "input") in
      let p := parse_platform (get fields "platform") in
      let u := parse_userId (get fields "userId") in
      match i, p, u with
      | inr i', inr p', inr u' =>
          inr {| input := i'; platform := p'; userId := u' |}
      | _, _, _ => inl (issues_of i ++ issues_of p ++ issues_of u)%list
      end
  | _ => inl [ type_issue "" "object" body ]
  end.

(** *** handleWorkflowGeneration *)

Record RateLimitInfo : Type := {
  rl_remaining : Z;
  rl_reset : Z
}.

(** [body] is [None] when no body was parsed; [rateLimit] is present only
    behind a rate-limiting middleware. *)
Record Request : Type := {
  body : value;
  rateLimit : option RateLimitInfo
}.

Record GeneratedMetadata : Type := {
  gm_platform : OpenAI.Platform;
  gm_nodesCount : Z;
  gm_complexity : OpenAI.Complexity;
  gm_generationTime : Z
}.

(** The JSON bodies the handler sends, one constructor per shape. *)
Inductive Payload : Type :=
| InvalidRequest (details : list Issue)
| RateLimitExceeded (retryAfter : Z)
| GenerationFailed (error : string) (platform : OpenAI.Platform)
| Generated (workflow : json) (metadata : GeneratedMetadata)
| InternalError (message : string).

Definition payload_success (p : Payload) : bool :=
  match p with
  | Generated _ _ => true
  | _ => false
  end.

Record Response : Type := {
  status : Z;
  payload : Payload
}.

(** What one run of the handler does: the requests it passed to the
    generation service, and the response it sent. *)
Record Outcome : Type := {
  service_calls : list OpenAI.WorkflowGenerationRequest;
  response : Response
}.

Section Handler.

(** [openaiService.generateWorkflow] as the handler sees it, and
    whether [NODE_ENV] is [development]. *)
Variable generateWorkflow :
  OpenAI.WorkflowGenerationRequest -> exc OpenAI.WorkflowGenerationResponse.
Variable development : bool.

(** The part of the handler after validation and rate limiting. *)
Definition forward (data : WorkflowGenerationBody) : Outcome :=
  let generationRequest :=
    {| OpenAI.input := trim (input data);
       OpenAI.platform := platform data;
       OpenAI.userId := userId data |} in
  {| service_calls := [generationRequest];
     response :=
       match generateWorkflow generationRequest with
       | Throw msg =>
           {| status := 500;
              payload :=
                InternalError
                  (if development then msg else "Please try again later") |}
       | Ok result =>
           if negb (OpenAI.success result) then
             {| status := 500;
                payload :=
                  GenerationFailed
                    (match OpenAI.error result with
                     | Some e =>
                         if String.eqb e "" then "Failed to generate workflow"
                         else e
                     | None => "Failed to generate workflow"
                     end)
                    (platform data) |}
           else
             {| status := 200;
                payload :=
                  Generated (OpenAI.workflow result)
                    {| gm_platform := OpenAI.md_platform (OpenAI.metadata result);
                       gm_nodesCount := OpenAI.nodesCount (OpenAI.metadata result);
                       gm_complexity := OpenAI.complexity (OpenAI.metadata result);
                       gm_generationTime :=
                         OpenAI.generationTime (OpenAI.metadata result) |} |}
       end |}.

Definition handleWorkflowGeneration (req : Request) : Outcome :=
  match safeParse (body req) with
  | inl issues =>
      {| service_calls := [];
         response := {| status := 400; payload := InvalidRequest issues |} |}
  | inr data =>
      match rateLimit req with
      | Some info =>
          if rl_remaining info =? 0 then
            {| service_calls := [];
               response := {| status := 429;
                              payload := RateLimitExceeded (rl_reset info) |} |}
          else forward data
      | None => forward data
      end
  end.

End Handler.

(** *** Vocabulary of the statements below *)

(** [req.rateLimit && req.rateLimit.remaining === 0] *)
Definition rate_limit_exhausted (req : Request) : bool :=
  match rateLimit req with
  | Some info => rl_remaining info =? 0
  | None => false
  end.

(** The member [k] of the request body, [undefined] when the body is not an
    object. *)
Definition member (body : value) (k : string) : value :=
  match body with
  | Some (JObj fields) => get fields k
  | _ => None
  end.

(** The four ways a body breaks the schema that the claims name. *)
Definition violates_schema (body : value) : Prop :=
  (exists s, member body "input" = Some (JStr s) /\ (String.length s < 10)%nat) \/
  (exists s, member body "input" = Some (JStr s) /\ (2000 < String.length s)%nat) \/
  (forall p, member body "platform" <> Some (JStr (OpenAI.platform_name p))) \/
  member body "userId" = Some (JStr "").

(** The body satisfies the four constraints, with these three values. *)
Definition satisfies_schema
    (body : value) (i : string) (p : OpenAI.Platform) (u : string) : Prop :=
  member body "input" = Some (JStr i) /\
  (10 <= String.length i <= 2000)%nat /\
  member body "platform" = Some (JStr (OpenAI.platform_name p)) /\
  member body "userId" = Some (JStr u) /\
  u <> "".

(** What the service is handed for such a body. *)
Definition forwarded (i : string) (p : OpenAI.Platform) (u : string)
  : OpenAI.WorkflowGenerationRequest :=
  {| OpenAI.input := trim i; OpenAI.platform := p; OpenAI.userId := u |}.

(** Every body that satisfies the schema reaches the service. *)
Definition every_valid_body_is_forwarded : Prop :=
  forall (service : OpenAI.WorkflowGenerationRequest ->
                    exc OpenAI.WorkflowGenerationResponse)
         (development : bool) (req : Request)
         (i : string) (p : OpenAI.Platform) (u : string),
    satisfies_schema (body req) i p u ->
    service_calls (handleWorkflowGeneration service development req)
    = [forwarded i p u].

(** A well-formed body, and the same body behind an exhausted rate limit. *)
Definition sample_body : value :=
  Some (JObj [ ("input", JStr "  send a mail on signup  ");
               ("platform", JStr "zapier");
               ("userId", JStr "u1") ]).

Definition rate_limited_request : Request :=
  {| body := sample_body;
     rateLimit := Some {| rl_remaining := 0; rl_reset := 60 |} |}.

(** A service that is down. *)
Definition unavailable_service (_ : OpenAI.WorkflowGenerationRequest)
  : exc OpenAI.WorkflowGenerationResponse :=
  Throw "service unavailable".

End Route.

(** [createServer]: the handler is mounted on POST /api/generate-workflow
    behind [cors()], [express.json()] and [express.urlencoded()] only, none of
    which attaches rate-limit information to the request. *)
Module Server.

Definition post_generate_workflow
    (env : OpenAI.Env) (development : bool) (body : JS.value) : Route.Outcome :=
  Route.handleWorkflowGeneration (OpenAI.generateWorkflow env) development
    {| Route.body := body; Route.rateLimit := None |}.

End Server.

(* ================================================================== *)
(** ** More JavaScript: comparison and [Array.prototype.slice] *)
(* ================================================================== *)

Module JSMore.

Import JS.

(** [a >= b], false as soon as one side is NaN. *)
Definition geb (a b : number) : bool :=
  match a, b with
  | NaN, _ | _, NaN => false
  | Fin x, Fin y => Qle_bool y x
  | PosInf, _ => true
  | _, NegInf => true
  | _, _ => false
  end.

(** A relative index of [slice], clamped into [0, len]. *)
Definition relative_index (len i : Z) : Z :=
  if i <? 0 then Z.max (len + i) 0 else Z.min i len.

(** [l.slice(start, stop)] for integer bounds. *)
Definition slice {A : Type} (l : list A) (start stop : Z) : list A :=
  let len := Z.of_nat (List.length l) in
  let k := relative_index len start in
  let final := relative_index len stop in
  firstn (Z.to_nat (Z.max (final - k) 0)) (skipn (Z.to_nat k) l).

End JSMore.

(* ================================================================== *)
(** ** usageService: monthly reset and plan change *)
(* ================================================================== *)

Module UsageMore.

Import Usage.

(** The map [resetMonthlyUsage] builds before writing it: one turn of its
    [forEach] copies the entry of a key with [used] set to 0. The key comes
    from [Object.keys(currentUsage)], so its entry exists. *)
Definition reset_step (currentUsage resetUsage : UserUsage) (platform : string)
  : UserUsage :=
  match JS.get currentUsage platform with
  | Some d =>
      JS.set resetUsage platform
        {| used := 0; limit := limit d; isPrimary := isPrimary d |}
  | None => resetUsage
  end.

Definition resetUsage (currentUsage : UserUsage) : UserUsage :=
  fold_left (reset_step currentUsage) (JS.keys currentUsage) [].

(** [resetMonthlyUsage]: the write is the only step that can fail; any
    failure is rethrown under one message. The value is the map written. *)
Definition resetMonthlyUsage (updateDoc_succeeds : bool) (currentUsage : UserUsage)
  : JS.exc UserUsage :=
  if updateDoc_succeeds then JS.Ok (resetUsage currentUsage)
  else JS.Throw "Failed to reset monthly usage".

(** What [updatePlanUsage] reads of the user document: its [usage] map and
    its [primaryPlatform], each possibly absent. *)
Record UserData : Type := {
  ud_usage : option UserUsage;
  ud_primaryPlatform : option string
}.

(** [userData?.usage?.[platform]] *)
Definition stored_entry (userData : option UserData) (platform : string)
  : option UsageData :=
  match userData with
  | Some data =>
      match ud_usage data with
      | Some u => JS.get u platform
      | None => None
      end
  | None => None
  end.

(** The entry a paid plan gives a platform:
    [used || 0], limit 999999, [isPrimary || false]. *)
Definition unlimited_entry (userData : option UserData) (platform : string)
  : UsageData :=
  match stored_entry userData platform with
  | Some d => {| used := used d; limit := 999999; isPrimary := isPrimary d |}
  | None => {| used := 0; limit := 999999; isPrimary := false |}
  end.

(** [userData.data()?.primaryPlatform || "n8n"] *)
Definition stored_primary (userData : option UserData) : string :=
  match userData with
  | Some data =>
      match ud_primaryPlatform data with
      | Some p => if String.eqb p "" then "n8n" else p
      | None => "n8n"
      end
  | None => "n8n"
  end.

(** The map [updatePlanUsage] computes from the plan and the document. *)
Definition planUsage (newPlan : string) (userData : option UserData) : UserUsage :=
  if is_unlimited_plan newPlan then
    fold_left
      (fun (newUsage : UserUsage) (platform : string) =>
         JS.set newUsage platform (unlimited_entry userData platform))
      platforms []
  else
    calculateInitialUsage (stored_primary userData).

(** [updatePlanUsage]: the read and the write can each fail; any failure is
    rethrown under one message. *)
Definition updatePlanUsage
    (getDoc : JS.exc (option UserData)) (updateDoc_succeeds : bool) (newPlan : string)
  : JS.exc UserUsage :=
  match getDoc with
  | JS.Throw _ => JS.Throw "Failed to update plan usage"
  | JS.Ok userData =>
      if updateDoc_succeeds then JS.Ok (planUsage newPlan userData)
      else JS.Throw "Failed to update plan usage"
  end.

(** *** Vocabulary of the statements below *)

(** No key is bound twice, as in every JavaScript object. *)
Definition well_formed (u : UserUsage) : Prop := NoDup (JS.keys u).

(** An entry with its counter back at zero. *)
Definition cleared (d : UsageData) : UsageData :=
  {| used := 0; limit := limit d; isPrimary := isPrimary d |}.

(** How many entries of the map are primary. *)
Definition primary_count (u : UserUsage) : nat :=
  List.length (filter (fun e => isPrimary (snd e)) u).

(** Every counter is within its quota. *)
Definition within_limits (u : UserUsage) : Prop :=
  forall k d, In (k, d) u -> used d <= limit d.

(** The sum of one quantity over the entries of a map. *)
Definition sum_of (f : UsageData -> Z) (u : UserUsage) : Z :=
  fold_right (fun e acc => f (snd e) + acc) 0 u.

(** A platform's counter has reached its limit. *)
Definition exhausted (d : UsageData) : bool := limit d <=? used d.

(** A user half way through the month. *)
Definition mid_month : UserUsage :=
  [ ("n8n", {| used := 4; limit := 10; isPrimary := false |});
    ("zapier", {| used := 3; limit := 3; isPrimary := true |});
    ("make", {| used := 0; limit := 10; isPrimary := false |});
    ("power_automate", {| used := 10; limit := 10; isPrimary := false |}) ].

End UsageMore.

(* ================================================================== *)
(** ** The client: profile creation, onboarding, hooks and dashboard *)
(* ================================================================== *)

Module Client.

Import Usage Hooks.

(** [AuthContext.createUserProfile]: the usage map of a new profile. *)
Definition defaultUsage : UserUsage :=
  [ ("n8n", {| used := 0; limit := 10; isPrimary := false |});
    ("zapier", {| used := 0; limit := 10; isPrimary := false |});
    ("make", {| used := 0; limit := 10; isPrimary := false |});
    ("power_automate", {| used := 0; limit := 10; isPrimary := false |}) ].

(** [Onboarding.calculateUsageLimits], the page's own copy of the quota
    rule. *)
Definition calculateUsageLimits (primaryPlatform : string) : UserUsage :=
  fold_left
    (fun (limits : UserUsage) (platform : string) =>
       if String.eqb platform primaryPlatform then
         JS.set limits platform {| used := 0; limit := 3; isPrimary := true |}
       else
         JS.set limits platform {| used := 0; limit := 10; isPrimary := false |})
    ["n8n"; "zapier"; "make"; "power_automate"] [].

(** [selectedPlatform === "exploring" ? "n8n" : selectedPlatform] *)
Definition finalPlatform (selectedPlatform : string) : string :=
  if String.eqb selectedPlatform "exploring" then "n8n" else selectedPlatform.

(** The updates [handleCompleteOnboarding] passes to [updateUserProfile];
    nothing is sent while no platform is selected. *)
Definition onboarding_updates (selectedPlatform : string)
  : option (string * UserUsage) :=
  if String.eqb selectedPlatform "" then None
  else Some (finalPlatform selectedPlatform,
             calculateUsageLimits (finalPlatform selectedPlatform)).

(** *** useUsage *)

(** What the page holds after an update: a value [a] as it stands
    ([Sound]), or [a] whose usage map has, after its own entries, one more
    entry under [platform], a name inherited from [Object.prototype]
    ([Stray]). A stray entry has NaN for [used] and neither [limit] nor
    [isPrimary]; it is no [UsageData]. *)
Inductive held (A : Type) : Type :=
| Sound (a : A)
| Stray (a : A) (platform : string).
Arguments Sound {A} a.
Arguments Stray {A} a platform.

(** The optimistic copy
    [{...usage, [platform]: {...usage[platform], used: usage[platform].used + 1}}].
    Without an own entry, [usage[platform]] is [undefined] and reading
    [used] throws, unless the name is inherited: then [usage[platform]] is
    the inherited value, its spread copies nothing, [used] is
    [undefined + 1], and the copy is [usage] with a stray entry. *)
Definition optimistic_update (u : UserUsage) (platform : string)
  : JS.exc (held UserUsage) :=
  match JS.get u platform with
  | Some d =>
      JS.Ok (Sound (JS.set u platform
                      {| used := used d + 1; limit := limit d;
                         isPrimary := isPrimary d |}))
  | None =>
      if JS.inherited platform then JS.Ok (Stray u platform)
      else JS.Throw "Cannot read properties of undefined (reading 'used')"
  end.

(** [incrementUsage] of the hook. It resolves to the profile held locally
    afterwards. [service_succeeds]: [usageService.incrementUsage] resolved;
    [signed_in], [setDoc_succeeds]: what [updateUserProfile] meets. Every
    failure is rethrown; the message of a failed [setDoc] is Firestore's own
    and stands here under a fixed text. *)
Definition incrementUsage
    (userProfile : option UserProfile) (platform : string)
    (service_succeeds signed_in setDoc_succeeds : bool)
  : JS.exc (held (option UserProfile)) :=
  match userProfile, usage_of userProfile with
  | Some profile, Some u =>
      match optimistic_update u platform with
      | JS.Throw msg => JS.Throw msg
      | JS.Ok updatedUsage =>
          if negb service_succeeds then JS.Throw "Failed to update usage count"
          else if negb signed_in then JS.Ok (Sound userProfile)
          else if negb setDoc_succeeds then JS.Throw "Failed to update usage"
          else
            let updated (usage_ : UserUsage) :=
              Some {| uid := uid profile;
                      plan := plan profile;
                      createdAt := createdAt profile;
                      usage := Some usage_ |} in
            match updatedUsage with
            | Sound usage_ => JS.Ok (Sound (updated usage_))
            | Stray usage_ name => JS.Ok (Stray (updated usage_) name)
            end
      end
  | _, _ => JS.Throw "User profile not loaded"
  end.

(** [conversionProbability] as [useUsage] computes it on each render. *)
Definition conversionProbability (userProfile : option UserProfile) (now : Z)
  : JS.exc JS.number :=
  match userProfile, usage_of userProfile with
  | Some profile, Some u =>
      predictConversionProbability u (JS.of_Z (daysSinceSignup now profile))
  | _, _ => JS.Ok (JS.Fin 0)
  end.

(** *** useConversionOptimization.shouldShowUpgradePrompt *)

Inductive PromptType : Type := urgent | gentle | exploration.

Record UpgradePrompt : Type := {
  show : bool;
  prompt_type : PromptType;
  prompt_platform : option string;
  prompt_message : string
}.

Definition no_prompt : UpgradePrompt :=
  {| show := false; prompt_type := gentle; prompt_platform := None;
     prompt_message := "" |}.

(** [usage[platform].isPrimary] for a key of the map. *)
Definition is_primary_key (u : UserUsage) (platform : string) : bool :=
  match JS.get u platform with
  | Some d => isPrimary d
  | None => false
  end.

(** [platformUsage.used >= platformUsage.limit * 0.8] *)
Definition high_usage (u : UserUsage) (platform : string) : bool :=
  match JS.get u platform with
  | Some d =>
      JSMore.geb (JS.of_Z (used d)) (JS.mul (JS.of_Z (limit d)) (JS.Fin (8 # 10)))
  | None => false
  end.

(** The block guarded by [if (primaryPlatform)]: a prompt when exactly 0 or
    exactly 1 workflow remains on the primary platform. *)
Definition primary_prompt (u : UserUsage) : option UpgradePrompt :=
  match find_primary u with
  | Some primaryPlatform =>
      if String.eqb primaryPlatform "" then None else
      match JS.get u primaryPlatform with
      | Some primaryUsage =>
          let remaining := limit primaryUsage - used primaryUsage in
          if remaining =? 0 then
            Some {| show := true; prompt_type := urgent;
                    prompt_platform := Some primaryPlatform;
                    prompt_message :=
                      "🔥 You've used all " ++ JS.string_of_Z (limit primaryUsage)
                      ++ " " ++ primaryPlatform
                      ++ " workflows! Upgrade for unlimited access to your main platform." |}
          else if remaining =? 1 then
            Some {| show := true; prompt_type := urgent;
                    prompt_platform := Some primaryPlatform;
                    prompt_message :=
                      "⚠️ Only 1 " ++ primaryPlatform
                      ++ " workflow left! Upgrade now to avoid interruption." |}
          else None
      | None => None
      end
  | None => None
  end.

(** The last rule: a high conversion probability. *)
Definition gentle_prompt (probability : JS.number) : UpgradePrompt :=
  if JS.gtb probability (JS.Fin (7 # 10)) then
    {| show := true; prompt_type := gentle; prompt_platform := None;
       prompt_message :=
         "🚀 Ready to scale your automation? Upgrade for unlimited workflows and priority support." |}
  else no_prompt.

Definition shouldShowUpgradePrompt
    (userProfile : option UserProfile) (probability : JS.number) : UpgradePrompt :=
  match userProfile, usage_of userProfile with
  | Some profile, Some u =>
      if negb (String.eqb (plan profile) "free") then no_prompt else
      match primary_prompt u with
      | Some prompt => prompt
      | None =>
          let secondaryPlatforms :=
            filter (fun platform => negb (is_primary_key u platform)) (JS.keys u) in
          let highUsageSecondary := find (high_usage u) secondaryPlatforms in
          match highUsageSecondary with
          | Some platform =>
              if String.eqb platform "" then gentle_prompt probability
              else
                {| show := true; prompt_type := exploration;
                   prompt_platform := Some platform;
                   prompt_message :=
                     "💡 Loving " ++ platform
                     ++ "? Upgrade for unlimited workflows on all platforms!" |}
          | None => gentle_prompt probability
          end
      end
  | _, _ => no_prompt
  end.

(** *** Vocabulary of the statements below *)

(** An entry with one more workflow counted. *)
Definition bumped (d : UsageData) : UsageData :=
  {| used := used d + 1; limit := limit d; isPrimary := isPrimary d |}.

(** The entry [calculateInitialUsage] gives platform [k] when [p] is the
    primary platform. *)
Definition initial_entry (p k : string) : UsageData :=
  if String.eqb k p then {| used := 0; limit := 3; isPrimary := true |}
  else {| used := 0; limit := 10; isPrimary := false |}.

End Client.

(* ================================================================== *)
(** ** The dashboard page *)
(* ================================================================== *)

Module Dashboard.

Import Usage Hooks.

(** The prompt the page renders: the hook's probability, then the rule.
    A throw while the probability is computed aborts the render. *)
Definition upgradePrompt (userProfile : option UserProfile) (now : Z)
  : JS.exc Client.UpgradePrompt :=
  JS.bind (Client.conversionProbability userProfile now)
    (fun probability =>
       JS.Ok (Client.shouldShowUpgradePrompt userProfile probability)).

(** One row of [usageData]: [percentage = used / limit * 100]. *)
Definition percentage (d : UsageData) : JS.number :=
  JS.mul (JS.div (JS.of_Z (used d)) (JS.of_Z (limit d))) (JS.of_Z 100).

(** The page's own test for the red [Limit reached] row:
    [usage.used >= usage.limit && userProfile.plan === "free"]. *)
Definition isAtLimit (userPlan : string) (d : UsageData) : bool :=
  (limit d <=? used d) && String.eqb userPlan "free".

(** What the world answers to one click on Generate: whether the POST came
    back with [success], and how the three steps of [incrementUsage] went. *)
Record Answers : Type := {
  api_success : bool;
  service_succeeds : bool;
  signed_in : bool;
  setDoc_succeeds : bool
}.

(** [handleGenerateWorkflow], as far as the profile held by the page goes:
    nothing happens on a blank input or without a platform; a denied check
    stops the flow; the counter is incremented only after a successful
    generation, and a failed increment is logged and ignored. *)
Definition handleGenerateWorkflow
    (userProfile : option UserProfile) (workflowInput selectedPlatform : string)
    (answers : Answers)
  : Eff (Client.held (option UserProfile)) :=
  if String.eqb (JS.trim workflowInput) "" || String.eqb selectedPlatform "" then
    ret (Client.Sound userProfile)
  else
    usageCheck <- checkLimit userProfile selectedPlatform ;;
    if negb (allowed usageCheck) then ret (Client.Sound userProfile)
    else if negb (api_success answers) then ret (Client.Sound userProfile)
    else
      match Client.incrementUsage userProfile selectedPlatform
              (service_succeeds answers) (signed_in answers)
              (setDoc_succeeds answers) with
      | JS.Ok updated => ret updated
      | JS.Throw _ => ret (Client.Sound userProfile)
      end.

(** One click: the text typed, the platform selected, the answers met. *)
Record Click : Type := {
  typed : string;
  selected : string;
  answers : Answers
}.

(** A session: clicks one after the other on the same page. It is
    followed for as long as the usage map the page holds is a [UserUsage];
    a stray entry ends it. *)
Fixpoint session (userProfile : option UserProfile) (clicks : list Click)
  : Eff (Client.held (option UserProfile)) :=
  match clicks with
  | [] => ret (Client.Sound userProfile)
  | c :: rest =>
      page <- handleGenerateWorkflow userProfile (typed c) (selected c) (answers c) ;;
      match page with
      | Client.Sound next => session next rest
      | Client.Stray _ _ => ret page
      end
  end.

(** *** Vocabulary of the statements below *)

(** Every click is made with one of the four platforms selected. *)
Definition selects_platforms (clicks : list Click) : Prop :=
  Forall (fun c => In (selected c) platforms) clicks.

Definition all_fine : Answers :=
  {| api_success := true; service_succeeds := true;
     signed_in := true; setDoc_succeeds := true |}.

(** A free profile straight out of onboarding with [p] as primary. *)
Definition fresh_profile (p : string) : UserProfile :=
  {| uid := "u1"; plan := "free"; createdAt := 0;
     usage := Some (calculateInitialUsage p) |}.

(** The usage map a profile holds, empty when it holds none. *)
Definition usage_or_empty (userProfile : option UserProfile) : UserUsage :=
  match usage_of userProfile with
  | Some u => u
  | None => []
  end.

(** [u'] has the keys, limits and primary flags of [u], and counters that
    are not lower. *)
Definition grown_from (u u' : UserUsage) : Prop :=
  JS.keys u' = JS.keys u /\
  forall k,
    match JS.get u k, JS.get u' k with
    | Some d, Some d' =>
        limit d' = limit d /\ isPrimary d' = isPrimary d /\ used d <= used d'
    | None, None => True
    | _, _ => False
    end.

(** The profile [after] is the profile [before] with a usage map grown
    from its own. *)
Definition profile_grown (before after : option UserProfile) : Prop :=
  match before, after with
  | Some b, Some a =>
      uid a = uid b /\ plan a = plan b /\ createdAt a = createdAt b /\
      match usage b, usage a with
      | Some u, Some u' => grown_from u u'
      | None, None => True
      | _, _ => False
      end
  | None, None => True
  | _, _ => False
  end.

(** Every counter of a limited-plan profile is within its limit. *)
Definition respects_quota (userProfile : option UserProfile) : Prop :=
  match userProfile with
  | Some profile =>
      is_unlimited_plan (plan profile) = false /\
      UsageMore.within_limits (usage_or_empty userProfile)
  | None => True
  end.

(** A free profile whose secondary platform n8n is nearly used up. *)
Definition busy_secondary_profile : UserProfile :=
  {| uid := "u2"; plan := "free"; createdAt := 0;
     usage :=
       Some [ ("n8n", {| used := 9; limit := 10; isPrimary := false |});
              ("zapier", {| used := 0; limit := 3; isPrimary := true |}) ] |}.

(** A free profile one workflow away from its primary quota. *)
Definition one_left_profile : UserProfile :=
  {| uid := "u3"; plan := "free"; createdAt := 0;
     usage :=
       Some [ ("n8n", {| used := 0; limit := 10; isPrimary := false |});
              ("zapier", {| used := 2; limit := 3; isPrimary := true |}) ] |}.

(** Three clicks on zapier, the first with a blank input. *)
Definition three_clicks : list Click :=
  [ {| typed := "   "; selected := "zapier"; answers := all_fine |};
    {| typed := "post new orders to slack"; selected := "zapier";
       answers := all_fine |};
    {| typed := "post new orders to slack"; selected := "zapier";
       answers := {| api_success := true; service_succeeds := false;
                     signed_in := true; setDoc_succeeds := true |} |} ].

End Dashboard.

(* ================================================================== *)
(** ** server/routes/workflow.ts: history and validation *)
(* ================================================================== *)

Module RouteMore.

Import JS.

(** *** handleWorkflowHistory *)

Record HistoryItem : Type := {
  h_id : string;
  h_platform : string;
  h_input : string;
  h_createdAt : Z;
  h_complexity : string;
  h_nodesCount : Z
}.

Definition mockHistory (now : Z) : list HistoryItem :=
  [ {| h_id := "wf_1"; h_platform := "zapier";
       h_input := "Send Slack notification when GitHub issue is created";
       h_createdAt := now; h_complexity := "simple"; h_nodesCount := 3 |};
    {| h_id := "wf_2"; h_platform := "n8n";
       h_input := "Sync customer data between Salesforce and HubSpot";
       h_createdAt := now - 86400000; h_complexity := "complex";
       h_nodesCount := 8 |} ].

(** The request as the handler reads it: the route parameter, and what
    [parseInt] makes of the two query strings ([None] is NaN). *)
Record HistoryRequest : Type := {
  param_userId : string;
  parsed_limit : option Z;
  parsed_offset : option Z
}.

(** [parseInt(...) || fallback]: NaN and 0 are both falsy. *)
Definition or_default (parsed : option Z) (fallback : Z) : Z :=
  match parsed with
  | Some n => if n =? 0 then fallback else n
  | None => fallback
  end.

Record Pagination : Type := {
  total : Z;
  page_limit : Z;
  page_offset : Z;
  hasMore : bool
}.

Inductive HistoryPayload : Type :=
| UserIdRequired
| History (workflows : list HistoryItem) (pagination : Pagination).

Record HistoryResponse : Type := {
  history_status : Z;
  history_payload : HistoryPayload
}.

Definition handleWorkflowHistory (now : Z) (req : HistoryRequest) : HistoryResponse :=
  let limit := or_default (parsed_limit req) 10 in
  let offset := or_default (parsed_offset req) 0 in
  if String.eqb (param_userId req) "" then
    {| history_status := 400; history_payload := UserIdRequired |}
  else
    {| history_status := 200;
       history_payload :=
         History (JSMore.slice (mockHistory now) offset (offset + limit))
           {| total := Z.of_nat (List.length (mockHistory now));
              page_limit := limit;
              page_offset := offset;
              hasMore := offset + limit <? Z.of_nat (List.length (mockHistory now)) |} |}.

(** *** handleWorkflowValidation *)

Inductive ValidationPayload : Type :=
| FieldsRequired
| ValidationPassed
| ValidationErrors (errors : list string)
| ValidationCrashed.

Record ValidationResponse : Type := {
  validation_status : Z;
  validation_payload : ValidationPayload
}.

Section Validation.

(** How a value that is not a string reads inside a template literal; the
    conversion of an object can throw. *)
Variable render : json -> exc string.

(** [validateWorkflow] called with any value as its platform: only a string
    can match a [case]; anything else takes the [default] branch. *)
Definition validateWorkflow_any (w : json) (platform : json) : OpenAI.Validation :=
  match platform with
  | JStr name => OpenAI.validateWorkflow w name
  | _ =>
      let errs :=
        OpenAI.run_checks
          [ bind (render platform)
              (fun text => Ok (Some ("Unsupported platform: " ++ text))) ] in
      {| OpenAI.valid := Nat.eqb (List.length errs) 0; OpenAI.errors := errs |}
  end.

(** [const { workflow, platform } = req.body] throws on a missing body. *)
Definition handleWorkflowValidation (body : value) : ValidationResponse :=
  match prop body "workflow", prop body "platform" with
  | Ok workflow, Ok platform =>
      if negb (truthy workflow) || negb (truthy platform) then
        {| validation_status := 400; validation_payload := FieldsRequired |}
      else
        match workflow, platform with
        | Some w, Some p =>
            let validation := validateWorkflow_any w p in
            if OpenAI.valid validation then
              {| validation_status := 200; validation_payload := ValidationPassed |}
            else
              {| validation_status := 200;
                 validation_payload := ValidationErrors (OpenAI.errors validation) |}
        | _, _ =>
            {| validation_status := 400; validation_payload := FieldsRequired |}
        end
  | _, _ => {| validation_status := 500; validation_payload := ValidationCrashed |}
  end.

End Validation.

(** *** Vocabulary of the statements below *)

(** A rendering of the values JSON can hold that never throws. *)
Definition plain_render (v : json) : exc string :=
  match v with
  | JNull => Ok "null"
  | JBool true => Ok "true"
  | JBool false => Ok "false"
  | JStr s => Ok s
  | _ => Ok "[object Object]"
  end.

(** The body a client posts to have [w] checked for platform [p]. *)
Definition validation_body (w : json) (p : OpenAI.Platform) : value :=
  Some (JObj [ ("workflow", w); ("platform", JStr (OpenAI.platform_name p)) ]).

End RouteMore.

(** *** Vocabulary of the statements about the generator *)

Module GeneratorMore.

Import OpenAI.

(** The three labels in increasing order. *)
Definition complexity_rank (c : Complexity) : Z :=
  match c with
  | simple => 0
  | medium => 1
  | complex => 2
  end.

(** A Zapier document with a title and no step. *)
Definition empty_zap : JS.json :=
  JS.JObj [ ("title", JS.JStr "Empty"); ("steps", JS.JArr []) ].

End GeneratorMore.

(* ================================================================== *)
(** ** Properties of usageService *)
(* ================================================================== *)

Module UsageFacts.

Import Usage.

Lemma free_plan_is_limited : is_unlimited_plan "free" = false.
Proof. reflexivity. Qed.

(** Among the three plans a profile can carry, the limited one is [free]. *)
Lemma limited_plan_is_free (userPlan : string) :
  userPlan = "free" \/ userPlan = "pro" \/ userPlan = "enterprise" ->
  (is_unlimited_plan userPlan = false <-> userPlan = "free").
Proof.
  intros [-> | [-> | ->]]; split; intro H; try reflexivity; discriminate H.
Qed.

Lemma unlimited_plan_iff (userPlan : string) :
  is_unlimited_plan userPlan = true <->
  userPlan = "pro" \/ userPlan = "enterprise".
Proof.
  unfold is_unlimited_plan.
  rewrite orb_true_iff, !String.eqb_eq. tauto.
Qed.

(** Recording a conversion opportunity never changes the value returned
    after it. *)
Lemma result_after_tracking {A : Type} (userId platform trigger : string)
      (a : A) (w : World) :
  result (trackConversionOpportunity userId platform trigger ;;; ret a) w = a.
Proof.
  unfold result, bind, trackConversionOpportunity, ret.
  destruct (firestore_available w); reflexivity.
Qed.

(** The value returned at each of the four [return] sites of
    [checkUsageLimit]; the last one also serves a name the usage map only
    inherits. *)
Lemma checkUsageLimit_paid userId platform userPlan currentUsage w :
  is_unlimited_plan userPlan = true ->
  result (checkUsageLimit userId platform userPlan currentUsage) w =
    {| allowed := true; remaining := 999999; isAtLimit := false;
       willTriggerUpgrade := false; conversionTrigger := None;
       message := None |}.
Proof.
  intros Hplan. unfold checkUsageLimit. rewrite Hplan. reflexivity.
Qed.

Lemma checkUsageLimit_missing userId platform userPlan currentUsage w :
  is_unlimited_plan userPlan = false ->
  JS.get currentUsage platform = None ->
  JS.inherited platform = false ->
  result (checkUsageLimit userId platform userPlan currentUsage) w =
    {| allowed := false; remaining := 0; isAtLimit := true;
       willTriggerUpgrade := false; conversionTrigger := None;
       message := Some "Platform not found in user usage data" |}.
Proof.
  intros Hplan Hget Hown. unfold checkUsageLimit.
  rewrite Hplan, Hget, Hown. reflexivity.
Qed.

Lemma checkUsageLimit_inherited userId platform userPlan currentUsage w :
  is_unlimited_plan userPlan = false ->
  JS.get currentUsage platform = None ->
  JS.inherited platform = true ->
  result (checkUsageLimit userId platform userPlan currentUsage) w =
    {| allowed := true; remaining := JS.NaN; isAtLimit := false;
       willTriggerUpgrade := false; conversionTrigger := None;
       message := None |}.
Proof.
  intros Hplan Hget Hinh. unfold checkUsageLimit.
  rewrite Hplan, Hget, Hinh. reflexivity.
Qed.

Lemma checkUsageLimit_blocked userId platform userPlan currentUsage d w :
  is_unlimited_plan userPlan = false ->
  JS.get currentUsage platform = Some d ->
  limit d <= used d ->
  result (checkUsageLimit userId platform userPlan currentUsage) w =
    {| allowed := false; remaining := 0; isAtLimit := true;
       willTriggerUpgrade := isPrimary d;
       conversionTrigger :=
         Some (if isPrimary d then primary_platform_limit
               else secondary_platform_limit);
       message := Some (limit_message d platform) |}.
Proof.
  intros Hplan Hget Hle. unfold checkUsageLimit. rewrite Hplan, Hget.
  assert (Hb : (limit d - used d <=? 0) = true) by (apply Z.leb_le; lia).
  cbv zeta. rewrite Hb. apply result_after_tracking.
Qed.

Lemma checkUsageLimit_admitted userId platform userPlan currentUsage d w :
  is_unlimited_plan userPlan = false ->
  JS.get currentUsage platform = Some d ->
  used d < limit d ->
  result (checkUsageLimit userId platform userPlan currentUsage) w =
    {| allowed := true; remaining := limit d - used d; isAtLimit := false;
       willTriggerUpgrade := (limit d - used d <=? 1) && isPrimary d;
       conversionTrigger := None;
       message := None |}.
Proof.
  intros Hplan Hget Hlt. unfold checkUsageLimit. rewrite Hplan, Hget.
  assert (Hb : (limit d - used d <=? 0) = false) by (apply Z.leb_gt; lia).
  cbv zeta. rewrite Hb. reflexivity.
Qed.

(** C1. On the limited (free) path, for a platform present in the usage
    map: generation is allowed exactly when [used < limit]; at or over the
    limit the result is denied with [remaining = 0] and [isAtLimit = true];
    an allowed result carries [remaining = limit - used]. *)
Theorem checkUsageLimit_free_admission
    (userId platform userPlan : string) (currentUsage : UserUsage)
    (d : UsageData) (w : World) :
  is_unlimited_plan userPlan = false ->
  JS.get currentUsage platform = Some d ->
  let r := result (checkUsageLimit userId platform userPlan currentUsage) w in
  (allowed r = true <-> used d < limit d) /\
  (limit d <= used d ->
     allowed r = false /\ remaining r = 0 /\ isAtLimit r = true) /\
  (allowed r = true -> remaining r = limit d - used d).
Proof.
  intros Hplan Hget r.
  destruct (Z_lt_le_dec (used d) (limit d)) as [Hlt | Hle].
  - assert (Hr := checkUsageLimit_admitted userId platform userPlan
                    currentUsage d w Hplan Hget Hlt).
    fold r in Hr. rewrite Hr. cbn. repeat split; auto; lia.
  - assert (Hr := checkUsageLimit_blocked userId platform userPlan
                    currentUsage d w Hplan Hget Hle).
    fold r in Hr. rewrite Hr. cbn. repeat split; auto; try discriminate; lia.
Qed.

Lemma checkUsageLimit_free_admission_witness :
  is_unlimited_plan "free" = false /\
  JS.get (calculateInitialUsage "zapier") "zapier"
    = Some {| used := 0; limit := 3; isPrimary := true |} /\
  (allowed (result (checkUsageLimit "u1" "zapier" "free"
                      (calculateInitialUsage "zapier")) quiet_world) = true
     <-> 0 < 3).
Proof.
  split; [reflexivity | split; [reflexivity | ]].
  exact (proj1 (checkUsageLimit_free_admission "u1" "zapier" "free"
                  (calculateInitialUsage "zapier")
                  {| used := 0; limit := 3; isPrimary := true |} quiet_world
                  eq_refl eq_refl)).
Defined.

(** C3. On the pro and enterprise plans every check is allowed with
    [remaining = 999999], whatever the platform and the usage map. *)
Theorem checkUsageLimit_paid_unlimited
    (userId platform userPlan : string) (currentUsage : UserUsage) (w : World) :
  userPlan = "pro" \/ userPlan = "enterprise" ->
  let r := result (checkUsageLimit userId platform userPlan currentUsage) w in
  allowed r = true /\ remaining r = 999999 /\
  isAtLimit r = false /\ willTriggerUpgrade r = false.
Proof.
  intros Hplan r. apply unlimited_plan_iff in Hplan.
  unfold r. rewrite (checkUsageLimit_paid _ _ _ _ _ Hplan). cbn. auto.
Qed.

Lemma checkUsageLimit_paid_unlimited_witness :
  ("enterprise" = "pro" \/ "enterprise" = "enterprise") /\
  allowed (result (checkUsageLimit "u1" "unknown" "enterprise" []) quiet_world)
    = true /\
  remaining (result (checkUsageLimit "u1" "unknown" "enterprise" []) quiet_world)
    = 999999.
Proof.
  split; [right; reflexivity | ].
  pose proof (checkUsageLimit_paid_unlimited "u1" "unknown" "enterprise" []
                quiet_world (or_intror eq_refl)) as H.
  cbv zeta in H. exact (conj (proj1 H) (proj1 (proj2 H))).
Defined.

(** C4. A result carries a conversion trigger exactly when the user is
    blocked at the quota (limited plan, platform present, [used >= limit]);
    the trigger is [primary_platform_limit] when the platform is primary and
    [secondary_platform_limit] otherwise; allowed results and the
    platform-not-found result carry none. *)
Theorem conversionTrigger_iff_blocked
    (userId platform userPlan : string) (currentUsage : UserUsage) (w : World) :
  let r := result (checkUsageLimit userId platform userPlan currentUsage) w in
  (forall t, conversionTrigger r = Some t <->
             exists d, blocked_at_quota userPlan platform currentUsage d /\
                       t = trigger_for d) /\
  (allowed r = true -> conversionTrigger r = None) /\
  (is_unlimited_plan userPlan = false ->
   JS.get currentUsage platform = None ->
   conversionTrigger r = None).
Proof.
  intros r. unfold blocked_at_quota, trigger_for.
  destruct (is_unlimited_plan userPlan) eqn:Hplan.
  - assert (Hr := checkUsageLimit_paid userId platform userPlan currentUsage w Hplan).
    fold r in Hr. rewrite Hr. cbn. repeat split; try discriminate.
    intros (d & (Hfalse & _) & _). discriminate Hfalse.
  - destruct (JS.get currentUsage platform) as [d | ] eqn:Hget.
    + destruct (Z_lt_le_dec (used d) (limit d)) as [Hlt | Hle].
      * assert (Hr := checkUsageLimit_admitted userId platform userPlan
                        currentUsage d w Hplan Hget Hlt).
        fold r in Hr. rewrite Hr. cbn. repeat split; try discriminate.
        intros (d' & (_ & Hd' & Hle') & _).
        injection Hd' as <-. lia.
      * assert (Hr := checkUsageLimit_blocked userId platform userPlan
                        currentUsage d w Hplan Hget Hle).
        fold r in Hr. rewrite Hr. cbn. repeat split; try discriminate.
        -- intros Ht. injection Ht as <-. exists d. auto.
        -- intros (d' & (_ & Hd' & _) & ->). injection Hd' as <-. reflexivity.
    + destruct (JS.inherited platform) eqn:Hinh.
      * assert (Hr := checkUsageLimit_inherited userId platform userPlan
                        currentUsage w Hplan Hget Hinh).
        fold r in Hr. rewrite Hr. cbn. repeat split; try discriminate.
        intros (d & (_ & Hd & _) & _). discriminate Hd.
      * assert (Hr := checkUsageLimit_missing userId platform userPlan
                        currentUsage w Hplan Hget Hinh).
        fold r in Hr. rewrite Hr. cbn. repeat split; try discriminate.
        intros (d & (_ & Hd & _) & _). discriminate Hd.
Qed.



(** C2. For a primary platform among the four, the initial usage map has
    exactly the keys n8n, zapier, make, power_automate; the primary one
    starts at [used = 0, limit = 3, isPrimary = true], every other one at
    [used = 0, limit = 10, isPrimary = false]; so the primary quota is
    strictly below each secondary quota. *)
Theorem calculateInitialUsage_quotas (primaryPlatform : string) :
  In primaryPlatform platforms ->
  let usage := calculateInitialUsage primaryPlatform in
  JS.keys usage = platforms /\
  JS.get usage primaryPlatform
    = Some {| used := 0; limit := 3; isPrimary := true |} /\
  (forall p, In p platforms -> p <> primaryPlatform ->
             JS.get usage p = Some {| used := 0; limit := 10; isPrimary := false |}) /\
  (forall p, ~ In p platforms -> JS.get usage p = None) /\
  (forall p dp ds, In p platforms -> p <> primaryPlatform ->
                   JS.get usage primaryPlatform = Some dp ->
                   JS.get usage p = Some ds ->
                   limit dp < limit ds).
Proof.
  intros Hin usage.
  assert (Hkeys : JS.keys usage = platforms).
  { unfold usage. cbn in Hin.
    destruct Hin as [<- | [<- | [<- | [<- | []]]]]; reflexivity. }
  assert (Hprim : JS.get usage primaryPlatform
                  = Some {| used := 0; limit := 3; isPrimary := true |}).
  { unfold usage. cbn in Hin.
    destruct Hin as [<- | [<- | [<- | [<- | []]]]]; reflexivity. }
  assert (Hsec : forall p, In p platforms -> p <> primaryPlatform ->
            JS.get usage p = Some {| used := 0; limit := 10; isPrimary := false |}).
  { intros p Hp Hne. unfold usage. cbn in Hin, Hp.
    destruct Hin as [<- | [<- | [<- | [<- | []]]]];
      destruct Hp as [<- | [<- | [<- | [<- | []]]]];
      try reflexivity; exfalso; apply Hne; reflexivity. }
  repeat split; auto.
  - intros p Hnot.
    assert (Hgen : forall (o : UserUsage), ~ In p (JS.keys o) -> JS.get o p = None).
    { induction o as [ | [k v] o IH]; cbn; intros Hn; [reflexivity | ].
      destruct (String.eqb_spec k p) as [-> | Hkp].
      - exfalso. apply Hn. left. reflexivity.
      - apply IH. intros Hi. apply Hn. right. exact Hi. }
    apply Hgen. rewrite Hkeys. exact Hnot.
  - intros p dp ds Hp Hne Hdp Hds.
    rewrite Hprim in Hdp. rewrite (Hsec p Hp Hne) in Hds.
    injection Hdp as <-. injection Hds as <-. cbn. lia.
Qed.

Lemma calculateInitialUsage_quotas_witness :
  In "make" platforms /\
  JS.keys (calculateInitialUsage "make") = platforms /\
  JS.get (calculateInitialUsage "make") "make"
    = Some {| used := 0; limit := 3; isPrimary := true |}.
Proof.
  split; [cbn; tauto | ].
  pose proof (calculateInitialUsage_quotas "make"
                (or_intror (or_intror (or_introl eq_refl)))) as H.
  cbv zeta in H. exact (conj (proj1 H) (proj1 (proj2 H))).
Defined.

(** *** Three checks on a fresh zapier user *)

Example check_fresh_primary :
  result (checkUsageLimit "u1" "zapier" "free" (calculateInitialUsage "zapier"))
         quiet_world
  = {| allowed := true; remaining := 3; isAtLimit := false;
       willTriggerUpgrade := false; conversionTrigger := None; message := None |}.
Proof. reflexivity. Qed.

Example check_exhausted_primary :
  checkUsageLimit "u1" "zapier" "free"
    [("zapier", {| used := 3; limit := 3; isPrimary := true |})] quiet_world
  = ({| allowed := false; remaining := 0; isAtLimit := true;
        willTriggerUpgrade := true;
        conversionTrigger := Some primary_platform_limit;
        message :=
          Some "You've used all 3 zapier workflows this month. Upgrade to Pro for unlimited access to your main platform!" |},
     {| clock := 1000;
        firestore_available := true;
        conversion_opportunities :=
          [ {| co_userId := "u1"; co_platform := "zapier";
               co_trigger := "primary_platform_limit";
               co_timestamp := 1000; co_converted := false |} ];
        console := [] |}).
Proof. reflexivity. Qed.

(** Under a name the map only inherits the check reads a value without
    counters and allows, on Firestore up or down. *)
Example check_inherited_name :
  result (checkUsageLimit "u1" "constructor" "free" (calculateInitialUsage "zapier"))
         busy_world
  = {| allowed := true; remaining := JS.NaN; isAtLimit := false;
       willTriggerUpgrade := false; conversionTrigger := None; message := None |}.
Proof. reflexivity. Qed.

Example check_unknown_platform :
  result (checkUsageLimit "u1" "airtable" "free" (calculateInitialUsage "zapier"))
         busy_world
  = {| allowed := false; remaining := 0; isAtLimit := true;
       willTriggerUpgrade := false; conversionTrigger := None;
       message := Some "Platform not found in user usage data" |}.
Proof. reflexivity. Qed.

(** *** Results and effects *)

(** What [checkUsageLimit] does write: a blocked check appends one record
    to [conversion_opportunities] when Firestore accepts it. *)
Lemma checkUsageLimit_blocked_records userId platform userPlan currentUsage d w :
  blocked_at_quota userPlan platform currentUsage d ->
  firestore_available w = true ->
  conversion_opportunities
    (world_after (checkUsageLimit userId platform userPlan currentUsage) w)
  = (conversion_opportunities w ++
     [ {| co_userId := userId; co_platform := platform;
          co_trigger := trigger_name (trigger_for d);
          co_timestamp := clock w; co_converted := false |} ])%list.
Proof.
  intros (Hplan & Hget & Hle) Hup. unfold checkUsageLimit.
  rewrite Hplan, Hget.
  assert (Hb : (limit d - used d <=? 0) = true) by (apply Z.leb_le; lia).
  cbv zeta. rewrite Hb.
  unfold world_after, bind, trackConversionOpportunity, ret, trigger_for.
  rewrite Hup. reflexivity.
Qed.

Lemma checkUsageLimit_result_any_world
      userId1 userId2 platform userPlan currentUsage w1 w2 :
  result (checkUsageLimit userId1 platform userPlan currentUsage) w1
  = result (checkUsageLimit userId2 platform userPlan currentUsage) w2.
Proof.
  destruct (is_unlimited_plan userPlan) eqn:Hplan.
  - now rewrite !checkUsageLimit_paid.
  - destruct (JS.get currentUsage platform) as [d | ] eqn:Hget.
    + destruct (Z_lt_le_dec (used d) (limit d)) as [Hlt | Hle].
      * now rewrite !(checkUsageLimit_admitted _ _ _ _ d).
      * now rewrite !(checkUsageLimit_blocked _ _ _ _ d).
    + destruct (JS.inherited platform) eqn:Hinh.
      * now rewrite !checkUsageLimit_inherited.
      * now rewrite !checkUsageLimit_missing.
Qed.

(** What a blocked check leaves behind: one more record when Firestore
    accepts the write, one more line on the console when it does not. *)
Lemma checkUsageLimit_blocked_world userId platform userPlan currentUsage d w :
  blocked_at_quota userPlan platform currentUsage d ->
  world_after (checkUsageLimit userId platform userPlan currentUsage) w
  = if firestore_available w then
      {| clock := clock w;
         firestore_available := true;
         conversion_opportunities :=
           (conversion_opportunities w ++
            [ {| co_userId := userId; co_platform := platform;
                 co_trigger := trigger_name (trigger_for d);
                 co_timestamp := clock w; co_converted := false |} ])%list;
         console := console w |}
    else
      {| clock := clock w;
         firestore_available := false;
         conversion_opportunities := conversion_opportunities w;
         console := (console w ++ ["Error tracking conversion opportunity:"])%list |}.
Proof.
  intros (Hplan & Hget & Hle). unfold checkUsageLimit.
  rewrite Hplan, Hget.
  assert (Hb : (limit d - used d <=? 0) = true) by (apply Z.leb_le; lia).
  cbv zeta. rewrite Hb.
  unfold world_after, bind, trackConversionOpportunity, ret, trigger_for.
  destruct (firestore_available w); reflexivity.
Qed.

(** Every other check leaves the world as it found it. *)
Lemma checkUsageLimit_quiet userId platform userPlan currentUsage w :
  (forall d, ~ blocked_at_quota userPlan platform currentUsage d) ->
  world_after (checkUsageLimit userId platform userPlan currentUsage) w = w.
Proof.
  intros Hfree. unfold checkUsageLimit.
  destruct (is_unlimited_plan userPlan) eqn:Hplan; [reflexivity | ].
  destruct (JS.get currentUsage platform) as [d | ] eqn:Hget.
  - destruct (Z.leb_spec (limit d - used d) 0) as [Hle | Hlt]; [ | reflexivity].
    exfalso. apply (Hfree d). unfold blocked_at_quota.
    split; [exact Hplan | split; [exact Hget | lia]].
  - destruct (JS.inherited platform); reflexivity.
Qed.

(** The claim of C8 as it is worded fails on its first word: a check that
    blocks a free user at the quota writes a record, stamped with the
    clock, into [conversion_opportunities]. *)
Lemma checkUsageLimit_not_pure :
  blocked_at_quota "free" "zapier" exhausted_primary
    {| used := 3; limit := 3; isPrimary := true |} /\
  world_after (checkUsageLimit "u1" "zapier" "free" exhausted_primary) quiet_world
  = {| clock := 1000;
       firestore_available := true;
       conversion_opportunities :=
         [ {| co_userId := "u1"; co_platform := "zapier";
              co_trigger := "primary_platform_limit";
              co_timestamp := 1000; co_converted := false |} ];
       console := [] |} /\
  ~ usage_computations_are_pure.
Proof.
  split; [ | split].
  - split; [reflexivity | split; [reflexivity | cbn; lia]].
  - reflexivity.
  - intros (Hpure & _).
    specialize (Hpure "u1" "zapier" "free" exhausted_primary quiet_world).
    discriminate Hpure.
Qed.

(** C8, amended. The three computations are deterministic and the value
    each returns depends on its arguments alone: [checkUsageLimit] returns
    the same value in any two worlds (clock, Firestore availability, stored
    conversion-opportunity records) and for any two user ids, and
    [getUsageSummary] and [predictConversionProbability] return the same
    value in any two worlds and leave the world as they found it. But
    [checkUsageLimit] is not pure: a check that blocks at the quota adds
    one conversion-opportunity record stamped with the clock, or one line
    on the console when the write fails; any other check changes
    nothing. *)
Theorem usage_results_and_effects :
  (forall userId1 userId2 platform userPlan currentUsage w1 w2,
      result (checkUsageLimit userId1 platform userPlan currentUsage) w1
      = result (checkUsageLimit userId2 platform userPlan currentUsage) w2) /\
  (forall userId platform userPlan currentUsage d w,
      blocked_at_quota userPlan platform currentUsage d ->
      world_after (checkUsageLimit userId platform userPlan currentUsage) w
      = if firestore_available w then
          {| clock := clock w;
             firestore_available := true;
             conversion_opportunities :=
               (conversion_opportunities w ++
                [ {| co_userId := userId; co_platform := platform;
                     co_trigger := trigger_name (trigger_for d);
                     co_timestamp := clock w; co_converted := false |} ])%list;
             console := console w |}
        else
          {| clock := clock w;
             firestore_available := false;
             conversion_opportunities := conversion_opportunities w;
             console :=
               (console w ++ ["Error tracking conversion opportunity:"])%list |}) /\
  (forall userId platform userPlan currentUsage w,
      (forall d, ~ blocked_at_quota userPlan platform currentUsage d) ->
      world_after (checkUsageLimit userId platform userPlan currentUsage) w = w) /\
  (forall usage w1 w2,
      result (getUsageSummary_run usage) w1
      = result (getUsageSummary_run usage) w2 /\
      world_after (getUsageSummary_run usage) w1 = w1) /\
  (forall usage daysSinceSignup w1 w2,
      result (predictConversionProbability_run usage daysSinceSignup) w1
      = result (predictConversionProbability_run usage daysSinceSignup) w2 /\
      world_after (predictConversionProbability_run usage daysSinceSignup) w1 = w1).
Proof.
  split; [ | split; [ | split; [ | split]]].
  - intros. apply checkUsageLimit_result_any_world.
  - intros. now apply checkUsageLimit_blocked_world.
  - intros. now apply checkUsageLimit_quiet.
  - intros. split; reflexivity.
  - intros. split; reflexivity.
Qed.

(** *** The conversion probability *)

Lemma clamp_in_unit_interval (x : JS.number) :
  x <> JS.NaN ->
  in_unit_interval (JS.min (JS.max x (JS.Fin 0)) (JS.Fin 1)).
Proof.
  intros Hx. destruct x as [q | | | ]; try (cbn; split; discriminate).
  - unfold JS.max, JS.gtb.
    destruct (Qle_bool q 0) eqn:E0; cbn.
    + split; discriminate.
    + destruct (Qle_bool q 1) eqn:E1; cbn.
      * split.
        -- apply Qlt_le_weak. apply Qnot_le_lt. intros Hle.
           apply Qle_bool_iff in Hle. congruence.
        -- now apply Qle_bool_iff.
      * split; discriminate.
  - contradiction.
Qed.

Lemma timeScore_finite (daysSinceSignup : JS.number) :
  nonnegative daysSinceSignup ->
  exists t, JS.min (JS.div daysSinceSignup (JS.of_Z 14)) (JS.Fin 1) = JS.Fin t.
Proof.
  destruct daysSinceSignup as [q | | | ]; cbn; intros H; try contradiction.
  - destruct (Qle_bool (q / inject_Z 14) 1); eexists; reflexivity.
  - eexists; reflexivity.
Qed.

Lemma div_by_positive (a b : Z) :
  0 < b -> JS.div (JS.of_Z a) (JS.of_Z b) = JS.Fin (inject_Z a / inject_Z b).
Proof.
  intros Hb. unfold JS.div, JS.of_Z, JS.sgn. cbn.
  destruct (Z.compare_spec b 0); try lia; reflexivity.
Qed.

Lemma primary_key_found (usage : UserUsage) (k : string) :
  find_primary usage = Some k -> k <> "" -> primary_key usage = k.
Proof.
  intros Hfind Hk. unfold primary_key. rewrite Hfind.
  destruct (String.eqb_spec k ""); [contradiction | reflexivity].
Qed.

(** The claim of C10 as it is worded fails: with two primaries of which the
    first in key order has limit 0 and the last has used 0, the quotient is
    0/0 and the clamp returns NaN. *)
Lemma probability_unbounded_with_two_primaries :
  has_primary_with_positive_limit two_primaries /\
  nonnegative (JS.of_Z 0) /\
  predictConversionProbability two_primaries (JS.of_Z 0) = JS.Ok JS.NaN /\
  ~ probability_bounded_given_some_primary.
Proof.
  assert (Hprimary : has_primary_with_positive_limit two_primaries).
  { exists "n8n", {| used := 0; limit := 3; isPrimary := true |}.
    split; [right; left; reflexivity | split; reflexivity]. }
  assert (Hdays : nonnegative (JS.of_Z 0)) by (cbn; discriminate).
  assert (Hnan : predictConversionProbability two_primaries (JS.of_Z 0)
                 = JS.Ok JS.NaN) by reflexivity.
  repeat split; try assumption.
  intros Hclaim.
  destruct (Hclaim two_primaries (JS.of_Z 0) Hprimary Hdays) as (p & Hp & Hunit).
  rewrite Hnan in Hp. injection Hp as <-. exact Hunit.
Qed.

(** C10, amended. When the first platform in key order that is primary
    has a non-empty name and a positive limit, and [daysSinceSignup] is not
    negative, [predictConversionProbability] returns a number of the closed
    interval from 0 to 1, whatever the used counts are. *)
Theorem predictConversionProbability_bounded
    (usage : UserUsage) (daysSinceSignup : JS.number) (k : string) (d : UsageData) :
  find_primary usage = Some k ->
  k <> "" ->
  JS.get usage k = Some d ->
  0 < limit d ->
  nonnegative daysSinceSignup ->
  exists p, predictConversionProbability usage daysSinceSignup = JS.Ok p /\
            in_unit_interval p.
Proof.
  intros Hfind Hk Hget Hlimit Hdays.
  unfold predictConversionProbability.
  rewrite (primary_key_found usage k Hfind Hk), Hget.
  eexists. split; [reflexivity | ].
  apply clamp_in_unit_interval.
  rewrite (div_by_positive _ _ Hlimit).
  destruct (timeScore_finite daysSinceSignup Hdays) as (t & ->).
  destruct (0 <? secondaryPlatformsUsage (getUsageSummary usage));
    cbn; discriminate.
Qed.

Lemma predictConversionProbability_bounded_witness :
  find_primary (calculateInitialUsage "zapier") = Some "zapier" /\
  "zapier" <> "" /\
  JS.get (calculateInitialUsage "zapier") "zapier"
    = Some {| used := 0; limit := 3; isPrimary := true |} /\
  0 < 3 /\
  nonnegative (JS.of_Z 5) /\
  exists p, predictConversionProbability (calculateInitialUsage "zapier") (JS.of_Z 5)
            = JS.Ok p /\ in_unit_interval p.
Proof.
  assert (H1 : find_primary (calculateInitialUsage "zapier") = Some "zapier")
    by reflexivity.
  assert (H2 : "zapier" <> "") by discriminate.
  assert (H3 : JS.get (calculateInitialUsage "zapier") "zapier"
               = Some {| used := 0; limit := 3; isPrimary := true |})
    by reflexivity.
  assert (H4 : 0 < limit {| used := 0; limit := 3; isPrimary := true |})
    by (cbn; lia).
  assert (H5 : nonnegative (JS.of_Z 5)) by (cbn; discriminate).
  repeat (split; [assumption || (cbn; lia) | ]).
  exact (predictConversionProbability_bounded
           (calculateInitialUsage "zapier") (JS.of_Z 5) "zapier" _
           H1 H2 H3 H4 H5).
Defined.

End UsageFacts.

(* ================================================================== *)
(** ** Properties of the upgrade offer *)
(* ================================================================== *)

Module HooksFacts.

Import Usage Hooks.

(** The at-limit list grows only with platforms at their limit, and the two
    totals grow by the counters of each entry. *)
Lemma summary_fold_at_limit (l : UserUsage) (acc : UsageSummary) :
  platformsAtLimit (fold_left summary_step l acc) = [] <->
  platformsAtLimit acc = [] /\
  (forall k d, In (k, d) l -> used d < limit d).
Proof.
  revert acc. induction l as [ | [k d] l IH]; intros acc; cbn [fold_left].
  - split; [intros H; split; [exact H | intros ? ? []] | tauto].
  - rewrite IH. unfold summary_step. cbn [platformsAtLimit].
    destruct (Z.leb_spec (limit d) (used d)) as [Hle | Hlt].
    + split.
      * intros [Hnil _]. destruct (platformsAtLimit acc); discriminate Hnil.
      * intros [_ Hall]. specialize (Hall k d (or_introl eq_refl)). lia.
    + split.
      * intros [Hnil Hall]. split; [exact Hnil | ].
        intros k' d' [Heq | Hin]; [injection Heq as <- <-; exact Hlt | eauto].
      * intros [Hnil Hall]. split; [exact Hnil | ].
        intros k' d' Hin. apply (Hall k' d'). right. exact Hin.
Qed.

Lemma summary_fold_totals (l : UserUsage) (acc : UsageSummary) :
  (forall k d, In (k, d) l -> used d < limit d) ->
  totalUsed (fold_left summary_step l acc) - totalUsed acc
  <= totalLimit (fold_left summary_step l acc) - totalLimit acc.
Proof.
  revert acc. induction l as [ | [k d] l IH]; intros acc Hall; cbn [fold_left].
  - lia.
  - assert (Hd : used d < limit d) by (apply (Hall k d); left; reflexivity).
    assert (Hl : forall k' d', In (k', d') l -> used d' < limit d')
      by (intros k' d' Hin; apply (Hall k' d'); right; exact Hin).
    specialize (IH (summary_step acc (k, d)) Hl).
    remember (fold_left summary_step l (summary_step acc (k, d))) as rest.
    unfold summary_step in IH. cbn in IH. lia.
Qed.

Lemma below_limit_or_at_limit (u : UserUsage) :
  (forall k d, In (k, d) u -> used d < limit d) \/ some_platform_at_limit u.
Proof.
  induction u as [ | [k d] u [Hall | (k' & d' & Hin & Hle)]].
  - left. intros ? ? [].
  - destruct (Z_lt_le_dec (used d) (limit d)) as [Hlt | Hle].
    + left. intros k' d' [Heq | Hin]; [injection Heq as <- <-; exact Hlt | eauto].
    + right. exists k, d. split; [left; reflexivity | exact Hle].
  - right. exists k', d'. split; [right; exact Hin | exact Hle].
Qed.

Lemma at_limit_list_nonempty (u : UserUsage) :
  (0 <? Z.of_nat (List.length (platformsAtLimit (getUsageSummary u)))) = true
  <-> some_platform_at_limit u.
Proof.
  pose proof (summary_fold_at_limit u
                {| totalUsed := 0; totalLimit := 0; platformsAtLimit := [];
                   primaryPlatformUsage := 0; secondaryPlatformsUsage := 0 |})
    as Hfold.
  fold (getUsageSummary u) in Hfold. cbn [platformsAtLimit] in Hfold.
  split.
  - intros Hpos.
    destruct (below_limit_or_at_limit u) as [Hall | Hsome]; [ | exact Hsome].
    assert (Hnil : platformsAtLimit (getUsageSummary u) = [])
      by (apply Hfold; auto).
    rewrite Hnil in Hpos. discriminate Hpos.
  - intros (k & d & Hin & Hle).
    destruct (platformsAtLimit (getUsageSummary u)) eqn:Hlist.
    + exfalso. destruct Hfold as [Hall _].
      specialize (Hall eq_refl). destruct Hall as [_ Hall].
      specialize (Hall k d Hin). lia.
    + cbn [List.length]. apply Z.ltb_lt. lia.
Qed.

Lemma totals_without_limit_reached (u : UserUsage) :
  ~ some_platform_at_limit u ->
  totalUsed (getUsageSummary u) <= totalLimit (getUsageSummary u).
Proof.
  intros Hnone.
  pose proof (summary_fold_totals u
                {| totalUsed := 0; totalLimit := 0; platformsAtLimit := [];
                   primaryPlatformUsage := 0; secondaryPlatformsUsage := 0 |})
    as Hfold.
  fold (getUsageSummary u) in Hfold. cbn [totalUsed totalLimit] in Hfold.
  assert (Hall : forall k d, In (k, d) u -> used d < limit d).
  { intros k d Hin. destruct (Z_lt_le_dec (used d) (limit d)); [assumption | ].
    exfalso. apply Hnone. exists k, d. auto. }
  specialize (Hfold Hall). lia.
Qed.

(** The comparison [totalUsageRate > 0.8] in rational terms, when the total
    used does not exceed the total limit. *)
Lemma rate_comparison (tu tl : Z) :
  tu <= tl ->
  JS.gtb (JS.div (JS.of_Z tu) (JS.of_Z tl)) (JS.Fin (8 # 10)) = true
  <-> tl <> 0 /\ (8 # 10 < inject_Z tu / inject_Z tl)%Q.
Proof.
  intros Hle. unfold JS.div, JS.of_Z, JS.sgn. cbn [Qnum inject_Z].
  assert (Hfin : forall x : Q,
             JS.gtb (JS.Fin x) (JS.Fin (8 # 10)) = true <-> (8 # 10 < x)%Q).
  { intros x. unfold JS.gtb. rewrite negb_true_iff. split.
    - intros Hb. apply Qnot_le_lt. intros Hq.
      apply Qle_bool_iff in Hq. congruence.
    - intros Hlt. destruct (Qle_bool x (8 # 10)) eqn:E; [ | reflexivity].
      apply Qle_bool_iff in E. exfalso. exact (Qlt_not_le _ _ Hlt E). }
  destruct (Z.compare_spec tl 0) as [Heq | Hneg | Hpos].
  - subst tl. destruct (Z.compare_spec tu 0); try lia; cbn;
      (split; [discriminate | intros [Hne _]; congruence]).
  - rewrite Hfin. split; [intros H; split; [lia | exact H] | tauto].
  - rewrite Hfin. split; [intros H; split; [lia | exact H] | tauto].
Qed.

(** [daysSinceSignup] counts whole elapsed days: it is at most 7 until the
    eighth day after signup begins. *)
Lemma daysSinceSignup_at_most_7 (now : Z) (profile : UserProfile) :
  daysSinceSignup now profile <= 7 <-> now - createdAt profile < 8 * ms_per_day.
Proof.
  unfold daysSinceSignup.
  assert (Hpos : 0 < ms_per_day) by reflexivity.
  split; intros H.
  - apply Z.lt_le_pred. apply Z.lt_succ_r.
    pose proof (Z.mul_succ_div_gt (now - createdAt profile) ms_per_day Hpos). nia.
  - assert (Hq : (now - createdAt profile) / ms_per_day < 8)
      by (apply Z.div_lt_upper_bound; lia).
    lia.
Qed.

(** The precedence in the terms of the source: the third rule tests the
    floored day count. *)
Lemma getOptimalUpgradeOffer_by_day_count
    (profile : UserProfile) (u : UserUsage) (now : Z) :
  usage profile = Some u ->
  let offer := getOptimalUpgradeOffer (Some profile) now in
  let at_limit := some_platform_at_limit u in
  let high := usage_rate_above_80_percent (getUsageSummary u) in
  let days := daysSinceSignup now profile in
  (at_limit -> discount offer = 25) /\
  (~ at_limit -> high -> discount offer = 20) /\
  (~ at_limit -> ~ high -> days <= 7 -> discount offer = 30) /\
  (~ at_limit -> ~ high -> 7 < days -> discount offer = 0).
Proof.
  intros Hu offer at_limit high days.
  unfold offer, getOptimalUpgradeOffer, usageSummary, usage_of. rewrite Hu.
  fold days.
  destruct (0 <? Z.of_nat (List.length (platformsAtLimit (getUsageSummary u))))
    eqn:Hlist.
  - apply at_limit_list_nonempty in Hlist.
    repeat split; intros; try reflexivity; contradiction.
  - assert (Hnone : ~ at_limit).
    { intros H. apply at_limit_list_nonempty in H. congruence. }
    pose proof (rate_comparison _ _ (totals_without_limit_reached u Hnone)) as Hrate.
    fold (usage_rate_above_80_percent (getUsageSummary u)) in Hrate. fold high in Hrate.
    destruct (JS.gtb _ _) eqn:Hgt.
    + assert (Hhigh : high) by (apply Hrate; reflexivity).
      repeat split; intros; try reflexivity; contradiction.
    + assert (Hlow : ~ high) by (intros H; apply Hrate in H; discriminate H).
      destruct (Z.leb_spec days 7) as [Hd | Hd].
      * repeat split; intros; try reflexivity; try contradiction; lia.
      * repeat split; intros; try reflexivity; try contradiction; lia.
Qed.

Lemma untouched_not_at_limit :
  ~ some_platform_at_limit (calculateInitialUsage "zapier").
Proof.
  intros (k & d & Hin & Hle). cbn in Hin.
  destruct Hin as [H | [H | [H | [H | []]]]]; injection H as <- <-;
    cbn in Hle; lia.
Qed.

Lemma untouched_rate_low :
  ~ usage_rate_above_80_percent (getUsageSummary (calculateInitialUsage "zapier")).
Proof.
  intros [_ H]. vm_compute in H. discriminate H.
Qed.

(** The claim of C7 as it is worded fails on its third rule: seven days and
    twelve hours after signup more than 7 days have passed, and the offer is
    still 30 percent, because the source compares the floored day count. *)
Lemma offer_after_seven_days_and_a_half :
  usage untouched_profile = Some (calculateInitialUsage "zapier") /\
  ~ some_platform_at_limit (calculateInitialUsage "zapier") /\
  ~ usage_rate_above_80_percent (getUsageSummary (calculateInitialUsage "zapier")) /\
  7 * ms_per_day < seven_days_and_a_half - createdAt untouched_profile /\
  daysSinceSignup seven_days_and_a_half untouched_profile = 7 /\
  discount (getOptimalUpgradeOffer (Some untouched_profile) seven_days_and_a_half) = 30 /\
  ~ new_user_offer_ends_after_7_days.
Proof.
  assert (Hlate : 7 * ms_per_day < seven_days_and_a_half - createdAt untouched_profile)
    by reflexivity.
  assert (Hoffer : discount (getOptimalUpgradeOffer (Some untouched_profile)
                               seven_days_and_a_half) = 30) by reflexivity.
  split; [reflexivity | ].
  split; [exact untouched_not_at_limit | ].
  split; [exact untouched_rate_low | ].
  split; [exact Hlate | ].
  split; [reflexivity | ].
  split; [exact Hoffer | ].
  intros Hclaim.
  destruct (Hclaim untouched_profile _ seven_days_and_a_half eq_refl
              untouched_not_at_limit untouched_rate_low) as [_ Hzero].
  specialize (Hzero Hlate). rewrite Hoffer in Hzero. discriminate Hzero.
Qed.

(** C7, amended. With a loaded usage summary (on the free plan as on any
    other), the discount is 25 when some platform is at its limit;
    otherwise 20 when total used over total limit exceeds 0.8; otherwise 30
    when fewer than 8 whole days have elapsed since signup, that is while
    the elapsed time in milliseconds is below 8 days; otherwise 0. *)
Theorem getOptimalUpgradeOffer_precedence
    (profile : UserProfile) (u : UserUsage) (now : Z) :
  usage profile = Some u ->
  let offer := getOptimalUpgradeOffer (Some profile) now in
  let at_limit := some_platform_at_limit u in
  let high := usage_rate_above_80_percent (getUsageSummary u) in
  let elapsed := now - createdAt profile in
  (at_limit -> discount offer = 25) /\
  (~ at_limit -> high -> discount offer = 20) /\
  (~ at_limit -> ~ high -> elapsed < 8 * ms_per_day -> discount offer = 30) /\
  (~ at_limit -> ~ high -> 8 * ms_per_day <= elapsed -> discount offer = 0).
Proof.
  intros Hu offer at_limit high elapsed.
  destruct (getOptimalUpgradeOffer_by_day_count profile u now Hu)
    as (H25 & H20 & H30 & H0).
  pose proof (daysSinceSignup_at_most_7 now profile) as Hdays.
  split; [exact H25 | split; [exact H20 | split]].
  - intros Hnone Hlow Hnew. apply H30; [exact Hnone | exact Hlow | ].
    apply Hdays. exact Hnew.
  - intros Hnone Hlow Hold. apply H0; [exact Hnone | exact Hlow | ].
    destruct (Z_le_gt_dec (daysSinceSignup now profile) 7) as [Hle | Hgt];
      [ | lia].
    apply Hdays in Hle. unfold elapsed in Hold. lia.
Qed.

(** A user seven days and twelve hours old with nothing used is still
    offered 30. *)
Lemma getOptimalUpgradeOffer_precedence_witness :
  usage untouched_profile = Some (calculateInitialUsage "zapier") /\
  seven_days_and_a_half - createdAt untouched_profile < 8 * ms_per_day /\
  discount (getOptimalUpgradeOffer (Some untouched_profile) seven_days_and_a_half) = 30.
Proof.
  split; [reflexivity | split; [reflexivity | ]].
  exact (proj1 (proj2 (proj2
           (getOptimalUpgradeOffer_precedence untouched_profile _
              seven_days_and_a_half eq_refl)))
           untouched_not_at_limit untouched_rate_low eq_refl).
Defined.

(** A user two days old with the primary platform used up is offered 25,
    not 30. *)
Example offer_at_limit_is_25 :
  discount (getOptimalUpgradeOffer (Some profile_at_limit) (2 * ms_per_day)) = 25.
Proof. reflexivity. Qed.

End HooksFacts.


(* ================================================================== *)
(** ** Properties of the workflow generator *)
(* ================================================================== *)

Module GenerationFacts.

Import JS OpenAI.

(** Splits on the first [match], [if] or [bind] scrutinee met in a
    hypothesis that equates a computation with a result. *)
Ltac split_scrutinee H :=
  match type of H with
  | context [bind ?m _] =>
      let E := fresh "E" in destruct m eqn:E; cbn [bind] in H
  | context [if ?b then _ else _] =>
      let E := fresh "E" in destruct b eqn:E
  | context [match ?m with _ => _ end] =>
      let E := fresh "E" in destruct m eqn:E
  end.

Lemma countNodes_fallback (request : WorkflowGenerationRequest) (p : Platform) :
  countNodes (fallbackWorkflows request p) = Ok 3.
Proof. destruct p; reflexivity. Qed.

Lemma calculateComplexity_fallback (request : WorkflowGenerationRequest) (p : Platform) :
  exists c, calculateComplexity (fallbackWorkflows request p) (input request) = Ok c.
Proof.
  unfold calculateComplexity. rewrite countNodes_fallback. cbn [bind].
  destruct (_ || _); [eexists; reflexivity | ].
  destruct (_ || _); eexists; reflexivity.
Qed.

(** The fallback never throws for one of the four platforms. *)
Lemma generateFallbackWorkflow_total (env : Env) (request : WorkflowGenerationRequest) :
  exists c,
    generateFallbackWorkflow request (now_in_catch env - now_start env)
    = Ok (fallback_response env request c).
Proof.
  destruct (calculateComplexity_fallback request (platform request)) as (c & Hc).
  exists c. unfold generateFallbackWorkflow.
  rewrite countNodes_fallback. cbn [bind]. rewrite Hc. reflexivity.
Qed.

(** Whatever leaves the [try] block through [return] has [success = true]. *)
Lemma generateWorkflow_try_success env request r :
  generateWorkflow_try env request = Ok r -> success r = true.
Proof.
  unfold generateWorkflow_try. intros H.
  repeat (split_scrutinee H; try discriminate H).
  injection H as <-. reflexivity.
Qed.

Lemma failure_path_throws env request :
  FailurePath env request ->
  exists msg, generateWorkflow_try env request = Throw msg.
Proof.
  intros Hfail. unfold generateWorkflow_try.
  destruct (String.eqb (input request) ""
            || Nat.ltb (String.length (input request)) 10) eqn:Hshort;
    [eexists; reflexivity | ].
  destruct (Nat.ltb 2000 (String.length (input request))) eqn:Hlong;
    [eexists; reflexivity | ].
  apply orb_false_iff in Hshort. destruct Hshort as [_ Hshort].
  apply Nat.ltb_ge in Hshort. apply Nat.ltb_ge in Hlong.
  destruct Hfail as [Hlen | Hlen | msg Hapi | response content others msg Hapi Hch Hparse
                    | response content others w Hapi Hch Hparse Hvalid].
  - lia.
  - lia.
  - rewrite Hapi. eexists; reflexivity.
  - rewrite Hapi. cbn [bind]. rewrite Hch. cbn [bind]. rewrite Hparse.
    eexists; reflexivity.
  - rewrite Hapi. cbn [bind]. rewrite Hch. cbn [bind]. rewrite Hparse.
    cbn [bind]. rewrite Hvalid. eexists; reflexivity.
Qed.

Lemma generateWorkflow_total env request :
  exists r, generateWorkflow env request = Ok r /\ success r = true.
Proof.
  unfold generateWorkflow.
  destruct (generateWorkflow_try env request) as [r | msg] eqn:Htry.
  - exists r. split; [reflexivity | ].
    exact (generateWorkflow_try_success env request r Htry).
  - destruct (generateFallbackWorkflow_total env request) as (c & Hc).
    exists (fallback_response env request c). split; [exact Hc | reflexivity].
Qed.

(** C5. [generateWorkflow] always resolves, and with [success = true]; on
    each failure path it resolves to the fallback demo workflow of the
    requested platform with [tokensUsed = 0]; hence the handler never sends
    the response of its [!result.success] branch. *)
Theorem generateWorkflow_never_reports_failure
    (env : Env) (request : WorkflowGenerationRequest) :
  (exists r, generateWorkflow env request = Ok r /\ success r = true) /\
  (FailurePath env request ->
   exists c, generateWorkflow env request = Ok (fallback_response env request c) /\
             success (fallback_response env request c) = true /\
             tokensUsed (metadata (fallback_response env request c)) = 0 /\
             workflow (fallback_response env request c)
             = fallbackWorkflows request (platform request)) /\
  (forall development req e p,
      Route.payload
        (Route.response
           (Route.handleWorkflowGeneration (generateWorkflow env) development req))
      <> Route.GenerationFailed e p).
Proof.
  split; [apply generateWorkflow_total | split].
  - intros Hfail.
    destruct (failure_path_throws env request Hfail) as (msg & Hthrow).
    destruct (generateFallbackWorkflow_total env request) as (c & Hc).
    exists c. unfold generateWorkflow. rewrite Hthrow.
    repeat split. exact Hc.
  - intros development req e p.
    unfold Route.handleWorkflowGeneration.
    destruct (Route.safeParse (Route.body req)) as [issues | data];
      [cbn; discriminate | ].
    assert (Hforward :
              Route.payload (Route.response
                               (Route.forward (generateWorkflow env) development data))
              <> Route.GenerationFailed e p).
    { unfold Route.forward. cbn [Route.response Route.payload].
      match goal with
      | |- context [generateWorkflow env ?g] =>
          destruct (generateWorkflow_total env g) as (r & -> & Hr)
      end.
      rewrite Hr. cbn. discriminate. }
    destruct (Route.rateLimit req) as [info | ]; [ | exact Hforward].
    destruct (Route.rl_remaining info =? 0); [cbn; discriminate | exact Hforward].
Qed.

(** *** The generator on concrete environments *)

Example validateWorkflow_null :
  validateWorkflow JNull "n8n"
  = {| valid := false;
       errors := ["Validation error: TypeError: Cannot read properties of null"] |}.
Proof. reflexivity. Qed.

Example validateWorkflow_empty_zapier :
  validateWorkflow (JObj []) "zapier"
  = {| valid := false;
       errors := ["Zapier workflow must have steps array";
                  "Zapier workflow must have title"] |}.
Proof. reflexivity. Qed.

Example validateWorkflow_demo (p : Platform) :
  valid (validateWorkflow (fallbackWorkflows (sample_request p) p) (platform_name p))
  = true.
Proof. destruct p; reflexivity. Qed.

(** The success path: the parsed document is returned with the tokens the
    endpoint reports. *)
Example generateWorkflow_scripted :
  generateWorkflow scripted_env (sample_request n8n)
  = Ok {| success := true;
          workflow := fallback_n8n;
          metadata := {| md_platform := n8n; nodesCount := 3; complexity := simple;
                         tokensUsed := 412; generationTime := 800 |};
          error := None |}.
Proof. reflexivity. Qed.

(** The same reply fails the zapier check, and the fallback takes over. *)
Example generateWorkflow_scripted_wrong_platform :
  generateWorkflow scripted_env (sample_request zapier)
  = Ok (fallback_response scripted_env (sample_request zapier) simple).
Proof. reflexivity. Qed.

Example generateWorkflow_offline :
  generateWorkflow offline_env (sample_request make)
  = Ok (fallback_response offline_env (sample_request make) simple).
Proof. reflexivity. Qed.

(** Ten blanks pass the schema, are trimmed to the empty string by the
    handler, and come back from the generator as the demo workflow. *)
Example post_blank_input :
  Route.response
    (Server.post_generate_workflow offline_env false
       (Some (JObj [ ("input", JStr "          ");
                     ("platform", JStr "power_automate");
                     ("userId", JStr "u1") ])))
  = {| Route.status := 200;
       Route.payload :=
         Route.Generated fallback_power_automate
           {| Route.gm_platform := power_automate;
              Route.gm_nodesCount := 3;
              Route.gm_complexity := simple;
              Route.gm_generationTime := 30 |} |}.
Proof. reflexivity. Qed.

End GenerationFacts.


(* ================================================================== *)
(** ** Properties of the POST /api/generate-workflow handler *)
(* ================================================================== *)

Module RouteFacts.

Import JS Route.

Lemma platform_of_name_complete (p : OpenAI.Platform) :
  platform_of_name (OpenAI.platform_name p) = Some p.
Proof. destruct p; reflexivity. Qed.

Lemma platform_of_name_sound (s : string) (p : OpenAI.Platform) :
  platform_of_name s = Some p -> s = OpenAI.platform_name p.
Proof.
  unfold platform_of_name.
  destruct (String.eqb_spec s "n8n") as [-> | _];
    [intros H; injection H as <-; reflexivity | ].
  destruct (String.eqb_spec s "zapier") as [-> | _];
    [intros H; injection H as <-; reflexivity | ].
  destruct (String.eqb_spec s "make") as [-> | _];
    [intros H; injection H as <-; reflexivity | ].
  destruct (String.eqb_spec s "power_automate") as [-> | _];
    [intros H; injection H as <-; reflexivity | discriminate].
Qed.

(** What each field parser accepts. *)
Lemma parse_input_accepts (v : value) (s : string) :
  parse_input v = inr s <->
  v = Some (JStr s) /\ (10 <= String.length s <= 2000)%nat.
Proof.
  unfold parse_input. split.
  - destruct v as [[ | | | s' | | ] | ]; try discriminate.
    destruct (Nat.ltb_spec (String.length s') 10) as [Hlo | Hlo]; [discriminate | ].
    destruct (Nat.ltb_spec 2000 (String.length s')) as [Hhi | Hhi]; [discriminate | ].
    intros Heq; injection Heq as <-. split; [reflexivity | lia].
  - intros [-> [Hlo Hhi]].
    destruct (Nat.ltb_spec (String.length s) 10) as [Hlo' | _]; [lia | ].
    destruct (Nat.ltb_spec 2000 (String.length s)) as [Hhi' | _]; [lia | reflexivity].
Qed.

Lemma parse_platform_accepts (v : value) (p : OpenAI.Platform) :
  parse_platform v = inr p <-> v = Some (JStr (OpenAI.platform_name p)).
Proof.
  unfold parse_platform. split.
  - destruct v as [[ | | | s | | ] | ]; try discriminate.
    destruct (platform_of_name s) as [p' | ] eqn:Hname; [ | discriminate].
    intros H; injection H as <-.
    now rewrite (platform_of_name_sound s p' Hname).
  - intros ->. now rewrite platform_of_name_complete.
Qed.

Lemma parse_userId_accepts (v : value) (u : string) :
  parse_userId v = inr u <-> v = Some (JStr u) /\ u <> "".
Proof.
  unfold parse_userId. split.
  - destruct v as [[ | | | s | | ] | ]; try discriminate.
    destruct s as [ | c s]; [discriminate | ].
    cbn. intros H; injection H as <-. split; [reflexivity | discriminate].
  - intros [-> Hne]. destruct u as [ | c u]; [contradiction | reflexivity].
Qed.

Lemma safeParse_accepts (body : value) (data : WorkflowGenerationBody) :
  safeParse body = inr data <->
  satisfies_schema body (input data) (platform data) (userId data).
Proof.
  unfold satisfies_schema, safeParse, member.
  destruct body as [[ | | | | | fields] | ];
    try (split; [discriminate | intros (H & _); discriminate H]).
  rewrite <- parse_userId_accepts, <- parse_platform_accepts.
  destruct (parse_input (get fields "input")) as [ii | i] eqn:Hi.
  - split; [discriminate | ].
    intros (Hin & Hlen & _).
    assert (Hacc : parse_input (get fields "input") = inr (input data))
      by (apply parse_input_accepts; auto).
    congruence.
  - apply parse_input_accepts in Hi. destruct Hi as [Hi Hlen].
    destruct (parse_platform (get fields "platform")) as [pi | p];
      [split; [discriminate | intros (_ & _ & H & _); discriminate H] | ].
    destruct (parse_userId (get fields "userId")) as [ui | u];
      [split; [discriminate | intros (_ & _ & _ & H); discriminate H] | ].
    split.
    + intros H; injection H as <-. cbn. auto.
    + intros (Hin & _ & Hp & Hu).
      destruct data as [di dp du]. cbn in *. congruence.
Qed.

Lemma safeParse_rejects (body : value) :
  violates_schema body -> exists issues, safeParse body = inl issues.
Proof.
  intros Hbad.
  destruct (safeParse body) as [issues | data] eqn:Hparse;
    [exists issues; reflexivity | exfalso].
  apply safeParse_accepts in Hparse.
  destruct Hparse as (Hin & Hlen & Hp & Hu & Hne).
  destruct Hbad as [(s & Hs & Hshort) | [(s & Hs & Hlong) | [Hplat | Hempty]]].
  - rewrite Hin in Hs. injection Hs as <-. lia.
  - rewrite Hin in Hs. injection Hs as <-. lia.
  - exact (Hplat _ Hp).
  - rewrite Hu in Hempty. injection Hempty as Hempty. contradiction.
Qed.

(** The handler on its own has one more guard: handed a request that
    carries rate-limit information with nothing remaining, it answers a
    well-formed body with 429 and does not call the service. Nothing in
    the server attaches such information to a request. *)
Lemma rate_limited_valid_body_not_forwarded :
  satisfies_schema (body rate_limited_request)
    "  send a mail on signup  " OpenAI.zapier "u1" /\
  handleWorkflowGeneration unavailable_service false rate_limited_request
  = {| service_calls := [];
       response := {| status := 429; payload := RateLimitExceeded 60 |} |} /\
  ~ every_valid_body_is_forwarded.
Proof.
  assert (Hok : satisfies_schema (body rate_limited_request)
                  "  send a mail on signup  " OpenAI.zapier "u1").
  { repeat split; try reflexivity; cbn; try lia. discriminate. }
  split; [exact Hok | split; [reflexivity | ]].
  intros Hclaim.
  specialize (Hclaim unavailable_service false rate_limited_request
                "  send a mail on signup  " OpenAI.zapier "u1" Hok).
  discriminate Hclaim.
Qed.

(** Without the rate limit the same body reaches the service, trimmed. *)
Lemma sample_body_forwarded :
  service_calls
    (handleWorkflowGeneration unavailable_service false
       {| body := sample_body; rateLimit := None |})
  = [ {| OpenAI.input := "send a mail on signup";
         OpenAI.platform := OpenAI.zapier;
         OpenAI.userId := "u1" |} ].
Proof. reflexivity. Qed.

Lemma handler_forwards service development req i p u :
  satisfies_schema (body req) i p u ->
  rate_limit_exhausted req = false ->
  service_calls (handleWorkflowGeneration service development req)
  = [forwarded i p u].
Proof.
  intros Hok Hrate. unfold handleWorkflowGeneration.
  assert (Hparse : safeParse (body req)
                   = inr {| input := i; platform := p; userId := u |})
    by (apply safeParse_accepts; exact Hok).
  rewrite Hparse. unfold rate_limit_exhausted in Hrate.
  destruct (rateLimit req) as [info | ]; [rewrite Hrate | ]; reflexivity.
Qed.

(** The three outcomes of the handler on any request: a body that breaks
    one of the four constraints is answered with 400; a body that satisfies
    them all is forwarded, unless the request carries rate-limit information
    with nothing remaining; then the answer is 429. *)
Lemma handleWorkflowGeneration_validation
    (service : OpenAI.WorkflowGenerationRequest ->
               exc OpenAI.WorkflowGenerationResponse)
    (development : bool) (req : Request) :
  let outcome := handleWorkflowGeneration service development req in
  (violates_schema (body req) ->
   status (response outcome) = 400 /\
   payload_success (payload (response outcome)) = false /\
   service_calls outcome = []) /\
  (forall i p u,
      satisfies_schema (body req) i p u ->
      rate_limit_exhausted req = false ->
      service_calls outcome = [forwarded i p u]) /\
  (forall i p u,
      satisfies_schema (body req) i p u ->
      rate_limit_exhausted req = true ->
      status (response outcome) = 429 /\
      payload_success (payload (response outcome)) = false /\
      service_calls outcome = []).
Proof.
  intros outcome. unfold outcome, handleWorkflowGeneration.
  split; [ | split].
  - intros Hbad. destruct (safeParse_rejects (body req) Hbad) as (issues & ->).
    cbn. auto.
  - intros i p u Hok Hrate. now apply handler_forwards.
  - intros i p u Hok Hrate.
    assert (Hparse : safeParse (body req)
                     = inr {| input := i; platform := p; userId := u |})
      by (apply safeParse_accepts; exact Hok).
    rewrite Hparse. unfold rate_limit_exhausted in Hrate.
    destruct (rateLimit req) as [info | ]; [ | discriminate Hrate].
    rewrite Hrate. cbn. auto.
Qed.

(** As mounted by [createServer], no request carries rate-limit
    information, so every well-formed body reaches the generator. *)
Lemma post_generate_workflow_forwards env development body i p u :
  satisfies_schema body i p u ->
  service_calls (Server.post_generate_workflow env development body)
  = [forwarded i p u].
Proof.
  intros Hok. unfold Server.post_generate_workflow.
  apply handler_forwards; [exact Hok | reflexivity].
Qed.

(** C6. On POST /api/generate-workflow as [createServer] mounts it, for any
    generator environment: a body whose input is shorter than 10 or longer
    than 2000 characters, whose platform is not one of the four, or whose
    user id is empty is answered with status 400 and [success = false], and
    the generation service is not invoked; a body that satisfies the four
    constraints is forwarded to the service exactly once, with its input
    trimmed and its platform and user id unchanged. *)
Theorem post_generate_workflow_validation
    (env : OpenAI.Env) (development : bool) (body : value) :
  let outcome := Server.post_generate_workflow env development body in
  (violates_schema body ->
   status (response outcome) = 400 /\
   payload_success (payload (response outcome)) = false /\
   service_calls outcome = []) /\
  (forall i p u,
      satisfies_schema body i p u ->
      service_calls outcome = [forwarded i p u]).
Proof.
  intros outcome. unfold outcome, Server.post_generate_workflow. split.
  - intros Hbad. unfold handleWorkflowGeneration. cbn [Route.body].
    destruct (safeParse_rejects body Hbad) as (issues & ->).
    cbn. auto.
  - intros i p u Hok. apply handler_forwards; [exact Hok | reflexivity].
Qed.

End RouteFacts.


(* ================================================================== *)
(** ** Objects used as maps: reading after writing *)
(* ================================================================== *)

Module ObjectFacts.

Import JS.

Section Maps.

Context {A : Type}.
Implicit Types (o : object A) (k : string) (v : A).

Lemma get_set_same o k v : get (set o k v) k = Some v.
Proof.
  induction o as [ | [k' v'] o IH]; cbn.
  - now rewrite String.eqb_refl.
  - destruct (String.eqb_spec k' k) as [-> | Hne]; cbn.
    + now rewrite String.eqb_refl.
    + destruct (String.eqb_spec k' k); [contradiction | exact IH].
Qed.

Lemma get_set_other o k k' v : k <> k' -> get (set o k v) k' = get o k'.
Proof.
  intros Hne. induction o as [ | [k0 v0] o IH]; cbn.
  - destruct (String.eqb_spec k k'); [contradiction | reflexivity].
  - destruct (String.eqb_spec k0 k) as [-> | Hk0]; cbn.
    + destruct (String.eqb_spec k k'); [contradiction | reflexivity].
    + destruct (String.eqb_spec k0 k'); [reflexivity | exact IH].
Qed.

Lemma get_none_iff o k : get o k = None <-> ~ In k (keys o).
Proof.
  induction o as [ | [k' v'] o IH]; cbn.
  - tauto.
  - destruct (String.eqb_spec k' k) as [-> | Hne].
    + split; [discriminate | intros H; exfalso; apply H; now left].
    + rewrite IH. tauto.
Qed.

Lemma get_in o k v : get o k = Some v -> In (k, v) o.
Proof.
  induction o as [ | [k' v'] o IH]; cbn; [discriminate | ].
  destruct (String.eqb_spec k' k) as [-> | Hne].
  - intros H; injection H as ->. now left.
  - intros H. right. now apply IH.
Qed.

Lemma in_get o k v : NoDup (keys o) -> In (k, v) o -> get o k = Some v.
Proof.
  induction o as [ | [k' v'] o IH]; cbn; intros Hnd Hin; [contradiction | ].
  inversion Hnd as [ | ? ? Hnotin Hnd']; subst.
  destruct Hin as [Heq | Hin].
  - injection Heq as -> ->. now rewrite String.eqb_refl.
  - destruct (String.eqb_spec k' k) as [-> | Hne].
    + exfalso. apply Hnotin. change k with (fst (k, v)). now apply in_map.
    + now apply IH.
Qed.

Lemma keys_set_present o k v : In k (keys o) -> keys (set o k v) = keys o.
Proof.
  induction o as [ | [k' v'] o IH]; cbn; intros Hin; [contradiction | ].
  destruct (String.eqb_spec k' k) as [-> | Hne]; cbn; [reflexivity | ].
  f_equal. apply IH. destruct Hin; [contradiction | assumption].
Qed.

Lemma keys_set_absent o k v : ~ In k (keys o) -> keys (set o k v) = (keys o ++ [k])%list.
Proof.
  induction o as [ | [k' v'] o IH]; cbn; intros Hin; [reflexivity | ].
  destruct (String.eqb_spec k' k) as [-> | Hne]; cbn.
  - exfalso. apply Hin. now left.
  - f_equal. apply IH. tauto.
Qed.

Lemma in_set o k v k' v' :
  In (k', v') (set o k v) -> In (k', v') o \/ (k' = k /\ v' = v).
Proof.
  induction o as [ | [k0 v0] o IH]; cbn.
  - intros [H | []]. injection H as <- <-. now right.
  - destruct (String.eqb_spec k0 k) as [-> | Hne]; cbn.
    + intros [H | H]; [injection H as <- <-; now right | left; now right].
    + intros [H | H]; [left; now left | ].
      destruct (IH H) as [Hin | Heq]; [left; now right | now right].
Qed.

Lemma set_absent_app o k v : ~ In k (keys o) -> set o k v = (o ++ [(k, v)])%list.
Proof.
  induction o as [ | [k' v'] o IH]; cbn; intros Hin; [reflexivity | ].
  destruct (String.eqb_spec k' k) as [-> | Hne].
  - exfalso. apply Hin. now left.
  - f_equal. apply IH. tauto.
Qed.

(** Writing over the first binding of a key, entry by entry. *)
Lemma set_present_map o k v :
  NoDup (keys o) -> In k (keys o) ->
  set o k v = map (fun e => if String.eqb (fst e) k then (k, v) else e) o.
Proof.
  induction o as [ | [k' v'] o IH]; cbn; intros Hnd Hin; [contradiction | ].
  inversion Hnd as [ | ? ? Hnotin Hnd']; subst.
  destruct (String.eqb_spec k' k) as [-> | Hne].
  - f_equal. symmetry. rewrite <- (map_id o) at 2. apply map_ext_in.
    intros [k0 v0] H0. cbn.
    destruct (String.eqb_spec k0 k) as [-> | ]; [ | reflexivity].
    exfalso. apply Hnotin. change k with (fst (k, v0)). now apply in_map.
  - f_equal. apply IH; [assumption | ]. destruct Hin; [contradiction | assumption].
Qed.

End Maps.

End ObjectFacts.

(* ================================================================== *)
(** ** More properties of usageService *)
(* ================================================================== *)

Module UsageMoreFacts.

Import Usage UsageMore.

(** *** The summary, field by field *)

Lemma summary_unfold (l : UserUsage) (acc : UsageSummary) :
  totalUsed (fold_left summary_step l acc) = totalUsed acc + sum_of used l /\
  totalLimit (fold_left summary_step l acc) = totalLimit acc + sum_of limit l /\
  platformsAtLimit (fold_left summary_step l acc)
  = (platformsAtLimit acc ++ map fst (filter (fun e => exhausted (snd e)) l))%list /\
  secondaryPlatformsUsage (fold_left summary_step l acc)
  = secondaryPlatformsUsage acc
    + sum_of (fun d => if isPrimary d then 0 else used d) l.
Proof.
  unfold sum_of. revert acc.
  induction l as [ | [k d] l IH]; intros acc; cbn [fold_left].
  - cbn. rewrite app_nil_r. repeat split; first [lia | reflexivity].
  - destruct (IH (summary_step acc (k, d))) as (Hu & Hl & Hp & Hs).
    rewrite Hu, Hl, Hp, Hs. unfold summary_step, exhausted. cbn.
    destruct (limit d <=? used d); destruct (isPrimary d); cbn;
      rewrite <- ?app_assoc; cbn; repeat split; first [lia | reflexivity].
Qed.

Lemma summary_primary_none (l : UserUsage) (acc : UsageSummary) :
  primary_count l = 0%nat ->
  primaryPlatformUsage (fold_left summary_step l acc) = primaryPlatformUsage acc.
Proof.
  unfold primary_count. revert acc.
  induction l as [ | [k d] l IH]; intros acc; cbn; [reflexivity | ].
  destruct (isPrimary d) eqn:Hd; cbn; [discriminate | ].
  intros Hcount. rewrite (IH _ Hcount). cbn. rewrite ?Hd. reflexivity.
Qed.

Lemma sum_primary_none (l : UserUsage) :
  primary_count l = 0%nat ->
  sum_of (fun d => if isPrimary d then used d else 0) l = 0.
Proof.
  unfold primary_count, sum_of.
  induction l as [ | [k d] l IH]; cbn; [reflexivity | ].
  destruct (isPrimary d); cbn; [discriminate | ].
  intros Hcount. rewrite (IH Hcount). reflexivity.
Qed.

Lemma summary_primary_single (l : UserUsage) (acc : UsageSummary) :
  (primary_count l <= 1)%nat ->
  primaryPlatformUsage (fold_left summary_step l acc)
  = if Nat.eqb (primary_count l) 0 then primaryPlatformUsage acc
    else sum_of (fun d => if isPrimary d then used d else 0) l.
Proof.
  revert acc. induction l as [ | [k d] l IH]; intros acc Hcount; [reflexivity | ].
  cbn [fold_left].
  assert (Hstep : primary_count ((k, d) :: l)
                  = if isPrimary d then S (primary_count l) else primary_count l).
  { unfold primary_count. cbn. now destruct (isPrimary d). }
  assert (Hsum : sum_of (fun d0 => if isPrimary d0 then used d0 else 0) ((k, d) :: l)
                 = (if isPrimary d then used d else 0)
                   + sum_of (fun d0 => if isPrimary d0 then used d0 else 0) l)
    by reflexivity.
  rewrite Hstep in Hcount |- *. rewrite Hsum. clear Hstep Hsum.
  destruct (isPrimary d) eqn:Hd.
  - assert (Hnone : primary_count l = 0%nat) by lia.
    rewrite (summary_primary_none l _ Hnone), (sum_primary_none l Hnone).
    unfold summary_step. cbn. rewrite Hd. lia.
  - rewrite (IH _ Hcount).
    unfold summary_step. cbn [primaryPlatformUsage]. rewrite Hd. reflexivity.
Qed.

Lemma sum_of_split (l : UserUsage) :
  sum_of used l
  = sum_of (fun d => if isPrimary d then used d else 0) l
    + sum_of (fun d => if isPrimary d then 0 else used d) l.
Proof.
  unfold sum_of. induction l as [ | [k d] l IH]; cbn; [reflexivity | ].
  destruct (isPrimary d); lia.
Qed.

(** X1. [platformsAtLimit] lists, in key order and once per entry, exactly
    the platforms whose counter has reached the limit. *)
Theorem platformsAtLimit_lists_exhausted (u : UserUsage) :
  platformsAtLimit (getUsageSummary u)
  = map fst (filter (fun e => limit (snd e) <=? used (snd e)) u).
Proof.
  unfold getUsageSummary.
  destruct (summary_unfold u
              {| totalUsed := 0; totalLimit := 0; platformsAtLimit := [];
                 primaryPlatformUsage := 0; secondaryPlatformsUsage := 0 |})
    as (_ & _ & Hp & _).
  exact Hp.
Qed.

(** X2. With at most one primary entry the summary adds up: the total is the
    primary usage plus the secondary usage. *)
Theorem summary_total_splits (u : UserUsage) :
  (primary_count u <= 1)%nat ->
  totalUsed (getUsageSummary u)
  = primaryPlatformUsage (getUsageSummary u)
    + secondaryPlatformsUsage (getUsageSummary u).
Proof.
  intros Hcount. unfold getUsageSummary.
  destruct (summary_unfold u
              {| totalUsed := 0; totalLimit := 0; platformsAtLimit := [];
                 primaryPlatformUsage := 0; secondaryPlatformsUsage := 0 |})
    as (Hu & _ & _ & Hs).
  rewrite Hu, Hs, (summary_primary_single u _ Hcount). cbn.
  rewrite (sum_of_split u).
  destruct (Nat.eqb_spec (primary_count u) 0) as [Hnone | _]; [ | lia].
  rewrite (sum_primary_none u Hnone). lia.
Qed.

Lemma summary_total_splits_witness :
  (primary_count mid_month <= 1)%nat /\
  totalUsed (getUsageSummary mid_month)
  = primaryPlatformUsage (getUsageSummary mid_month)
    + secondaryPlatformsUsage (getUsageSummary mid_month).
Proof.
  assert (H : (primary_count mid_month <= 1)%nat) by (cbv; lia).
  split; [exact H | exact (summary_total_splits mid_month H)].
Defined.

(** With two primaries the identity is lost: the primary usage is the count
    of the last one only. *)
Example summary_total_with_two_primaries :
  let u := [ ("n8n", {| used := 2; limit := 3; isPrimary := true |});
             ("zapier", {| used := 1; limit := 3; isPrimary := true |}) ] in
  totalUsed (getUsageSummary u) = 3 /\
  primaryPlatformUsage (getUsageSummary u) = 1 /\
  secondaryPlatformsUsage (getUsageSummary u) = 0.
Proof. cbn. auto. Qed.

Lemma exhausted_listed (u : UserUsage) (platform : string) (d : UsageData) :
  well_formed u ->
  JS.get u platform = Some d ->
  (In platform (map fst (filter (fun e => exhausted (snd e)) u))
   <-> limit d <= used d).
Proof.
  intros Hwf Hget. rewrite in_map_iff. split.
  - intros ([k d'] & Hk & Hin). cbn in Hk. subst k.
    apply filter_In in Hin. destruct Hin as [Hin Hex]. cbn in Hex.
    rewrite (ObjectFacts.in_get u platform d' Hwf Hin) in Hget.
    injection Hget as <-. now apply Z.leb_le.
  - intros Hle. exists (platform, d). split; [reflexivity | ].
    apply filter_In. split; [now apply ObjectFacts.get_in | ].
    now apply Z.leb_le.
Qed.

(** X3. On the limited path and for a platform of a well-formed map,
    [checkUsageLimit] denies exactly the platforms that [getUsageSummary]
    lists in [platformsAtLimit]. *)
Theorem denied_iff_listed_at_limit
    (userId platform userPlan : string) (u : UserUsage) (d : UsageData) (w : World) :
  well_formed u ->
  is_unlimited_plan userPlan = false ->
  JS.get u platform = Some d ->
  (allowed (result (checkUsageLimit userId platform userPlan u) w) = false
   <-> In platform (platformsAtLimit (getUsageSummary u))).
Proof.
  intros Hwf Hplan Hget.
  destruct (summary_unfold u
              {| totalUsed := 0; totalLimit := 0; platformsAtLimit := [];
                 primaryPlatformUsage := 0; secondaryPlatformsUsage := 0 |})
    as (_ & _ & Hp & _).
  fold (getUsageSummary u) in Hp. rewrite Hp. cbn [platformsAtLimit app].
  rewrite (exhausted_listed u platform d Hwf Hget).
  destruct (Z_lt_le_dec (used d) (limit d)) as [Hlt | Hle].
  - rewrite (UsageFacts.checkUsageLimit_admitted _ _ _ _ d w Hplan Hget Hlt).
    cbn. split; [discriminate | lia].
  - rewrite (UsageFacts.checkUsageLimit_blocked _ _ _ _ d w Hplan Hget Hle).
    cbn. tauto.
Qed.

Lemma denied_iff_listed_at_limit_witness :
  well_formed mid_month /\
  is_unlimited_plan "free" = false /\
  JS.get mid_month "zapier" = Some {| used := 3; limit := 3; isPrimary := true |} /\
  (allowed (result (checkUsageLimit "u1" "zapier" "free" mid_month) quiet_world)
   = false
   <-> In "zapier" (platformsAtLimit (getUsageSummary mid_month))).
Proof.
  assert (Hwf : well_formed mid_month).
  { unfold well_formed. cbn.
    repeat (constructor; [cbn; intuition discriminate | ]). constructor. }
  repeat (split; [first [exact Hwf | reflexivity] | ]).
  exact (denied_iff_listed_at_limit "u1" "zapier" "free" mid_month _ quiet_world
           Hwf eq_refl eq_refl).
Defined.

(** X4. On the limited path the upgrade flag is raised exactly for a primary
    platform with at most one workflow left; a secondary platform never
    raises it, blocked or not. *)
Theorem willTriggerUpgrade_iff
    (userId platform userPlan : string) (u : UserUsage) (d : UsageData) (w : World) :
  is_unlimited_plan userPlan = false ->
  JS.get u platform = Some d ->
  (willTriggerUpgrade (result (checkUsageLimit userId platform userPlan u) w) = true
   <-> isPrimary d = true /\ limit d - used d <= 1).
Proof.
  intros Hplan Hget.
  destruct (Z_lt_le_dec (used d) (limit d)) as [Hlt | Hle].
  - rewrite (UsageFacts.checkUsageLimit_admitted _ _ _ _ d w Hplan Hget Hlt).
    cbn. rewrite andb_true_iff, Z.leb_le. tauto.
  - rewrite (UsageFacts.checkUsageLimit_blocked _ _ _ _ d w Hplan Hget Hle).
    cbn. split; [intros H; split; [exact H | lia] | tauto].
Qed.

Lemma willTriggerUpgrade_iff_witness :
  is_unlimited_plan "free" = false /\
  JS.get mid_month "n8n" = Some {| used := 4; limit := 10; isPrimary := false |} /\
  (willTriggerUpgrade (result (checkUsageLimit "u1" "n8n" "free" mid_month) quiet_world)
   = true <-> false = true /\ 10 - 4 <= 1).
Proof.
  repeat (split; [reflexivity | ]).
  exact (willTriggerUpgrade_iff "u1" "n8n" "free" mid_month _ quiet_world
           eq_refl eq_refl).
Defined.

(** *** The monthly reset *)

Lemma reset_fold_untouched (u acc : UserUsage) (ks : list string) (k : string) :
  ~ In k ks ->
  JS.get (fold_left (reset_step u) ks acc) k = JS.get acc k.
Proof.
  revert acc. induction ks as [ | k0 ks IH]; intros acc Hnot; [reflexivity | ].
  cbn [fold_left]. rewrite IH by (intros H; apply Hnot; now right).
  unfold reset_step. destruct (JS.get u k0); [ | reflexivity].
  apply ObjectFacts.get_set_other. intros ->. apply Hnot. now left.
Qed.

Lemma reset_fold_cleared (u acc : UserUsage) (ks : list string) (k : string)
      (d : UsageData) :
  In k ks -> JS.get u k = Some d ->
  JS.get (fold_left (reset_step u) ks acc) k = Some (cleared d).
Proof.
  intros Hin Hget. revert acc Hin.
  induction ks as [ | k0 ks IH]; intros acc Hin; [contradiction | ].
  cbn [fold_left].
  destruct (in_dec string_dec k ks) as [Hlater | Hnot]; [now apply IH | ].
  destruct Hin as [-> | Hin]; [ | contradiction].
  rewrite (reset_fold_untouched u _ ks k Hnot).
  unfold reset_step. rewrite Hget. apply ObjectFacts.get_set_same.
Qed.

(** Reading the reset map: the entry of the old map, cleared. *)
Lemma get_resetUsage (u : UserUsage) (k : string) :
  JS.get (resetUsage u) k = option_map cleared (JS.get u k).
Proof.
  unfold resetUsage. destruct (JS.get u k) as [d | ] eqn:Hget; cbn.
  - apply reset_fold_cleared; [ | exact Hget].
    destruct (in_dec string_dec k (JS.keys u)) as [Hin | Hnot]; [exact Hin | ].
    apply ObjectFacts.get_none_iff in Hnot. congruence.
  - rewrite reset_fold_untouched; [reflexivity | ].
    now apply ObjectFacts.get_none_iff.
Qed.

Lemma reset_fold_map (u l acc : UserUsage) :
  NoDup (JS.keys acc ++ JS.keys l) ->
  (forall k d, In (k, d) l -> JS.get u k = Some d) ->
  fold_left (reset_step u) (JS.keys l) acc
  = (acc ++ map (fun e => (fst e, cleared (snd e))) l)%list.
Proof.
  revert acc. induction l as [ | [k d] l IH]; intros acc Hnd Hl; cbn.
  - now rewrite app_nil_r.
  - assert (Hk : ~ In k (JS.keys acc)).
    { intros Hin. apply NoDup_remove_2 in Hnd. apply Hnd.
      apply in_or_app. now left. }
    unfold reset_step at 2. rewrite (Hl k d (or_introl eq_refl)).
    rewrite (ObjectFacts.set_absent_app acc k _ Hk).
    rewrite IH.
    + now rewrite <- app_assoc.
    + unfold JS.keys in *. rewrite map_app, <- app_assoc. exact Hnd.
    + intros k' d' Hin. apply (Hl k' d'). now right.
Qed.

Lemma resetUsage_map_form (u : UserUsage) :
  well_formed u ->
  resetUsage u = map (fun e => (fst e, cleared (snd e))) u.
Proof.
  intros Hwf. unfold resetUsage.
  rewrite (reset_fold_map u u []); [reflexivity | exact Hwf | ].
  intros k d Hin. now apply ObjectFacts.in_get.
Qed.

(** X5. On a well-formed map the monthly reset keeps every platform in
    place with its limit and primary flag, and sets every counter to 0. *)
Theorem resetUsage_clears_counters (u : UserUsage) :
  well_formed u ->
  resetUsage u = map (fun e => (fst e, cleared (snd e))) u.
Proof.
  exact (resetUsage_map_form u).
Qed.

Lemma mid_month_well_formed : well_formed mid_month.
Proof.
  unfold well_formed. cbn.
  repeat (constructor; [cbn; intuition discriminate | ]). constructor.
Qed.

Lemma resetUsage_clears_counters_witness :
  well_formed mid_month /\
  resetUsage mid_month
  = [ ("n8n", {| used := 0; limit := 10; isPrimary := false |});
      ("zapier", {| used := 0; limit := 3; isPrimary := true |});
      ("make", {| used := 0; limit := 10; isPrimary := false |});
      ("power_automate", {| used := 0; limit := 10; isPrimary := false |}) ].
Proof.
  split; [exact mid_month_well_formed | ].
  exact (resetUsage_clears_counters mid_month mid_month_well_formed).
Defined.

(** X6. After a monthly reset, on the limited path, a platform with a
    positive limit is allowed again with its whole quota remaining, and no
    conversion trigger is raised; this holds for any map, well formed or
    not. *)
Theorem reset_restores_quota
    (userId platform userPlan : string) (u : UserUsage) (d : UsageData) (w : World) :
  is_unlimited_plan userPlan = false ->
  JS.get u platform = Some d ->
  0 < limit d ->
  let r := result (checkUsageLimit userId platform userPlan (resetUsage u)) w in
  allowed r = true /\ remaining r = limit d /\ conversionTrigger r = None.
Proof.
  intros Hplan Hget Hpos r.
  assert (Hreset : JS.get (resetUsage u) platform = Some (cleared d))
    by (rewrite get_resetUsage, Hget; reflexivity).
  unfold r.
  rewrite (UsageFacts.checkUsageLimit_admitted _ _ _ _ (cleared d) w Hplan Hreset)
    by (cbn; lia).
  cbn [allowed remaining conversionTrigger].
  split; [reflexivity | split; [ | reflexivity]].
  cbn [cleared limit used]. now rewrite Z.sub_0_r.
Qed.

Lemma reset_restores_quota_witness :
  is_unlimited_plan "free" = false /\
  JS.get mid_month "zapier" = Some {| used := 3; limit := 3; isPrimary := true |} /\
  0 < 3 /\
  allowed (result (checkUsageLimit "u1" "zapier" "free" (resetUsage mid_month))
                  quiet_world) = true /\
  remaining (result (checkUsageLimit "u1" "zapier" "free" (resetUsage mid_month))
                    quiet_world) = 3.
Proof.
  split; [reflexivity | ]. split; [reflexivity | ]. split; [lia | ].
  pose proof (reset_restores_quota "u1" "zapier" "free" mid_month
                {| used := 3; limit := 3; isPrimary := true |} quiet_world
                eq_refl eq_refl eq_refl) as H.
  cbv zeta in H. exact (conj (proj1 H) (proj1 (proj2 H))).
Defined.

Lemma sum_of_cleared (f : UsageData -> Z) (u : UserUsage) :
  sum_of f (map (fun e => (fst e, cleared (snd e))) u)
  = sum_of (fun d => f (cleared d)) u.
Proof.
  unfold sum_of. induction u as [ | [k d] u IH]; cbn; [reflexivity | ].
  now rewrite IH.
Qed.

Lemma sum_of_zero (f : UsageData -> Z) (u : UserUsage) :
  (forall d, f d = 0) -> sum_of f u = 0.
Proof.
  intros Hf. unfold sum_of. induction u as [ | [k d] u IH]; cbn; [reflexivity | ].
  rewrite IH, Hf. reflexivity.
Qed.

(** X7. On a well-formed map the summary taken after a monthly reset shows
    nothing used in total and on secondary platforms, and the same total
    limit as before. *)
Theorem summary_after_reset (u : UserUsage) :
  well_formed u ->
  totalUsed (getUsageSummary (resetUsage u)) = 0 /\
  secondaryPlatformsUsage (getUsageSummary (resetUsage u)) = 0 /\
  totalLimit (getUsageSummary (resetUsage u)) = totalLimit (getUsageSummary u).
Proof.
  intros Hwf. rewrite (resetUsage_map_form u Hwf). unfold getUsageSummary.
  destruct (summary_unfold (map (fun e => (fst e, cleared (snd e))) u)
              {| totalUsed := 0; totalLimit := 0; platformsAtLimit := [];
                 primaryPlatformUsage := 0; secondaryPlatformsUsage := 0 |})
    as (Hu & Hl & _ & Hs).
  destruct (summary_unfold u
              {| totalUsed := 0; totalLimit := 0; platformsAtLimit := [];
                 primaryPlatformUsage := 0; secondaryPlatformsUsage := 0 |})
    as (_ & Hl' & _ & _).
  rewrite Hu, Hl, Hs, Hl', !sum_of_cleared.
  assert (Hused : sum_of (fun d => used (cleared d)) u = 0)
    by (apply sum_of_zero; reflexivity).
  assert (Hsec : sum_of (fun d => if isPrimary (cleared d) then 0
                                  else used (cleared d)) u = 0)
    by (apply sum_of_zero; intros d; cbn; now destruct (isPrimary d)).
  rewrite Hused, Hsec. repeat split.
Qed.

Lemma summary_after_reset_witness :
  well_formed mid_month /\
  totalUsed (getUsageSummary (resetUsage mid_month)) = 0 /\
  secondaryPlatformsUsage (getUsageSummary (resetUsage mid_month)) = 0 /\
  totalLimit (getUsageSummary (resetUsage mid_month))
  = totalLimit (getUsageSummary mid_month).
Proof.
  split; [exact mid_month_well_formed | ].
  exact (summary_after_reset mid_month mid_month_well_formed).
Defined.

End UsageMoreFacts.

(* ================================================================== *)
(** ** Plan changes, sign-up and onboarding *)
(* ================================================================== *)

Module PlanFacts.

Import Usage UsageMore.

Lemma planUsage_paid (newPlan : string) (userData : option UserData) :
  is_unlimited_plan newPlan = true ->
  planUsage newPlan userData
  = map (fun p => (p, unlimited_entry userData p)) platforms.
Proof. intros Hplan. unfold planUsage. rewrite Hplan. reflexivity. Qed.

(** X8. Moving to a paid plan rebuilds the map over exactly the four
    platforms: every limit becomes 999999, a stored counter and primary flag
    are kept, a platform without stored entry starts at 0 and not primary,
    and stored platforms outside the four are dropped. *)
Theorem upgrade_keeps_counters (newPlan : string) (userData : option UserData) :
  is_unlimited_plan newPlan = true ->
  let newUsage := planUsage newPlan userData in
  JS.keys newUsage = platforms /\
  (forall p, In p platforms ->
     exists e, JS.get newUsage p = Some e /\ limit e = 999999 /\
       (forall d, stored_entry userData p = Some d ->
                  used e = used d /\ isPrimary e = isPrimary d) /\
       (stored_entry userData p = None -> used e = 0 /\ isPrimary e = false)) /\
  (forall p, ~ In p platforms -> JS.get newUsage p = None).
Proof.
  intros Hplan newUsage. unfold newUsage.
  rewrite (planUsage_paid newPlan userData Hplan).
  split; [reflexivity | split].
  - intros p Hin. exists (unlimited_entry userData p).
    split.
    + cbn in Hin. destruct Hin as [<- | [<- | [<- | [<- | []]]]]; reflexivity.
    + unfold unlimited_entry.
      destruct (stored_entry userData p) as [d | ]; cbn.
      * split; [reflexivity | split].
        -- intros d' Hd'. injection Hd' as <-. auto.
        -- discriminate.
      * split; [reflexivity | split]; [discriminate | auto].
  - intros p Hnot. apply ObjectFacts.get_none_iff. exact Hnot.
Qed.

Lemma upgrade_keeps_counters_witness :
  is_unlimited_plan "pro" = true /\
  JS.get (planUsage "pro"
            (Some {| ud_usage := Some mid_month; ud_primaryPlatform := Some "zapier" |}))
         "zapier"
  = Some {| used := 3; limit := 999999; isPrimary := true |}.
Proof.
  split; [reflexivity | ].
  pose proof (upgrade_keeps_counters "pro"
                (Some {| ud_usage := Some mid_month;
                         ud_primaryPlatform := Some "zapier" |}) eq_refl) as H.
  cbv zeta in H. destruct H as (_ & Hget & _).
  destruct (Hget "zapier" (or_intror (or_introl eq_refl)))
    as (e & He & Hlimit & Hkept & _).
  destruct (Hkept {| used := 3; limit := 3; isPrimary := true |} eq_refl)
    as (Hused & Hprimary).
  rewrite He. destruct e as [eu el ep]. cbn in Hlimit, Hused, Hprimary.
  now subst.
Defined.

(** X9. Falling back to a limited plan gives back exactly the map that
    onboarding wrote for the platform then selected, whatever was used or
    stored since: all counters restart at 0. *)
Theorem downgrade_restores_onboarding
    (selectedPlatform newPlan : string) (stored : option UserUsage) :
  selectedPlatform <> "" ->
  is_unlimited_plan newPlan = false ->
  Client.onboarding_updates selectedPlatform
  = Some (Client.finalPlatform selectedPlatform,
          planUsage newPlan
            (Some {| ud_usage := stored;
                     ud_primaryPlatform :=
                       Some (Client.finalPlatform selectedPlatform) |})).
Proof.
  intros Hsel Hplan. unfold Client.onboarding_updates, planUsage, stored_primary.
  rewrite Hplan. cbn [ud_primaryPlatform].
  destruct (String.eqb_spec selectedPlatform "") as [ | _]; [contradiction | ].
  assert (Hfinal : Client.finalPlatform selectedPlatform <> "").
  { unfold Client.finalPlatform.
    destruct (String.eqb selectedPlatform "exploring"); [discriminate | exact Hsel]. }
  destruct (String.eqb_spec (Client.finalPlatform selectedPlatform) "");
    [contradiction | reflexivity].
Qed.

Lemma downgrade_restores_onboarding_witness :
  "exploring" <> "" /\
  is_unlimited_plan "free" = false /\
  Client.onboarding_updates "exploring"
  = Some ("n8n",
          planUsage "free"
            (Some {| ud_usage := Some mid_month; ud_primaryPlatform := Some "n8n" |})).
Proof.
  assert (H1 : "exploring" <> "") by discriminate.
  split; [exact H1 | split; [reflexivity | ]].
  exact (downgrade_restores_onboarding "exploring" "free" (Some mid_month) H1 eq_refl).
Defined.

Lemma not_a_platform (p : string) :
  ~ In p platforms ->
  String.eqb "n8n" p = false /\ String.eqb "zapier" p = false /\
  String.eqb "make" p = false /\ String.eqb "power_automate" p = false.
Proof.
  intros Hnot. cbn in Hnot.
  repeat split; apply String.eqb_neq; intros <-; apply Hnot; tauto.
Qed.

(** X10. A primary platform outside the four leaves no platform primary:
    [calculateInitialUsage] then returns the map every profile is created
    with, 10 workflows on each platform. *)
Theorem unknown_primary_gives_default (primaryPlatform : string) :
  ~ In primaryPlatform platforms ->
  calculateInitialUsage primaryPlatform = Client.defaultUsage.
Proof.
  intros Hnot. destruct (not_a_platform primaryPlatform Hnot) as (H1 & H2 & H3 & H4).
  unfold calculateInitialUsage, platforms. cbn [fold_left].
  rewrite H1, H2, H3, H4. reflexivity.
Qed.

Lemma unknown_primary_gives_default_witness :
  ~ In "airtable" platforms /\
  calculateInitialUsage "airtable" = Client.defaultUsage.
Proof.
  assert (H : ~ In "airtable" platforms) by (cbn; intuition discriminate).
  split; [exact H | exact (unknown_primary_gives_default "airtable" H)].
Defined.

End PlanFacts.

(* ================================================================== *)
(** ** The usage counter on the client *)
(* ================================================================== *)

Module CounterFacts.

Import Usage Hooks UsageMore Client Dashboard.

Lemma platforms_not_inherited (p : string) :
  In p platforms -> JS.inherited p = false.
Proof.
  intros [<- | [<- | [<- | [<- | []]]]]; reflexivity.
Qed.

(** X11. The optimistic copy made by the hook's [incrementUsage]: for a
    platform with an entry of its own it counts exactly one more workflow on
    that platform and leaves its limit, its primary flag, every other
    platform and the key order as they were; for a name the map only
    inherits it keeps every entry and adds a stray one under that name; it
    throws exactly when the map has no entry for the platform and the name
    is not inherited. *)
Theorem optimistic_update_counts_one (u : UserUsage) (platform : string) :
  match optimistic_update u platform with
  | JS.Ok (Sound u') =>
      exists d, JS.get u platform = Some d /\
                JS.get u' platform = Some (bumped d) /\
                (forall k, k <> platform -> JS.get u' k = JS.get u k) /\
                JS.keys u' = JS.keys u
  | JS.Ok (Stray u' name) =>
      JS.get u platform = None /\ JS.inherited platform = true /\
      u' = u /\ name = platform
  | JS.Throw _ =>
      JS.get u platform = None /\ JS.inherited platform = false
  end.
Proof.
  unfold optimistic_update.
  destruct (JS.get u platform) as [d | ] eqn:Hget.
  - exists d. split; [reflexivity | split; [ | split]].
    + apply ObjectFacts.get_set_same.
    + intros k Hne. apply ObjectFacts.get_set_other. congruence.
    + apply ObjectFacts.keys_set_present.
      destruct (in_dec string_dec platform (JS.keys u)) as [Hin | Hnot];
        [exact Hin | ].
      apply ObjectFacts.get_none_iff in Hnot. congruence.
  - destruct (JS.inherited platform) eqn:Hinh; auto.
Qed.

Lemma sum_of_set (f : UsageData -> Z) (u : UserUsage) (k : string) (d v : UsageData) :
  JS.get u k = Some d ->
  sum_of f (JS.set u k v) = sum_of f u - f d + f v.
Proof.
  unfold sum_of. induction u as [ | [k' d'] u IH]; cbn; [discriminate | ].
  destruct (String.eqb_spec k' k) as [-> | Hne]; cbn.
  - intros H; injection H as <-. lia.
  - intros H. rewrite (IH H). lia.
Qed.

(** X12. For a platform present in the map the optimistic update succeeds,
    and the summary of the copy counts one more workflow in total and the
    same total limit. *)
Theorem summary_after_increment (u : UserUsage) (platform : string) (d : UsageData) :
  JS.get u platform = Some d ->
  exists u',
    optimistic_update u platform = JS.Ok (Sound u') /\
    totalUsed (getUsageSummary u') = totalUsed (getUsageSummary u) + 1 /\
    totalLimit (getUsageSummary u') = totalLimit (getUsageSummary u).
Proof.
  intros Hget. unfold optimistic_update. rewrite Hget.
  eexists. split; [reflexivity | ]. unfold getUsageSummary.
  destruct (UsageMoreFacts.summary_unfold u
              {| totalUsed := 0; totalLimit := 0; platformsAtLimit := [];
                 primaryPlatformUsage := 0; secondaryPlatformsUsage := 0 |})
    as (Hu & Hl & _ & _).
  destruct (UsageMoreFacts.summary_unfold
              (JS.set u platform
                 {| used := used d + 1; limit := limit d; isPrimary := isPrimary d |})
              {| totalUsed := 0; totalLimit := 0; platformsAtLimit := [];
                 primaryPlatformUsage := 0; secondaryPlatformsUsage := 0 |})
    as (Hu' & Hl' & _ & _).
  rewrite Hu, Hl, Hu', Hl', !(sum_of_set _ u platform d _ Hget). cbn. lia.
Qed.

Lemma summary_after_increment_witness :
  JS.get mid_month "make" = Some {| used := 0; limit := 10; isPrimary := false |} /\
  exists u',
    optimistic_update mid_month "make" = JS.Ok (Sound u') /\
    totalUsed (getUsageSummary u') = totalUsed (getUsageSummary mid_month) + 1 /\
    totalLimit (getUsageSummary u') = totalLimit (getUsageSummary mid_month).
Proof.
  split; [reflexivity | ].
  exact (summary_after_increment mid_month "make"
           {| used := 0; limit := 10; isPrimary := false |} eq_refl).
Defined.

(** *** One click on Generate *)

(** What a click can do to the profile held by the page: nothing, one more
    workflow counted on a platform the check allowed, or a stray entry under
    an inherited name. *)
Lemma click_effect (userProfile : option UserProfile) (typed selected : string)
      (a : Answers) (w : World) :
  let after := result (handleGenerateWorkflow userProfile typed selected a) w in
  after = Sound userProfile \/
  (exists profile u d,
      userProfile = Some profile /\ usage profile = Some u /\
      JS.get u selected = Some d /\
      allowed (result (checkUsageLimit (uid profile) selected (plan profile) u) w)
      = true /\
      after = Sound (Some {| uid := uid profile; plan := plan profile;
                             createdAt := createdAt profile;
                             usage := Some (JS.set u selected (bumped d)) |})) \/
  (exists stray, JS.inherited selected = true /\ after = Stray stray selected).
Proof.
  intros after. unfold after, handleGenerateWorkflow.
  destruct (_ || _); [now left | ].
  unfold result, bind.
  destruct (checkLimit userProfile selected w) as [usageCheck w'] eqn:Hcheck.
  cbn [fst].
  destruct (allowed usageCheck) eqn:Hallowed; cbn [negb]; [ | now left].
  destruct (api_success a); cbn [negb]; [ | now left].
  unfold Client.incrementUsage.
  destruct userProfile as [profile | ]; [ | now left].
  cbn [usage_of]. destruct (usage profile) as [u | ] eqn:Hu; [ | now left].
  unfold optimistic_update.
  destruct (JS.get u selected) as [d | ] eqn:Hget.
  - destruct (service_succeeds a); cbn [negb]; [ | now left].
    destruct (signed_in a); cbn [negb]; [ | now left].
    destruct (setDoc_succeeds a); cbn [negb]; [ | now left].
    right. left. exists profile, u, d. repeat split; try assumption.
    unfold checkLimit in Hcheck. cbn [usage_of] in Hcheck. rewrite Hu in Hcheck.
    unfold result. rewrite Hcheck. exact Hallowed.
  - destruct (JS.inherited selected) eqn:Hinh; [ | now left].
    destruct (service_succeeds a); cbn [negb]; [ | now left].
    destruct (signed_in a); cbn [negb]; [ | now left].
    destruct (setDoc_succeeds a); cbn [negb]; [ | now left].
    right. right. eexists. split; reflexivity.
Qed.

(** With one of the four platforms selected, no stray entry can appear. *)
Lemma click_on_platform (userProfile : option UserProfile) (typed selected : string)
      (a : Answers) (w : World) :
  In selected platforms ->
  let after := result (handleGenerateWorkflow userProfile typed selected a) w in
  after = Sound userProfile \/
  exists profile u d,
    userProfile = Some profile /\ usage profile = Some u /\
    JS.get u selected = Some d /\
    allowed (result (checkUsageLimit (uid profile) selected (plan profile) u) w)
    = true /\
    after = Sound (Some {| uid := uid profile; plan := plan profile;
                           createdAt := createdAt profile;
                           usage := Some (JS.set u selected (bumped d)) |}).
Proof.
  intros Hin after.
  destruct (click_effect userProfile typed selected a w)
    as [H | [H | (stray & Hinh & _)]]; [now left | now right | ].
  rewrite (platforms_not_inherited selected Hin) in Hinh. discriminate Hinh.
Qed.

(** A click on an inherited name goes through the check and leaves a stray
    entry behind. *)
Example click_on_inherited_name :
  result (handleGenerateWorkflow (Some (fresh_profile "zapier"))
            "post new orders to slack" "constructor" all_fine) quiet_world
  = Stray (Some (fresh_profile "zapier")) "constructor".
Proof. reflexivity. Qed.

Lemma allowed_means_below (userId platform userPlan : string) (u : UserUsage)
      (d : UsageData) (w : World) :
  is_unlimited_plan userPlan = false ->
  JS.get u platform = Some d ->
  allowed (result (checkUsageLimit userId platform userPlan u) w) = true ->
  used d < limit d.
Proof.
  intros Hplan Hget Hallowed.
  destruct (Z_lt_le_dec (used d) (limit d)) as [Hlt | Hle]; [exact Hlt | ].
  rewrite (UsageFacts.checkUsageLimit_blocked _ _ _ _ d w Hplan Hget Hle) in Hallowed.
  discriminate Hallowed.
Qed.

Lemma click_respects_quota userProfile typed selected a w :
  In selected platforms ->
  respects_quota userProfile ->
  exists after,
    result (handleGenerateWorkflow userProfile typed selected a) w = Sound after /\
    respects_quota after.
Proof.
  intros Hsel Hgood.
  destruct (click_on_platform userProfile typed selected a w Hsel)
    as [-> | (profile & u & d & -> & Hu & Hget & Hallowed & ->)];
    [exists userProfile; split; [reflexivity | exact Hgood] | ].
  eexists. split; [reflexivity | ].
  unfold respects_quota, usage_or_empty in *. cbn [usage_of plan usage] in *.
  rewrite Hu in Hgood. destruct Hgood as [Hplan Hwithin].
  split; [exact Hplan | ].
  intros k' d' Hin. apply ObjectFacts.in_set in Hin.
  destruct Hin as [Hin | [-> ->]]; [now apply (Hwithin k' d') | ].
  pose proof (allowed_means_below _ _ _ _ d w Hplan Hget Hallowed). cbn. lia.
Qed.

Lemma session_step userProfile (c : Click) (rest : list Click) (w : World) :
  result (session userProfile (c :: rest)) w
  = match result (handleGenerateWorkflow userProfile (typed c) (selected c)
                    (answers c)) w with
    | Sound next =>
        result (session next rest)
          (world_after (handleGenerateWorkflow userProfile (typed c) (selected c)
                          (answers c)) w)
    | Stray a name => Stray a name
    end.
Proof.
  cbn [session]. unfold result, world_after, bind.
  destruct (handleGenerateWorkflow userProfile (typed c) (selected c) (answers c) w)
    as [[next | a name] w'];
    reflexivity.
Qed.

Lemma session_respects_quota userProfile (clicks : list Click) (w : World) :
  selects_platforms clicks ->
  respects_quota userProfile ->
  exists after,
    result (session userProfile clicks) w = Sound after /\ respects_quota after.
Proof.
  intros Hsel. revert userProfile w.
  induction Hsel as [ | c rest Hc _ IH]; intros userProfile w Hgood;
    [exists userProfile; split; [reflexivity | exact Hgood] | ].
  rewrite session_step.
  destruct (click_respects_quota userProfile (typed c) (selected c) (answers c) w
              Hc Hgood) as (next & -> & Hnext).
  apply IH. exact Hnext.
Qed.

Lemma three_clicks_select_platforms : selects_platforms three_clicks.
Proof.
  unfold selects_platforms, three_clicks.
  repeat (constructor; [cbn; tauto | ]). constructor.
Qed.

(** X13. Whatever the user types, whichever of the four platforms is
    selected and whatever the network answers, the dashboard never counts a
    limited-plan user past a quota in the profile it holds: if every counter
    starts within its limit, every counter ends within its limit. *)
Theorem dashboard_never_exceeds_quota
    (profile : UserProfile) (clicks : list Click) (w : World) :
  is_unlimited_plan (plan profile) = false ->
  within_limits (usage_or_empty (Some profile)) ->
  selects_platforms clicks ->
  exists after,
    result (session (Some profile) clicks) w = Sound after /\
    within_limits (usage_or_empty after).
Proof.
  intros Hplan Hwithin Hsel.
  destruct (session_respects_quota (Some profile) clicks w Hsel (conj Hplan Hwithin))
    as (after & Hafter & Hgood).
  exists after. split; [exact Hafter | ].
  unfold respects_quota in Hgood.
  destruct after as [a | ]; [exact (proj2 Hgood) | intros k d []].
Qed.

Lemma dashboard_never_exceeds_quota_witness :
  is_unlimited_plan (plan (fresh_profile "zapier")) = false /\
  within_limits (usage_or_empty (Some (fresh_profile "zapier"))) /\
  selects_platforms three_clicks /\
  exists after,
    result (session (Some (fresh_profile "zapier")) three_clicks) quiet_world
    = Sound after /\
    within_limits (usage_or_empty after).
Proof.
  assert (Hstart : within_limits (usage_or_empty (Some (fresh_profile "zapier")))).
  { intros k d Hin. cbn in Hin.
    destruct Hin as [H | [H | [H | [H | []]]]]; injection H as <- <-; cbn; lia. }
  split; [reflexivity | split; [exact Hstart | ]].
  split; [exact three_clicks_select_platforms | ].
  exact (dashboard_never_exceeds_quota (fresh_profile "zapier") three_clicks
           quiet_world eq_refl Hstart three_clicks_select_platforms).
Defined.

(** *** What a session never changes *)

Lemma grown_from_refl (u : UserUsage) : grown_from u u.
Proof.
  split; [reflexivity | ]. intros k. destruct (JS.get u k); [ | exact I].
  repeat split. lia.
Qed.

Lemma grown_from_trans (u1 u2 u3 : UserUsage) :
  grown_from u1 u2 -> grown_from u2 u3 -> grown_from u1 u3.
Proof.
  intros [Hk12 H12] [Hk23 H23]. split; [congruence | ].
  intros k. specialize (H12 k). specialize (H23 k).
  destruct (JS.get u1 k), (JS.get u2 k), (JS.get u3 k); try tauto.
  destruct H12 as (? & ? & ?), H23 as (? & ? & ?). repeat split; try congruence. lia.
Qed.

Lemma grown_from_bump (u : UserUsage) (k : string) (d : UsageData) :
  JS.get u k = Some d -> grown_from u (JS.set u k (bumped d)).
Proof.
  intros Hget. split.
  - apply ObjectFacts.keys_set_present.
    destruct (in_dec string_dec k (JS.keys u)) as [Hin | Hnot]; [exact Hin | ].
    apply ObjectFacts.get_none_iff in Hnot. congruence.
  - intros k0. destruct (string_dec k k0) as [<- | Hne].
    + rewrite Hget, ObjectFacts.get_set_same. cbn. repeat split. lia.
    + rewrite (ObjectFacts.get_set_other u k k0 _ Hne).
      destruct (JS.get u k0); [ | exact I]. repeat split. lia.
Qed.

Lemma profile_grown_refl (op : option UserProfile) : profile_grown op op.
Proof.
  destruct op as [pr | ]; cbn; [ | exact I].
  repeat split. destruct (usage pr); [apply grown_from_refl | exact I].
Qed.

Lemma profile_grown_trans (p1 p2 p3 : option UserProfile) :
  profile_grown p1 p2 -> profile_grown p2 p3 -> profile_grown p1 p3.
Proof.
  destruct p1 as [a | ], p2 as [b | ], p3 as [c | ]; cbn; try tauto.
  intros (? & ? & ? & H12) (? & ? & ? & H23).
  repeat split; try congruence.
  destruct (usage a), (usage b), (usage c); try tauto.
  exact (grown_from_trans _ _ _ H12 H23).
Qed.

Lemma click_grows userProfile typed selected a w :
  In selected platforms ->
  exists after,
    result (handleGenerateWorkflow userProfile typed selected a) w = Sound after /\
    profile_grown userProfile after.
Proof.
  intros Hsel.
  destruct (click_on_platform userProfile typed selected a w Hsel)
    as [-> | (profile & u & d & -> & Hu & Hget & _ & ->)];
    [exists userProfile; split; [reflexivity | apply profile_grown_refl] | ].
  eexists. split; [reflexivity | ].
  cbn. rewrite Hu.
  split; [reflexivity | split; [reflexivity | split; [reflexivity | ]]].
  now apply grown_from_bump.
Qed.

Lemma session_grows userProfile (clicks : list Click) (w : World) :
  selects_platforms clicks ->
  exists after,
    result (session userProfile clicks) w = Sound after /\
    profile_grown userProfile after.
Proof.
  intros Hsel. revert userProfile w.
  induction Hsel as [ | c rest Hc _ IH]; intros userProfile w;
    [exists userProfile; split; [reflexivity | apply profile_grown_refl] | ].
  rewrite session_step.
  destruct (click_grows userProfile (typed c) (selected c) (answers c) w Hc)
    as (next & -> & Hnext).
  destruct (IH next
              (world_after (handleGenerateWorkflow userProfile (typed c)
                              (selected c) (answers c)) w))
    as (after & Hafter & Hgrown).
  exists after. split; [exact Hafter | ].
  exact (profile_grown_trans _ _ _ Hnext Hgrown).
Qed.

(** X14. A session on the dashboard in which one of the four platforms is
    selected at every click never leaves a stray entry, never changes who
    the user is, the plan, the platforms listed, their limits or their
    primary flags, and never lowers a counter. *)
Theorem session_only_counts_up
    (userProfile : option UserProfile) (clicks : list Click) (w : World) :
  selects_platforms clicks ->
  exists after,
    result (session userProfile clicks) w = Sound after /\
    profile_grown userProfile after.
Proof. apply session_grows. Qed.

Lemma session_only_counts_up_witness :
  selects_platforms three_clicks /\
  exists after,
    result (session (Some one_left_profile) three_clicks) quiet_world = Sound after /\
    profile_grown (Some one_left_profile) after.
Proof.
  split; [exact three_clicks_select_platforms | ].
  exact (session_only_counts_up (Some one_left_profile) three_clicks quiet_world
           three_clicks_select_platforms).
Defined.

Lemma calculateInitialUsage_entries (p : string) :
  calculateInitialUsage p = map (fun k => (k, initial_entry p k)) platforms.
Proof.
  unfold calculateInitialUsage, platforms, initial_entry. cbn [fold_left map].
  destruct (String.eqb "n8n" p), (String.eqb "zapier" p),
           (String.eqb "make" p), (String.eqb "power_automate" p); reflexivity.
Qed.

Lemma get_initial (p k : string) (d : UsageData) :
  JS.get (calculateInitialUsage p) k = Some d ->
  In k platforms /\ d = initial_entry p k.
Proof.
  rewrite calculateInitialUsage_entries. unfold platforms. cbn [map JS.get].
  destruct (String.eqb_spec "n8n" k) as [<- | _];
    [intros H; injection H as <-; split; [cbn; tauto | reflexivity] | ].
  destruct (String.eqb_spec "zapier" k) as [<- | _];
    [intros H; injection H as <-; split; [cbn; tauto | reflexivity] | ].
  destruct (String.eqb_spec "make" k) as [<- | _];
    [intros H; injection H as <-; split; [cbn; tauto | reflexivity] | ].
  destruct (String.eqb_spec "power_automate" k) as [<- | _];
    [intros H; injection H as <-; split; [cbn; tauto | reflexivity] | discriminate].
Qed.

Lemma fresh_respects_quota (p : string) : respects_quota (Some (fresh_profile p)).
Proof.
  split; [reflexivity | ].
  intros k d Hin. unfold usage_or_empty, fresh_profile in Hin.
  cbn [usage_of usage] in Hin. rewrite calculateInitialUsage_entries in Hin.
  cbn in Hin. unfold initial_entry in Hin.
  destruct Hin as [H | [H | [H | [H | []]]]]; injection H as <- <-;
    match goal with |- context [if ?b then _ else _] => destruct b end; cbn; lia.
Qed.

(** X15. A free user fresh out of onboarding who always has one of the four
    platforms selected can never be counted, in the profile the dashboard
    holds, for more than 3 workflows on the primary platform and 10 on each
    of the others, and no entry beyond the four platforms ever appears. *)
Theorem fresh_user_stays_within_3_and_10
    (p : string) (clicks : list Click) (w : World) :
  selects_platforms clicks ->
  exists after,
    result (session (Some (fresh_profile p)) clicks) w = Sound after /\
    forall k d,
      JS.get (usage_or_empty after) k = Some d ->
      In k platforms /\
      0 <= used d <= (if String.eqb k p then 3 else 10) /\
      limit d = (if String.eqb k p then 3 else 10).
Proof.
  intros Hsel.
  destruct (session_grows (Some (fresh_profile p)) clicks w Hsel)
    as (after & Hafter & Hgrown).
  destruct (session_respects_quota (Some (fresh_profile p)) clicks w Hsel
              (fresh_respects_quota p)) as (after' & Hafter' & Hquota).
  assert (after' = after) by congruence. subst after'.
  exists after. split; [exact Hafter | ].
  intros k d Hget.
  destruct after as [a | ]; [ | contradiction].
  unfold usage_or_empty in *. cbn [usage_of] in *.
  destruct Hgrown as (_ & _ & _ & Hgrown). cbn [usage fresh_profile] in Hgrown.
  destruct (usage a) as [u' | ] eqn:Ha; [ | contradiction].
  destruct Hquota as [_ Hwithin].
  assert (Hu' : usage_or_empty (Some a) = u')
    by (unfold usage_or_empty; cbn [usage_of]; now rewrite Ha).
  rewrite Hu' in Hwithin.
  destruct Hgrown as [_ Hentries]. specialize (Hentries k). rewrite Hget in Hentries.
  destruct (JS.get (calculateInitialUsage p) k) as [d0 | ] eqn:H0; [ | contradiction].
  destruct (get_initial p k d0 H0) as [Hin ->].
  destruct Hentries as (Hlimit & _ & Hused).
  pose proof (Hwithin k d (ObjectFacts.get_in u' k d Hget)) as Hle.
  unfold initial_entry in *.
  destruct (String.eqb k p); cbn in *; repeat split; try assumption; lia.
Qed.

Lemma fresh_user_stays_within_3_and_10_witness :
  selects_platforms three_clicks /\
  exists after,
    result (session (Some (fresh_profile "zapier")) three_clicks) quiet_world
    = Sound after /\
    forall k d,
      JS.get (usage_or_empty after) k = Some d ->
      In k platforms /\
      0 <= used d <= (if String.eqb k "zapier" then 3 else 10) /\
      limit d = (if String.eqb k "zapier" then 3 else 10).
Proof.
  split; [exact three_clicks_select_platforms | ].
  exact (fresh_user_stays_within_3_and_10 "zapier" three_clicks quiet_world
           three_clicks_select_platforms).
Defined.

(** X16. For the three plans a profile can carry and a platform of the
    usage map, the row the dashboard paints as [Limit reached] is exactly a
    platform on which [checkLimit] denies generation. *)
Theorem limit_reached_row_iff_denied
    (profile : UserProfile) (u : UserUsage) (platform : string) (d : UsageData)
    (w : World) :
  usage profile = Some u ->
  plan profile = "free" \/ plan profile = "pro" \/ plan profile = "enterprise" ->
  JS.get u platform = Some d ->
  (isAtLimit (plan profile) d = true
   <-> allowed (result (checkLimit (Some profile) platform) w) = false).
Proof.
  intros Hu Hplan Hget. unfold checkLimit, isAtLimit. cbn [usage_of]. rewrite Hu.
  destruct Hplan as [Hfree | Hpaid].
  - rewrite Hfree. cbn [String.eqb Ascii.eqb Bool.eqb andb].
    rewrite andb_true_r, Z.leb_le.
    destruct (Z_lt_le_dec (used d) (limit d)) as [Hlt | Hle].
    + rewrite (UsageFacts.checkUsageLimit_admitted
                 (uid profile) platform "free" u d w eq_refl Hget Hlt).
      cbn. split; [lia | discriminate].
    + rewrite (UsageFacts.checkUsageLimit_blocked
                 (uid profile) platform "free" u d w eq_refl Hget Hle).
      cbn. tauto.
  - assert (Hunl : is_unlimited_plan (plan profile) = true)
      by (now apply UsageFacts.unlimited_plan_iff).
    rewrite (UsageFacts.checkUsageLimit_paid _ _ _ _ w Hunl). cbn.
    assert (Hnotfree : String.eqb (plan profile) "free" = false)
      by (destruct Hpaid as [-> | ->]; reflexivity).
    rewrite Hnotfree, andb_false_r. split; discriminate.
Qed.

Lemma limit_reached_row_iff_denied_witness :
  usage profile_at_limit
  = Some [ ("n8n", {| used := 0; limit := 10; isPrimary := false |});
           ("zapier", {| used := 3; limit := 3; isPrimary := true |}) ] /\
  (isAtLimit "free" {| used := 3; limit := 3; isPrimary := true |} = true
   <-> allowed (result (checkLimit (Some profile_at_limit) "zapier") quiet_world)
       = false).
Proof.
  split; [reflexivity | ].
  exact (limit_reached_row_iff_denied profile_at_limit _ "zapier"
           {| used := 3; limit := 3; isPrimary := true |} quiet_world
           eq_refl (or_introl eq_refl) eq_refl).
Defined.

End CounterFacts.

(* ================================================================== *)
(** ** The upgrade prompt *)
(* ================================================================== *)

Module PromptFacts.

Import Usage Hooks UsageMore Client Dashboard.

Lemma find_primary_found (u : UserUsage) (k : string) :
  find_primary u = Some k ->
  In k (JS.keys u) /\ exists d, JS.get u k = Some d /\ isPrimary d = true.
Proof.
  unfold find_primary. intros Hfind. apply find_some in Hfind.
  destruct Hfind as [Hin Hprimary]. split; [exact Hin | ].
  destruct (JS.get u k) as [d | ]; [ | discriminate]. now exists d.
Qed.

(** The block on the primary platform: when it answers, and with what. *)
Lemma primary_prompt_spec (u : UserUsage) :
  match primary_prompt u with
  | Some prompt =>
      prompt_type prompt = urgent /\ show prompt = true /\
      prompt_platform prompt = find_primary u /\
      exists k d, find_primary u = Some k /\ k <> "" /\ JS.get u k = Some d /\
                  (limit d - used d = 0 \/ limit d - used d = 1)
  | None =>
      forall k d, find_primary u = Some k -> k <> "" -> JS.get u k = Some d ->
                  limit d - used d <> 0 /\ limit d - used d <> 1
  end.
Proof.
  unfold primary_prompt.
  destruct (find_primary u) as [k | ] eqn:Hfind; [ | discriminate].
  destruct (String.eqb_spec k "") as [-> | Hk].
  { intros k d Hk. injection Hk as <-. intros Hne. contradiction. }
  destruct (JS.get u k) as [d | ] eqn:Hget.
  - destruct (Z.eqb_spec (limit d - used d) 0) as [H0 | H0].
    + repeat split. exists k, d. auto.
    + destruct (Z.eqb_spec (limit d - used d) 1) as [H1 | H1].
      * repeat split. exists k, d. auto.
      * intros k' d' Hk' _ Hget'. injection Hk' as <-.
        rewrite Hget in Hget'. injection Hget' as <-. auto.
  - intros k' d' Hk' _ Hget'. injection Hk' as <-. congruence.
Qed.

(** Past the primary block only an exploration or a gentle prompt is left. *)
Lemma later_rules_not_urgent (profile : UserProfile) (u : UserUsage)
      (probability : JS.number) :
  usage profile = Some u -> plan profile = "free" ->
  primary_prompt u = None ->
  prompt_type (shouldShowUpgradePrompt (Some profile) probability) <> urgent.
Proof.
  intros Hu Hplan Hnone. unfold shouldShowUpgradePrompt. cbn [usage_of].
  rewrite Hu, Hplan, Hnone. cbn [String.eqb Ascii.eqb Bool.eqb negb].
  unfold gentle_prompt.
  repeat match goal with
         | |- context [match ?x with _ => _ end] => destruct x
         end; cbn; discriminate.
Qed.

Lemma primary_rule_first (profile : UserProfile) (u : UserUsage)
      (probability : JS.number) (prompt : UpgradePrompt) :
  usage profile = Some u -> plan profile = "free" ->
  primary_prompt u = Some prompt ->
  shouldShowUpgradePrompt (Some profile) probability = prompt.
Proof.
  intros Hu Hplan Hsome. unfold shouldShowUpgradePrompt. cbn [usage_of].
  rewrite Hu, Hplan, Hsome. reflexivity.
Qed.

(** An upgrade prompt is only ever shown to a loaded profile on the
    free plan that carries a usage map; pro and enterprise users never see
    one. *)
Theorem prompt_only_on_free_plan
    (userProfile : option UserProfile) (probability : JS.number) :
  show (shouldShowUpgradePrompt userProfile probability) = true ->
  exists profile u,
    userProfile = Some profile /\ plan profile = "free" /\ usage profile = Some u.
Proof.
  unfold shouldShowUpgradePrompt.
  destruct userProfile as [profile | ]; [ | discriminate].
  cbn [usage_of]. destruct (usage profile) as [u | ] eqn:Hu; [ | discriminate].
  destruct (String.eqb_spec (plan profile) "free") as [Hfree | _]; [ | discriminate].
  intros _. now exists profile, u.
Qed.

Lemma prompt_only_on_free_plan_witness :
  show (shouldShowUpgradePrompt (Some one_left_profile) (JS.Fin 0)) = true /\
  exists profile u,
    Some one_left_profile = Some profile /\ plan profile = "free" /\
    usage profile = Some u.
Proof.
  split; [reflexivity | ].
  exact (prompt_only_on_free_plan (Some one_left_profile) (JS.Fin 0) eq_refl).
Defined.

(** X17. On the free plan the prompt is urgent exactly when the first
    primary platform has exactly 0 or exactly 1 workflow left; an urgent
    prompt is shown and names that platform. A primary counter beyond its
    limit is neither. *)
Theorem urgent_prompt_iff
    (profile : UserProfile) (u : UserUsage) (probability : JS.number) :
  usage profile = Some u ->
  plan profile = "free" ->
  let prompt := shouldShowUpgradePrompt (Some profile) probability in
  (prompt_type prompt = urgent <->
   exists k d, find_primary u = Some k /\ k <> "" /\ JS.get u k = Some d /\
               (limit d - used d = 0 \/ limit d - used d = 1)) /\
  (prompt_type prompt = urgent ->
   show prompt = true /\ prompt_platform prompt = find_primary u).
Proof.
  intros Hu Hplan prompt. unfold prompt.
  pose proof (primary_prompt_spec u) as Hspec.
  destruct (primary_prompt u) as [found | ] eqn:Hprimary.
  - rewrite (primary_rule_first profile u probability found Hu Hplan Hprimary).
    destruct Hspec as (Htype & Hshow & Hplatform & Hex). tauto.
  - pose proof (later_rules_not_urgent profile u probability Hu Hplan Hprimary)
      as Hnot.
    split; [split | ]; try contradiction.
    intros (k & d & Hfind & Hk & Hget & Hleft).
    destruct (Hspec k d Hfind Hk Hget). lia.
Qed.

Lemma urgent_prompt_iff_witness :
  usage one_left_profile
  = Some [ ("n8n", {| used := 0; limit := 10; isPrimary := false |});
           ("zapier", {| used := 2; limit := 3; isPrimary := true |}) ] /\
  plan one_left_profile = "free" /\
  (prompt_type (shouldShowUpgradePrompt (Some one_left_profile) (JS.Fin 0)) = urgent
   -> show (shouldShowUpgradePrompt (Some one_left_profile) (JS.Fin 0)) = true /\
      prompt_platform (shouldShowUpgradePrompt (Some one_left_profile) (JS.Fin 0))
      = Some "zapier").
Proof.
  split; [reflexivity | split; [reflexivity | ]].
  exact (proj2 (urgent_prompt_iff one_left_profile _ (JS.Fin 0) eq_refl eq_refl)).
Defined.

(** X18. While the primary counter is within its limit, the urgent prompt
    and the [willTriggerUpgrade] flag of [checkLimit] on the primary platform
    go together. Beyond the limit they part: the flag is raised, the prompt
    is not urgent. *)
Theorem urgent_prompt_and_upgrade_flag
    (profile : UserProfile) (u : UserUsage) (k : string) (d : UsageData)
    (probability : JS.number) (w : World) :
  usage profile = Some u ->
  plan profile = "free" ->
  find_primary u = Some k ->
  k <> "" ->
  JS.get u k = Some d ->
  let flag := willTriggerUpgrade (result (checkLimit (Some profile) k) w) in
  let prompt := shouldShowUpgradePrompt (Some profile) probability in
  (used d <= limit d -> (flag = true <-> prompt_type prompt = urgent)) /\
  (limit d < used d -> flag = true /\ prompt_type prompt <> urgent).
Proof.
  intros Hu Hplan Hfind Hk Hget flag prompt.
  destruct (find_primary_found u k Hfind) as (_ & d' & Hget' & Hprimary).
  rewrite Hget in Hget'. injection Hget' as <-.
  assert (Hflag : flag = true <-> limit d - used d <= 1).
  { unfold flag, checkLimit. cbn [usage_of]. rewrite Hu, Hplan.
    destruct (Z_lt_le_dec (used d) (limit d)) as [Hlt | Hle].
    - rewrite (UsageFacts.checkUsageLimit_admitted
                 (uid profile) k "free" u d w eq_refl Hget Hlt).
      cbn. rewrite Hprimary, andb_true_r. apply Z.leb_le.
    - rewrite (UsageFacts.checkUsageLimit_blocked
                 (uid profile) k "free" u d w eq_refl Hget Hle).
      cbn. rewrite Hprimary. split; [lia | reflexivity]. }
  assert (Hurgent : prompt_type prompt = urgent
                    <-> limit d - used d = 0 \/ limit d - used d = 1).
  { unfold prompt.
    pose proof (primary_prompt_spec u) as Hspec.
    destruct (primary_prompt u) as [found | ] eqn:Hfound.
    - rewrite (primary_rule_first profile u probability found Hu Hplan Hfound).
      destruct Hspec as (Htype & _ & _ & k' & d' & Hfind' & _ & Hget' & Hleft).
      rewrite Hfind in Hfind'. injection Hfind' as <-.
      rewrite Hget in Hget'. injection Hget' as <-. tauto.
    - pose proof (later_rules_not_urgent profile u probability Hu Hplan Hfound).
      destruct (Hspec k d Hfind Hk Hget). split; [contradiction | lia]. }
  split.
  - intros Hle. rewrite Hflag, Hurgent. lia.
  - intros Hover. split; [apply Hflag; lia | rewrite Hurgent; lia].
Qed.

Lemma urgent_prompt_and_upgrade_flag_witness :
  usage one_left_profile
  = Some [ ("n8n", {| used := 0; limit := 10; isPrimary := false |});
           ("zapier", {| used := 2; limit := 3; isPrimary := true |}) ] /\
  plan one_left_profile = "free" /\
  find_primary [ ("n8n", {| used := 0; limit := 10; isPrimary := false |});
                 ("zapier", {| used := 2; limit := 3; isPrimary := true |}) ]
  = Some "zapier" /\
  "zapier" <> "" /\
  2 <= 3 /\
  (willTriggerUpgrade (result (checkLimit (Some one_left_profile) "zapier") quiet_world)
   = true
   <-> prompt_type (shouldShowUpgradePrompt (Some one_left_profile) (JS.Fin 0))
       = urgent).
Proof.
  assert (Hne : "zapier" <> "") by discriminate.
  split; [reflexivity | split; [reflexivity | split; [reflexivity | ]]].
  split; [exact Hne | split; [lia | ]].
  pose proof (urgent_prompt_and_upgrade_flag one_left_profile _ "zapier"
                {| used := 2; limit := 3; isPrimary := true |} (JS.Fin 0) quiet_world
                eq_refl eq_refl eq_refl Hne eq_refl) as H.
  cbv zeta in H. apply (proj1 H). cbn. lia.
Defined.

(** [used >= limit * 0.8] on integer counters. *)
Lemma high_usage_iff (used_ limit_ : Z) :
  JSMore.geb (JS.of_Z used_) (JS.mul (JS.of_Z limit_) (JS.Fin (8 # 10))) = true
  <-> 4 * limit_ <= 5 * used_.
Proof.
  unfold JSMore.geb, JS.mul, JS.of_Z. rewrite Qle_bool_iff.
  unfold Qle, Qmult. cbn [Qnum Qden inject_Z Pos.mul]. lia.
Qed.

(** X19. An exploration prompt is shown, and names a platform of the map
    that is not primary and whose counter has reached four fifths of its
    limit. *)
Theorem exploration_prompt_names_busy_secondary
    (profile : UserProfile) (u : UserUsage) (probability : JS.number) :
  usage profile = Some u ->
  prompt_type (shouldShowUpgradePrompt (Some profile) probability) = exploration ->
  show (shouldShowUpgradePrompt (Some profile) probability) = true /\
  exists k d,
    prompt_platform (shouldShowUpgradePrompt (Some profile) probability) = Some k /\
    JS.get u k = Some d /\ isPrimary d = false /\ 4 * limit d <= 5 * used d.
Proof.
  intros Hu. unfold shouldShowUpgradePrompt. cbn [usage_of]. rewrite Hu.
  destruct (negb (String.eqb (plan profile) "free")); [discriminate | ].
  pose proof (primary_prompt_spec u) as Hspec.
  destruct (primary_prompt u) as [found | ].
  { destruct Hspec as (Htype & _). rewrite Htype. discriminate. }
  destruct (find (high_usage u)
              (filter (fun platform => negb (is_primary_key u platform)) (JS.keys u)))
    as [k | ] eqn:Hfind.
  - destruct (String.eqb k "").
    + unfold gentle_prompt. destruct (JS.gtb probability (JS.Fin (7 # 10)));
        discriminate.
    + intros _. cbn. split; [reflexivity | ].
      apply find_some in Hfind. destruct Hfind as [Hin Hhigh].
      apply filter_In in Hin. destruct Hin as [_ Hsecondary].
      unfold high_usage in Hhigh. unfold is_primary_key in Hsecondary.
      destruct (JS.get u k) as [d | ] eqn:Hget; [ | discriminate].
      exists k, d. split; [reflexivity | split; [exact Hget | split]].
      * now apply negb_true_iff.
      * now apply high_usage_iff.
  - unfold gentle_prompt. destruct (JS.gtb probability (JS.Fin (7 # 10)));
      discriminate.
Qed.

Lemma exploration_prompt_names_busy_secondary_witness :
  usage busy_secondary_profile
  = Some [ ("n8n", {| used := 9; limit := 10; isPrimary := false |});
           ("zapier", {| used := 0; limit := 3; isPrimary := true |}) ] /\
  prompt_type (shouldShowUpgradePrompt (Some busy_secondary_profile) (JS.Fin 0))
  = exploration /\
  show (shouldShowUpgradePrompt (Some busy_secondary_profile) (JS.Fin 0)) = true.
Proof.
  split; [reflexivity | split; [reflexivity | ]].
  exact (proj1 (exploration_prompt_names_busy_secondary busy_secondary_profile _
                  (JS.Fin 0) eq_refl eq_refl)).
Defined.

(** *** The probability behind the gentle prompt *)

Lemma Qle_bool_false (x y : Q) : Qle_bool x y = false <-> (y < x)%Q.
Proof.
  split.
  - intros Hb. apply Qnot_le_lt. intros Hle. apply Qle_bool_iff in Hle. congruence.
  - intros Hlt. destruct (Qle_bool x y) eqn:E; [ | reflexivity].
    apply Qle_bool_iff in E. exfalso. exact (Qlt_not_le _ _ Hlt E).
Qed.

Lemma clamp_low (b : Q) :
  (b <= 3 # 10)%Q ->
  JS.gtb (JS.min (JS.max (JS.Fin b) (JS.Fin 0)) (JS.Fin 1)) (JS.Fin (7 # 10)) = false.
Proof.
  intros Hb. unfold JS.max, JS.gtb at 2.
  destruct (Qle_bool b 0) eqn:E0; cbn [negb]; [reflexivity | ].
  unfold JS.min, JS.gtb at 2.
  destruct (Qle_bool b 1) eqn:E1; cbn [negb].
  - cbn. apply negb_false_iff. apply Qle_bool_iff. lra.
  - apply Qle_bool_false in E1. lra.
Qed.

(** With nothing used the score is the time component alone, at most 0.3. *)
Lemma idle_probability_low (u : UserUsage) (primary : UsageData) (days : Z) :
  JS.get u (primary_key u) = Some primary ->
  0 < limit primary ->
  primaryPlatformUsage (getUsageSummary u) = 0 ->
  secondaryPlatformsUsage (getUsageSummary u) = 0 ->
  exists x, predictConversionProbability u (JS.of_Z days) = JS.Ok x /\
            JS.gtb x (JS.Fin (7 # 10)) = false.
Proof.
  intros Hget Hpos Hprimary Hsecondary.
  unfold predictConversionProbability. rewrite Hget, Hprimary, Hsecondary.
  eexists. split; [reflexivity | ].
  rewrite (UsageFacts.div_by_positive 0 (limit primary) Hpos).
  cbn [Z.ltb Z.compare].
  assert (Hzero : (inject_Z 0 / inject_Z (limit primary) == 0)%Q)
    by (unfold Qdiv; apply Qmult_0_l).
  assert (Htime : exists t, JS.min (JS.div (JS.of_Z days) (JS.of_Z 14)) (JS.Fin 1)
                            = JS.Fin t /\ (t <= 1)%Q).
  { unfold JS.div, JS.of_Z, JS.sgn. cbn [Qnum inject_Z Z.compare].
    unfold JS.min, JS.gtb.
    destruct (Qle_bool (inject_Z days / inject_Z 14) 1) eqn:E; cbn.
    - eexists. split; [reflexivity | now apply Qle_bool_iff].
    - eexists. split; [reflexivity | apply Qle_refl]. }
  destruct Htime as (t & -> & Ht).
  cbn [JS.sub JS.neg JS.add JS.mul].
  apply clamp_low. rewrite Hzero. lra.
Qed.

Lemma initial_usage_idle (p : string) :
  exists primary,
    JS.get (calculateInitialUsage p) (primary_key (calculateInitialUsage p))
    = Some primary /\
    0 < limit primary /\
    primaryPlatformUsage (getUsageSummary (calculateInitialUsage p)) = 0 /\
    secondaryPlatformsUsage (getUsageSummary (calculateInitialUsage p)) = 0 /\
    primary_prompt (calculateInitialUsage p) = None /\
    find (high_usage (calculateInitialUsage p))
      (filter (fun platform => negb (is_primary_key (calculateInitialUsage p) platform))
              (JS.keys (calculateInitialUsage p)))
    = None.
Proof.
  rewrite CounterFacts.calculateInitialUsage_entries.
  unfold platforms, initial_entry. cbn [map].
  destruct (String.eqb "n8n" p), (String.eqb "zapier" p),
           (String.eqb "make" p), (String.eqb "power_automate" p);
    eexists; (split; [reflexivity | ]); repeat split.
Qed.

(** X20. A free user who has not generated anything yet is never shown an
    upgrade prompt, whichever platform was chosen at onboarding and however
    long ago the account was created. *)
Theorem fresh_user_sees_no_prompt (userId p : string) (created now : Z) :
  upgradePrompt
    (Some {| uid := userId; plan := "free"; createdAt := created;
             usage := Some (calculateInitialUsage p) |})
    now
  = JS.Ok no_prompt.
Proof.
  destruct (initial_usage_idle p)
    as (primary & Hget & Hpos & Hprimary & Hsecondary & Hblock & Hfind).
  unfold upgradePrompt, Client.conversionProbability. cbn [usage_of usage].
  destruct (idle_probability_low (calculateInitialUsage p) primary
              (daysSinceSignup now
                 {| uid := userId; plan := "free"; createdAt := created;
                    usage := Some (calculateInitialUsage p) |})
              Hget Hpos Hprimary Hsecondary) as (x & -> & Hlow).
  cbn [JS.bind]. unfold shouldShowUpgradePrompt. cbn [usage_of usage plan].
  cbn [String.eqb Ascii.eqb Bool.eqb negb].
  rewrite Hblock, Hfind. unfold gentle_prompt. rewrite Hlow. reflexivity.
Qed.

(** X21. [predictConversionProbability] throws exactly when the map has no
    [n8n] entry and no primary platform with a non-empty name is found; so
    it throws on the empty map, and never on a map with an [n8n] entry. *)
Theorem predictConversionProbability_throws_iff
    (u : UserUsage) (daysSinceSignup : JS.number) :
  (exists msg, predictConversionProbability u daysSinceSignup = JS.Throw msg)
  <-> JS.get u "n8n" = None /\
      (find_primary u = None \/ find_primary u = Some "").
Proof.
  unfold predictConversionProbability, primary_key.
  destruct (find_primary u) as [k | ] eqn:Hfind.
  - destruct (String.eqb_spec k "") as [-> | Hk].
    + destruct (JS.get u "n8n"); split.
      * intros (msg & H). discriminate H.
      * intros (H & _). discriminate H.
      * auto.
      * intros _. eexists. reflexivity.
    + destruct (find_primary_found u k Hfind) as (_ & d & Hget & _).
      rewrite Hget. split.
      * intros (msg & H). discriminate H.
      * intros (_ & [H | H]); [discriminate H | ].
        injection H as ->. contradiction.
  - destruct (JS.get u "n8n"); split.
    + intros (msg & H). discriminate H.
    + intros (H & _). discriminate H.
    + auto.
    + intros _. eexists. reflexivity.
Qed.

(** X22. After the fourteenth day the account's age no longer moves the
    score: any two ages beyond 14 days give the same probability. *)
Theorem probability_saturates_after_14_days (u : UserUsage) (d1 d2 : Q) :
  (14 < d1)%Q -> (14 < d2)%Q ->
  predictConversionProbability u (JS.Fin d1)
  = predictConversionProbability u (JS.Fin d2).
Proof.
  assert (Hsat : forall d : Q, (14 < d)%Q ->
            JS.min (JS.div (JS.Fin d) (JS.of_Z 14)) (JS.Fin 1) = JS.Fin 1).
  { intros d Hd. unfold JS.div, JS.of_Z, JS.sgn. cbn [Qnum inject_Z Z.compare].
    unfold JS.min, JS.gtb.
    assert (Hover : Qle_bool (d / inject_Z 14) 1 = false).
    { apply Qle_bool_false. apply Qlt_shift_div_l; [reflexivity | ].
      setoid_replace (1 * inject_Z 14)%Q with 14%Q by reflexivity. exact Hd. }
    rewrite Hover. reflexivity. }
  intros H1 H2. unfold predictConversionProbability.
  destruct (JS.get u (primary_key u)); [ | reflexivity].
  rewrite (Hsat d1 H1), (Hsat d2 H2). reflexivity.
Qed.

Lemma probability_saturates_after_14_days_witness :
  (14 < 15)%Q /\ (14 < 200)%Q /\
  predictConversionProbability mid_month (JS.Fin 15)
  = predictConversionProbability mid_month (JS.Fin 200).
Proof.
  assert (H1 : (14 < 15)%Q) by reflexivity.
  assert (H2 : (14 < 200)%Q) by reflexivity.
  split; [exact H1 | split; [exact H2 | ]].
  exact (probability_saturates_after_14_days mid_month 15 200 H1 H2).
Defined.

End PromptFacts.

(* ================================================================== *)
(** ** More properties of the workflow generator *)
(* ================================================================== *)

Module GeneratorMoreFacts.

Import JS OpenAI GeneratorMore.

(** Only an object can pass the check of a platform. *)
Lemma valid_is_object (w : json) (name : string) :
  valid (validateWorkflow w name) = true -> exists fields, w = JObj fields.
Proof.
  unfold validateWorkflow, validateWorkflow_checks.
  destruct (String.eqb name "n8n");
    [destruct w; cbn; try discriminate; eexists; reflexivity | ].
  destruct (String.eqb name "zapier");
    [destruct w; cbn; try discriminate; eexists; reflexivity | ].
  destruct (String.eqb name "make");
    [destruct w; cbn; try discriminate; eexists; reflexivity | ].
  destruct (String.eqb name "power_automate");
    [destruct w; cbn; try discriminate; eexists; reflexivity | ].
  cbn. discriminate.
Qed.

Lemma array_length_nonneg (v : value) : 0 <= array_length v.
Proof. destruct v as [[ | | | | items | ] | ]; cbn; lia. Qed.

Lemma keys_length_truthy (v : value) :
  truthy v = true -> exists n, keys_length v = Ok n /\ 0 <= n.
Proof.
  destruct v as [[ | | | | | ] | ]; cbn; try discriminate; intros _;
    eexists; (split; [reflexivity | lia]).
Qed.

(** Counting the nodes of an object never throws. *)
Lemma countNodes_object (fields : list (string * json)) :
  exists n, countNodes (JObj fields) = Ok n /\ 0 <= n.
Proof.
  unfold countNodes. cbn [prop bind].
  destruct (truthy (get fields "nodes") && isArray (get fields "nodes"));
    [eexists; split; [reflexivity | apply array_length_nonneg] | ].
  destruct (truthy (get fields "steps") && isArray (get fields "steps"));
    [eexists; split; [reflexivity | apply array_length_nonneg] | ].
  destruct (truthy (get fields "flow") && isArray (get fields "flow"));
    [eexists; split; [reflexivity | apply array_length_nonneg] | ].
  assert (Hopt : exists actions, opt_prop (get fields "definition") "actions" = Ok actions).
  { destruct (get fields "definition") as [[ | | | | | ] | ]; cbn; eexists; reflexivity. }
  destruct Hopt as (actions & ->). cbn [bind].
  destruct (truthy actions) eqn:Htruthy.
  - destruct (keys_length_truthy actions Htruthy) as (n & -> & Hn).
    cbn [bind]. eexists; split; [reflexivity | lia].
  - eexists; split; [reflexivity | lia].
Qed.

Lemma calculateComplexity_of_count (w : json) (text : string) (n : Z) :
  countNodes w = Ok n -> exists c, calculateComplexity w text = Ok c.
Proof.
  intros Hn. unfold calculateComplexity. rewrite Hn. cbn [bind].
  destruct (_ || _); [eexists; reflexivity | ].
  destruct (_ || _); eexists; reflexivity.
Qed.

Lemma run_checks_nil (checks : list (exc (option string))) :
  run_checks checks = [] -> Forall (fun c => c = Ok None) checks.
Proof.
  induction checks as [ | [[e | ] | msg] checks IH]; cbn; intros H;
    try discriminate H.
  - constructor.
  - constructor; [reflexivity | exact (IH H)].
Qed.

(** A valid document went through every check of its platform unreported. *)
Lemma valid_checks (w : json) (name : string) :
  valid (validateWorkflow w name) = true ->
  Forall (fun c => c = Ok None) (validateWorkflow_checks w name).
Proof.
  unfold validateWorkflow. cbn [valid]. intros H.
  apply Nat.eqb_eq, length_zero_iff_nil in H. now apply run_checks_nil.
Qed.

Lemma report_none (failed : bool) (e : string) :
  report failed e = Ok None -> failed = false.
Proof. unfold report. destruct failed; [discriminate | reflexivity]. Qed.

(** An n8n document that passes the check has a non-empty array of nodes,
    and that array is what is counted. *)
Lemma valid_n8n_count (fields : list (string * json)) :
  valid (validateWorkflow (JObj fields) "n8n") = true ->
  exists n, countNodes (JObj fields) = Ok n /\ 1 <= n.
Proof.
  intros Hvalid. apply valid_checks in Hvalid.
  unfold validateWorkflow_checks in Hvalid.
  cbn [String.eqb Ascii.eqb Bool.eqb prop bind] in Hvalid.
  inversion Hvalid as [ | c1 l1 Hnodes Hrest]; subst.
  inversion Hrest as [ | c2 l2 _ Hrest']; subst.
  inversion Hrest' as [ | c3 l3 Hlength _]; subst.
  apply report_none, orb_false_iff in Hnodes. destruct Hnodes as [Htruthy Harray].
  apply negb_false_iff in Htruthy. apply negb_false_iff in Harray.
  unfold countNodes. cbn [prop bind]. rewrite Htruthy, Harray. cbn [andb].
  rewrite Htruthy in Hlength.
  destruct (get fields "nodes") as [[ | | | | items | ] | ]; try discriminate Harray.
  cbn [prop bind String.eqb Ascii.eqb Bool.eqb] in Hlength.
  apply report_none in Hlength.
  destruct items as [ | item items]; [discriminate Hlength | ].
  eexists. split; [reflexivity | ]. cbn [array_length List.length]. lia.
Qed.

(** X23. A document that passes [validateWorkflow] is an object whose nodes
    can be counted and rated without a throw; for n8n the count is at least
    1. So nothing after the check can send [generateWorkflow] to its
    fallback. *)
Theorem valid_workflow_can_be_counted (w : json) (name text : string) :
  valid (validateWorkflow w name) = true ->
  exists n c,
    countNodes w = Ok n /\ 0 <= n /\
    calculateComplexity w text = Ok c /\
    (name = "n8n" -> 1 <= n).
Proof.
  intros Hvalid.
  destruct (valid_is_object w name Hvalid) as (fields & ->).
  destruct (countNodes_object fields) as (n & Hn & Hnonneg).
  destruct (calculateComplexity_of_count (JObj fields) text n Hn) as (c & Hc).
  exists n, c. repeat split; try assumption.
  intros ->. destruct (valid_n8n_count fields Hvalid) as (n' & Hn' & Hone).
  congruence.
Qed.

Lemma valid_workflow_can_be_counted_witness :
  valid (validateWorkflow empty_zap "zapier") = true /\
  exists n c,
    countNodes empty_zap = Ok n /\ 0 <= n /\
    calculateComplexity empty_zap "short" = Ok c /\
    ("zapier" = "n8n" -> 1 <= n).
Proof.
  split; [reflexivity | ].
  exact (valid_workflow_can_be_counted empty_zap "zapier" "short" eq_refl).
Defined.

(** A Zapier document may pass the check with no step at all: the count
    is then 0, where the n8n check insists on one node. *)
Example empty_zap_counts_zero :
  valid (validateWorkflow empty_zap "zapier") = true /\ countNodes empty_zap = Ok 0.
Proof. split; reflexivity. Qed.

Lemma fallback_is_valid (request : WorkflowGenerationRequest) (p : Platform) :
  valid (validateWorkflow (fallbackWorkflows request p) (platform_name p)) = true.
Proof. destruct p; reflexivity. Qed.

(** What every resolved [generateWorkflow] satisfies. *)
Lemma generateWorkflow_sound env request r :
  generateWorkflow env request = Ok r ->
  valid (validateWorkflow (workflow r) (platform_name (platform request))) = true /\
  countNodes (workflow r) = Ok (nodesCount (metadata r)) /\
  calculateComplexity (workflow r) (input request) = Ok (complexity (metadata r)) /\
  md_platform (metadata r) = platform request /\
  success r = true /\
  error r = None.
Proof.
  unfold generateWorkflow.
  destruct (generateWorkflow_try env request) as [r' | msg] eqn:Htry.
  - intros H; injection H as <-. unfold generateWorkflow_try in Htry.
    repeat (GenerationFacts.split_scrutinee Htry; try discriminate Htry).
    injection Htry as <-. cbn.
    match goal with
    | H : negb (valid _) = false |- _ => apply negb_false_iff in H
    end.
    repeat split; assumption.
  - unfold generateFallbackWorkflow.
    rewrite GenerationFacts.countNodes_fallback. cbn [bind].
    destruct (calculateComplexity (fallbackWorkflows request (platform request))
                (input request)) as [c | msg'] eqn:Hc; cbn [bind]; [ | discriminate].
    intros H; injection H as <-. cbn.
    repeat split; try assumption.
    + apply fallback_is_valid.
    + apply GenerationFacts.countNodes_fallback.
Qed.

(** X24. Every workflow [generateWorkflow] resolves to, generated or
    fallback, passes [validateWorkflow] for the requested platform, and its
    metadata is that of this workflow: its node count, its complexity for
    the request's input, the requested platform, and no error. *)
Theorem generated_workflow_is_valid
    (env : Env) (request : WorkflowGenerationRequest) (r : WorkflowGenerationResponse) :
  generateWorkflow env request = Ok r ->
  valid (validateWorkflow (workflow r) (platform_name (platform request))) = true /\
  countNodes (workflow r) = Ok (nodesCount (metadata r)) /\
  calculateComplexity (workflow r) (input request) = Ok (complexity (metadata r)) /\
  md_platform (metadata r) = platform request /\
  error r = None.
Proof.
  intros H. destruct (generateWorkflow_sound env request r H)
    as (H1 & H2 & H3 & H4 & _ & H6).
  auto.
Qed.

Lemma generated_workflow_is_valid_witness :
  generateWorkflow scripted_env (sample_request n8n)
  = Ok {| success := true;
          workflow := fallback_n8n;
          metadata := {| md_platform := n8n; nodesCount := 3; complexity := simple;
                         tokensUsed := 412; generationTime := 800 |};
          error := None |} /\
  valid (validateWorkflow fallback_n8n "n8n") = true.
Proof.
  split; [reflexivity | ].
  exact (proj1 (generated_workflow_is_valid scripted_env (sample_request n8n) _
                  eq_refl)).
Defined.

(** X25. For one workflow, a longer description never gets a lower
    complexity label. *)
Theorem complexity_grows_with_input
    (w : json) (text1 text2 : string) (c1 c2 : Complexity) :
  (String.length text1 <= String.length text2)%nat ->
  calculateComplexity w text1 = Ok c1 ->
  calculateComplexity w text2 = Ok c2 ->
  complexity_rank c1 <= complexity_rank c2.
Proof.
  intros Hlen. unfold calculateComplexity.
  destruct (countNodes w) as [n | msg]; cbn [bind]; [ | discriminate].
  assert (Hz : Z.of_nat (String.length text1) <= Z.of_nat (String.length text2))
    by lia.
  destruct (6 <? n) eqn:H6; cbn [orb].
  - intros H1 H2. injection H1 as <-. injection H2 as <-. cbn. lia.
  - destruct (Z.ltb_spec 150 (Z.of_nat (String.length text1))) as [Ha | Ha];
      destruct (Z.ltb_spec 150 (Z.of_nat (String.length text2))) as [Hb | Hb];
      try lia.
    + intros H1 H2. injection H1 as <-. injection H2 as <-. cbn. lia.
    + destruct (_ || _); intros H1 H2; injection H1 as <-; injection H2 as <-;
        cbn; lia.
    + destruct (3 <? n) eqn:H3; cbn [orb].
      * intros H1 H2. injection H1 as <-. injection H2 as <-. cbn. lia.
      * destruct (Z.ltb_spec 75 (Z.of_nat (String.length text1))) as [Hc | Hc];
          destruct (Z.ltb_spec 75 (Z.of_nat (String.length text2))) as [Hd | Hd];
          try lia;
          intros H1 H2; injection H1 as <-; injection H2 as <-; cbn; lia.
Qed.

Lemma complexity_grows_with_input_witness :
  (String.length "short" <= String.length "a little longer")%nat /\
  calculateComplexity fallback_make "short" = Ok simple /\
  calculateComplexity fallback_make "a little longer" = Ok simple /\
  complexity_rank simple <= complexity_rank simple.
Proof.
  assert (H : (String.length "short" <= String.length "a little longer")%nat)
    by (cbn; lia).
  split; [exact H | split; [reflexivity | split; [reflexivity | ]]].
  exact (complexity_grows_with_input fallback_make "short" "a little longer"
           simple simple H eq_refl eq_refl).
Defined.

End GeneratorMoreFacts.

(* ================================================================== *)
(** ** More properties of the workflow routes *)
(* ================================================================== *)

Module RouteMoreFacts.

Import JS Route RouteMore.

(** *** POST /api/workflows/validate *)

Lemma platform_name_truthy (p : OpenAI.Platform) :
  truthy (Some (JStr (OpenAI.platform_name p))) = true.
Proof. destruct p; reflexivity. Qed.

(** X26. Whatever [generateWorkflow] resolves to is accepted by the
    validation endpoint for the platform it was requested for: the two sides
    of the API agree on what a valid workflow is. *)
Theorem validation_accepts_generated
    (render : json -> exc string) (env : OpenAI.Env)
    (request : OpenAI.WorkflowGenerationRequest)
    (r : OpenAI.WorkflowGenerationResponse) :
  OpenAI.generateWorkflow env request = Ok r ->
  handleWorkflowValidation render
    (validation_body (OpenAI.workflow r) (OpenAI.platform request))
  = {| validation_status := 200; validation_payload := ValidationPassed |}.
Proof.
  intros Hgen.
  destruct (GeneratorMoreFacts.generateWorkflow_sound env request r Hgen)
    as (Hvalid & _).
  destruct (GeneratorMoreFacts.valid_is_object _ _ Hvalid) as (fields & Hw).
  unfold handleWorkflowValidation, validation_body.
  cbn [prop get String.eqb Ascii.eqb Bool.eqb].
  rewrite Hw in Hvalid |- *. rewrite platform_name_truthy.
  cbn [truthy negb orb validateWorkflow_any]. rewrite Hvalid. reflexivity.
Qed.

Lemma validation_accepts_generated_witness :
  OpenAI.generateWorkflow OpenAI.offline_env (OpenAI.sample_request OpenAI.make)
  = Ok (OpenAI.fallback_response OpenAI.offline_env
          (OpenAI.sample_request OpenAI.make) OpenAI.simple) /\
  handleWorkflowValidation plain_render
    (validation_body OpenAI.fallback_make OpenAI.make)
  = {| validation_status := 200; validation_payload := ValidationPassed |}.
Proof.
  split; [reflexivity | ].
  exact (validation_accepts_generated plain_render OpenAI.offline_env
           (OpenAI.sample_request OpenAI.make) _ eq_refl).
Defined.

(** X27. On any body that is not [null] or missing the validation endpoint
    answers 400 when [workflow] or [platform] is absent or falsy and 200
    otherwise; it never answers 500, even for a platform that is not a
    string or whose rendering throws. A missing or [null] body is a 500. *)
Theorem validation_endpoint_statuses (render : json -> exc string) (body : value) :
  let r := handleWorkflowValidation render body in
  (body = None \/ body = Some JNull -> validation_status r = 500) /\
  (body <> None -> body <> Some JNull ->
   exists workflow platform,
     prop body "workflow" = Ok workflow /\ prop body "platform" = Ok platform /\
     (truthy workflow && truthy platform = false ->
      r = {| validation_status := 400; validation_payload := FieldsRequired |}) /\
     (truthy workflow && truthy platform = true -> validation_status r = 200)).
Proof.
  intros r. unfold r, handleWorkflowValidation. split.
  - intros [-> | ->]; reflexivity.
  - intros Hsome Hnull.
    assert (Hprops : exists workflow platform,
               prop body "workflow" = Ok workflow /\
               prop body "platform" = Ok platform).
    { destruct body as [[ | | | | | ] | ]; cbn; try contradiction;
        do 2 eexists; split; reflexivity. }
    destruct Hprops as (workflow & platform & Hw & Hp).
    exists workflow, platform. rewrite Hw, Hp.
    split; [reflexivity | split; [reflexivity | split]].
    + intros Hfalsy. apply andb_false_iff in Hfalsy.
      destruct Hfalsy as [-> | ->]; cbn [negb orb]; [reflexivity | ].
      now rewrite orb_true_r.
    + intros Htruthy. apply andb_true_iff in Htruthy.
      destruct Htruthy as [Htw Htp]. rewrite Htw, Htp. cbn [negb orb].
      destruct workflow as [w | ]; [ | discriminate Htw].
      destruct platform as [p | ]; [ | discriminate Htp].
      destruct (OpenAI.valid (validateWorkflow_any render w p)); reflexivity.
Qed.

(** An unknown platform name is reported in a 200, not refused with a 400;
    a body without platform is refused. *)
Example validation_of_unknown_platform :
  handleWorkflowValidation plain_render
    (Some (JObj [ ("workflow", JObj []); ("platform", JStr "ifttt") ]))
  = {| validation_status := 200;
       validation_payload := ValidationErrors ["Unsupported platform: ifttt"] |} /\
  handleWorkflowValidation plain_render
    (Some (JObj [ ("workflow", JObj []) ]))
  = {| validation_status := 400; validation_payload := FieldsRequired |}.
Proof. split; reflexivity. Qed.

(** *** GET /api/workflows/history/:userId *)

Lemma slice_length {A : Type} (l : list A) (start stop : Z) :
  0 <= start <= stop ->
  Z.of_nat (List.length (JSMore.slice l start stop))
  = Z.min (stop - start) (Z.max 0 (Z.of_nat (List.length l) - start)).
Proof.
  intros [Hstart Hstop]. unfold JSMore.slice, JSMore.relative_index.
  destruct (Z.ltb_spec start 0) as [ | _]; [lia | ].
  destruct (Z.ltb_spec stop 0) as [ | _]; [lia | ].
  rewrite length_firstn, length_skipn. lia.
Qed.

(** X28. For a user id, a non-negative offset and a positive limit, the
    history page holds [min limit (max 0 (total - offset))] items, the
    answer is a 200, and [hasMore] is set exactly when items remain beyond
    the page, in which case the page is full. *)
Theorem history_page_size (now : Z) (req : HistoryRequest) :
  param_userId req <> "" ->
  0 <= or_default (parsed_offset req) 0 ->
  0 < or_default (parsed_limit req) 10 ->
  let limit := or_default (parsed_limit req) 10 in
  let offset := or_default (parsed_offset req) 0 in
  exists page pagination,
    handleWorkflowHistory now req
    = {| history_status := 200; history_payload := History page pagination |} /\
    Z.of_nat (List.length page) = Z.min limit (Z.max 0 (total pagination - offset)) /\
    (hasMore pagination = true <-> offset + limit < total pagination) /\
    (hasMore pagination = true -> Z.of_nat (List.length page) = limit).
Proof.
  intros Huser Hoffset Hlimit limit offset. unfold handleWorkflowHistory.
  destruct (String.eqb_spec (param_userId req) "") as [ | _]; [contradiction | ].
  fold limit offset. eexists. eexists. split; [reflexivity | ].
  cbn [total hasMore].
  rewrite (slice_length (mockHistory now) offset (offset + limit)) by lia.
  split; [lia | split; [apply Z.ltb_lt | ]].
  intros Hmore. apply Z.ltb_lt in Hmore. lia.
Qed.

Lemma history_page_size_witness :
  "u1" <> "" /\
  0 <= or_default (Some 1) 0 /\
  0 < or_default None 10 /\
  exists page pagination,
    handleWorkflowHistory 0
      {| param_userId := "u1"; parsed_limit := None; parsed_offset := Some 1 |}
    = {| history_status := 200; history_payload := History page pagination |} /\
    Z.of_nat (List.length page) = Z.min 10 (Z.max 0 (total pagination - 1)) /\
    (hasMore pagination = true <-> 1 + 10 < total pagination) /\
    (hasMore pagination = true -> Z.of_nat (List.length page) = 10).
Proof.
  assert (H1 : "u1" <> "") by discriminate.
  assert (H2 : 0 <= or_default (Some 1) 0) by (cbn; lia).
  assert (H3 : 0 < or_default None 10) by (cbn; lia).
  split; [exact H1 | split; [exact H2 | split; [exact H3 | ]]].
  exact (history_page_size 0
           {| param_userId := "u1"; parsed_limit := None; parsed_offset := Some 1 |}
           H1 H2 H3).
Defined.

Example history_second_page :
  handleWorkflowHistory 0
    {| param_userId := "u1"; parsed_limit := None; parsed_offset := Some 1 |}
  = {| history_status := 200;
       history_payload :=
         History
           [ {| h_id := "wf_2"; h_platform := "n8n";
                h_input := "Sync customer data between Salesforce and HubSpot";
                h_createdAt := -86400000; h_complexity := "complex";
                h_nodesCount := 8 |} ]
           {| total := 2; page_limit := 10; page_offset := 1; hasMore := false |} |}.
Proof. reflexivity. Qed.

(** A negative offset counts from the end of the history, as [slice] does,
    and is echoed as it came. *)
Example history_negative_offset :
  handleWorkflowHistory 0
    {| param_userId := "u1"; parsed_limit := Some 5; parsed_offset := Some (-1) |}
  = {| history_status := 200;
       history_payload :=
         History
           [ {| h_id := "wf_2"; h_platform := "n8n";
                h_input := "Sync customer data between Salesforce and HubSpot";
                h_createdAt := -86400000; h_complexity := "complex";
                h_nodesCount := 8 |} ]
           {| total := 2; page_limit := 5; page_offset := -1; hasMore := false |} |}.
Proof. reflexivity. Qed.

(** *** POST /api/generate-workflow, once more *)

Lemma trim_start_length (s : string) :
  (String.length (trim_start s) <= String.length s)%nat.
Proof.
  induction s as [ | c s IH]; cbn; [lia | ].
  destruct (is_space c); cbn; lia.
Qed.

Lemma trim_end_length (s : string) :
  (String.length (trim_end s) <= String.length s)%nat.
Proof.
  induction s as [ | c s IH]; cbn [trim_end]; [cbn; lia | ].
  destruct (trim_end s) as [ | c' kept]; [destruct (is_space c) | ]; cbn in *; lia.
Qed.

Lemma trim_end_idempotent (s : string) : trim_end (trim_end s) = trim_end s.
Proof.
  induction s as [ | c s IH]; [reflexivity | ]. cbn [trim_end].
  destruct (trim_end s) as [ | c' kept] eqn:Hend.
  - destruct (is_space c) eqn:Hc; [reflexivity | ].
    cbn [trim_end]. now rewrite Hc.
  - cbn [trim_end] in IH |- *. now rewrite IH.
Qed.

Lemma trim_start_head (s : string) :
  trim_start s = "" \/
  exists c rest, trim_start s = String c rest /\ is_space c = false.
Proof.
  induction s as [ | c s IH]; cbn; [now left | ].
  destruct (is_space c) eqn:Hc; [exact IH | ].
  right. now exists c, s.
Qed.

Lemma trim_end_keeps_head (c : ascii) (rest : string) :
  is_space c = false -> exists rest', trim_end (String c rest) = String c rest'.
Proof.
  intros Hc. cbn [trim_end]. destruct (trim_end rest); [rewrite Hc | ];
    eexists; reflexivity.
Qed.

Lemma trim_idempotent (s : string) : trim (trim s) = trim s.
Proof.
  unfold trim.
  destruct (trim_start_head s) as [-> | (c & rest & -> & Hc)]; [reflexivity | ].
  destruct (trim_end_keeps_head c rest Hc) as (rest' & Hend).
  rewrite Hend. cbn [trim_start]. rewrite Hc, <- Hend.
  apply trim_end_idempotent.
Qed.

Lemma trim_length (s : string) : (String.length (trim s) <= String.length s)%nat.
Proof.
  unfold trim. pose proof (trim_end_length (trim_start s)).
  pose proof (trim_start_length s). lia.
Qed.

Lemma safeParse_input_bound (body : value) (data : WorkflowGenerationBody) :
  safeParse body = inr data -> (String.length (input data) <= 2000)%nat.
Proof.
  intros H. apply RouteFacts.safeParse_accepts in H.
  destruct H as (_ & Hlen & _). lia.
Qed.

(** X29. Whatever the handler passes to the generation service is trimmed
    and at most 2000 characters long, so the length check of
    [generateWorkflow] can only ever fire on an input that became too short. *)
Theorem forwarded_input_is_trimmed_and_bounded
    (service : OpenAI.WorkflowGenerationRequest ->
               exc OpenAI.WorkflowGenerationResponse)
    (development : bool) (req : Request) (call : OpenAI.WorkflowGenerationRequest) :
  In call (service_calls (handleWorkflowGeneration service development req)) ->
  (String.length (OpenAI.input call) <= 2000)%nat /\
  trim (OpenAI.input call) = OpenAI.input call.
Proof.
  unfold handleWorkflowGeneration.
  destruct (safeParse (body req)) as [issues | data] eqn:Hparse; [intros [] | ].
  assert (Hforward : In call (service_calls (forward service development data)) ->
            (String.length (OpenAI.input call) <= 2000)%nat /\
            trim (OpenAI.input call) = OpenAI.input call).
  { unfold forward. cbn [service_calls]. intros [<- | []]. cbn [OpenAI.input].
    split; [ | apply trim_idempotent].
    pose proof (trim_length (input data)).
    pose proof (safeParse_input_bound _ _ Hparse). lia. }
  destruct (rateLimit req) as [info | ]; [ | exact Hforward].
  destruct (rl_remaining info =? 0); [intros [] | exact Hforward].
Qed.

Lemma forwarded_input_is_trimmed_and_bounded_witness :
  In {| OpenAI.input := "send a mail on signup";
        OpenAI.platform := OpenAI.zapier;
        OpenAI.userId := "u1" |}
     (service_calls
        (handleWorkflowGeneration unavailable_service false
           {| body := sample_body; rateLimit := None |})) /\
  (String.length "send a mail on signup" <= 2000)%nat /\
  trim "send a mail on signup" = "send a mail on signup".
Proof.
  assert (H : In {| OpenAI.input := "send a mail on signup";
                    OpenAI.platform := OpenAI.zapier;
                    OpenAI.userId := "u1" |}
                 (service_calls
                    (handleWorkflowGeneration unavailable_service false
                       {| body := sample_body; rateLimit := None |})))
    by (left; reflexivity).
  split; [exact H | ].
  exact (forwarded_input_is_trimmed_and_bounded unavailable_service false
           {| body := sample_body; rateLimit := None |} _ H).
Defined.

(** X30. As mounted by [createServer], a body that satisfies the schema is
    always answered with a 200 carrying a workflow that passes
    [validateWorkflow] for the platform asked for, whatever the
    chat-completion endpoint and [JSON.parse] do; any other body is answered
    with a 400 and the generator is not called. *)
Theorem post_generate_workflow_answers
    (env : OpenAI.Env) (development : bool) (body : value) :
  let outcome := Server.post_generate_workflow env development body in
  (forall i p u,
      satisfies_schema body i p u ->
      exists w metadata,
        response outcome
        = {| status := 200; payload := Generated w metadata |} /\
        gm_platform metadata = p /\
        OpenAI.valid (OpenAI.validateWorkflow w (OpenAI.platform_name p)) = true) /\
  ((forall i p u, ~ satisfies_schema body i p u) ->
   status (response outcome) = 400 /\ service_calls outcome = []).
Proof.
  intros outcome. unfold outcome, Server.post_generate_workflow,
    handleWorkflowGeneration. cbn [Route.body rateLimit].
  split.
  - intros i p u Hok.
    assert (Hparse : safeParse body = inr {| input := i; platform := p; userId := u |})
      by (apply RouteFacts.safeParse_accepts; exact Hok).
    rewrite Hparse. unfold forward. cbn [response input platform userId].
    match goal with
    | |- context [OpenAI.generateWorkflow env ?g] =>
        destruct (OpenAI.generateWorkflow env g) as [r | msg] eqn:Hgen;
        [destruct (GeneratorMoreFacts.generateWorkflow_sound env g r Hgen)
           as (Hvalid & _ & _ & Hplatform & Hsuccess & _)
        | destruct (GenerationFacts.generateWorkflow_total env g) as (r & Hr & _);
          congruence]
    end.
    rewrite Hsuccess. cbn [negb]. eexists. eexists.
    split; [reflexivity | split; [exact Hplatform | exact Hvalid]].
  - intros Hbad. destruct (safeParse body) as [issues | data] eqn:Hparse.
    + split; reflexivity.
    + exfalso. apply RouteFacts.safeParse_accepts in Hparse.
      exact (Hbad _ _ _ Hparse).
Qed.

End RouteMoreFacts.
